(** * torch-uniAD: TrackFormer, MapFormer and OccFormer

    A shallow embedding of [modules/trackformer.py], [modules/mapformer.py]
    and [modules/occformer.py].

    Tensors whose entries matter are nested lists of scalars, outermost
    axis first; a scalar is an integer, which is enough for everything the
    code does with entries here (copy, add, compare, take a maximum).
    Where only the sizes of the axes matter a tensor is its shape.
    Python exceptions are values of [exn]; code that can raise returns a
    [res]; code whose calls to submodules are observed runs in [M], which
    threads a state and keeps it when an exception is raised. *)

From Stdlib Require Import ZArith Lia.
From stdpp Require Import gmap strings list sorting.

Local Open Scope Z_scope.
Local Open Scope nat_scope.

(** ** Python: exceptions and the monads of fallible code *)

Inductive exn :=
  | AssertionError
  | AttributeError (attr : string)
  | IndexError
  | ValueError
  | RuntimeError
  | TypeError.

Inductive res (A : Type) :=
  | Ok (a : A)
  | Err (e : exn).
Arguments Ok {A} a.
Arguments Err {A} e.

#[global] Instance res_ret : MRet res := λ A a, Ok a.
#[global] Instance res_bind : MBind res := λ A B f r,
  match r with Ok a => f a | Err e => Err e end.
#[global] Instance res_fmap : FMap res := λ A B f r,
  match r with Ok a => Ok (f a) | Err e => Err e end.

(** [assert c] *)
Definition assert (c : bool) : res unit :=
  if c then Ok tt else Err AssertionError.

(** A check made by torch itself, which raises [RuntimeError]. *)
Definition assert_that (c : bool) : res unit :=
  if c then Ok tt else Err RuntimeError.

(** [x[i]] on a sequence, for an index that is not negative. *)
Definition getitem {A} (x : list A) (i : nat) : res A :=
  match x !! i with Some a => Ok a | None => Err IndexError end.

(** [[f(a) for a in l]], stopping at the first exception. *)
Fixpoint mapM {A B} (f : A → res B) (l : list A) : res (list B) :=
  match l with
  | [] => Ok []
  | a :: l' => b ← f a; bs ← mapM f l'; Ok (b :: bs)
  end.

Definition is_Ok {A} (r : res A) : Prop := ∃ a, r = Ok a.

(** ** torch: tensors as nested lists *)

Abbreviation row := (list Z) (only parsing).
Abbreviation tensor2 := (list (list Z)) (only parsing).
Abbreviation tensor3 := (list (list (list Z))) (only parsing).
Abbreviation tensor4 := (list (list (list (list Z)))) (only parsing).

(** [x.shape[1]] of a tensor with at least two axes. *)
Definition shape1 {A} (x : list (list A)) : nat :=
  match x with [] => 0 | r :: _ => length r end.

(** [x.shape[-1] == n] for a tensor with three axes: every row has [n]
    entries. *)
Definition last_dim_is (x : tensor3) (n : nat) : bool :=
  forallb (forallb (λ r : row, length r =? n)) x.

(** [m.sum()] of a boolean vector: the number of its True entries. *)
Definition mask_sum (m : list bool) : nat :=
  sum_list ((λ b : bool, if b then 1 else 0) <$> m).

(** [v.max()]: the largest entry; torch refuses a tensor without entries. *)
Definition tensor_max (v : list nat) : res nat :=
  match v with [] => Err RuntimeError | _ => Ok (max_list v) end.

(** The rows of [x] kept by a boolean mask, first to last. *)
Fixpoint masked {A} (x : list A) (mask : list bool) : list A :=
  match x, mask with
  | a :: x', b :: mask' => if b then a :: masked x' mask' else masked x' mask'
  | _, _ => []
  end.

(** [mask.nonzero()]: the positions of the True entries, ascending. *)
Fixpoint nonzero_from (k : nat) (mask : list bool) : list nat :=
  match mask with
  | [] => []
  | b :: mask' =>
      if b then k :: nonzero_from (S k) mask' else nonzero_from (S k) mask'
  end.
Definition nonzero (mask : list bool) : list nat := nonzero_from 0 mask.

(** [x[mask]] with a boolean [mask] over the first axis; the mask must be
    as long as that axis. *)
Definition bool_index {A} (x : list A) (mask : list bool) : res (list A) :=
  if decide (length x = length mask) then Ok (masked x mask)
  else Err IndexError.

(** [F.pad(x, pad=(0, 0, 0, pad_size), mode="constant", value=0)] on a
    tensor with two axes whose rows have [width] entries: [pad_size] rows
    of zeros after the last row; a negative [pad_size] removes rows. *)
Definition F_pad_rows (width : nat) (x : tensor2) (pad_size : Z) : tensor2 :=
  if (0 <=? pad_size)%Z
  then x ++ replicate (Z.to_nat pad_size) (replicate width 0%Z)
  else take (length x - Z.to_nat (- pad_size)) x.

(** [m = torch.zeros(n, dtype=bool); m[:k] = True] *)
Definition prefix_mask (n k : nat) : list bool :=
  let m := replicate n false in
  replicate (k `min` length m) true ++ drop k m.

(** [torch.stack(ts, dim=0)]: at least one tensor, all of one size. *)
Definition stack {A} (ts : list (list A)) : res (list (list A)) :=
  match ts with
  | [] => Err RuntimeError
  | t :: _ =>
      if forallb (λ u, length u =? length t) ts then Ok ts
      else Err RuntimeError
  end.

(** [torch.concat([a, b], dim=1)]: the first axes must agree. *)
Definition concat1 {A} (a b : list (list A)) : res (list (list A)) :=
  if decide (length a = length b) then Ok (zip_with app a b)
  else Err RuntimeError.

(** ** TrackFormer.forward: gathering and padding the track queries
    (lines 220 to 237) *)

Section TrackPadding.
Variable embed_dim : nat.

(** The body of the loop over the batch, for element [i]. *)
Definition pad_one (track_queries : tensor3)
    (track_queries_mask : list (list bool)) (max_num_tracks : nat)
    (i : nat) : res (tensor2 * list bool) :=
  tq_i ← getitem track_queries i;
  mask_i ← getitem track_queries_mask i;
  tracks ← bool_index tq_i mask_i;
  let num_valid_tracks := length tracks in
  let pad_size := (Z.of_nat max_num_tracks - Z.of_nat num_valid_tracks)%Z in
  let tracks := F_pad_rows embed_dim tracks pad_size in
  let tracks_mask := prefix_mask max_num_tracks num_valid_tracks in
  Ok (tracks, tracks_mask).

Definition pad_tracks (batch_size : nat) (track_queries : tensor3)
    (track_queries_mask : list (list bool))
    : res (tensor3 * list (list bool)) :=
  _ ← assert (last_dim_is track_queries embed_dim);
  _ ← assert (shape1 track_queries =? shape1 track_queries_mask);
  max_num_tracks ← tensor_max (mask_sum <$> track_queries_mask);
  padded ← mapM (pad_one track_queries track_queries_mask max_num_tracks)
                (seq 0 batch_size);
  new_track_queries ← stack (fst <$> padded);
  new_track_queries_mask ← stack (snd <$> padded);
  Ok (new_track_queries, new_track_queries_mask).
End TrackPadding.


(** ** Code that calls submodules: state and exceptions

    [M S A] is a computation over a state [S] that returns an [A] or
    raises; the state reached when it raises is kept, so that what was
    done before the exception can be read off it. *)

Definition M (S A : Type) : Type := S → res A * S.

#[global] Instance M_ret {S} : MRet (M S) := λ A a s, (Ok a, s).
#[global] Instance M_bind {S} : MBind (M S) := λ A B f m s,
  match m s with
  | (Ok a, s') => f a s'
  | (Err e, s') => (Err e, s')
  end.

Definition lift {S A} (r : res A) : M S A := λ s, (r, s).
Definition modify {S} (f : S → S) : M S unit := λ s, (Ok tt, f s).
Definition gets {S A} (f : S → A) : M S A := λ s, (Ok (f s), s).

(** ** torch: entrywise addition with broadcasting

    Two axes are compatible when they have the same size or one of them
    has size 1, which is then repeated. *)

Definition bcast {A B C} (f : A → B → res C) (x : list A) (y : list B)
    : res (list C) :=
  if decide (length x = length y) then mapM (λ p, f p.1 p.2) (zip x y)
  else match x, y with
       | [a], _ => mapM (f a) y
       | _, [b] => mapM (λ a, f a b) x
       | _, _ => Err RuntimeError
       end.

Definition tadd1 : row → row → res row := bcast (λ a b, Ok (a + b)%Z).
Definition tadd2 : tensor2 → tensor2 → res tensor2 := bcast tadd1.
Definition tadd3 : tensor3 → tensor3 → res tensor3 := bcast tadd2.

(** [x.shape[1] == n] checked on every element of the first axis. *)
Definition dim1_is {A} (x : list (list A)) (n : nat) : bool :=
  forallb (λ b, length b =? n) x.

(** ** TrackFormerDecoderLayer (lines 9 to 113)

    The tensors the layer works on live in a heap of tensor objects: a
    Python variable holds a location, [+], [torch.concat] and a submodule
    call allocate the tensor they return, and a slice is a view that
    allocates nothing.  Every call of a submodule is recorded with the
    locations of the tensors it was given. *)

Abbreviation loc := nat (only parsing).

Inductive call :=
  | SelfAttention (query key value : loc)
  | AddNorm1 (x y : loc)
  | DeformAttention (query bev_features : loc)
  | AddNorm2 (x y : loc)
  | Mlp (x : loc)
  | AddNorm3 (x y : loc).

Record layer_state := LayerState {
  heap : list (list (list (list Z)));
  calls : list call;
}.

Definition load (l : loc) : M layer_state (list (list (list Z))) :=
  λ s, (getitem (heap s) l, s).

Definition alloc (t : tensor3) : M layer_state loc :=
  λ s, (Ok (length (heap s)), LayerState (heap s ++ [t]) (calls s)).

Definition record (c : call) : M layer_state unit :=
  modify (λ s, LayerState (heap s) (calls s ++ [c])).

(** The submodules of one layer, as the functions they compute. *)
Record layer_modules := LayerModules {
  self_attention :
    tensor3 → tensor3 → tensor3 → list (list bool) → tensor3;
  addnorm1 : tensor3 → tensor3 → tensor3;
  deform_attention :
    tensor3 → list (list (list (Z * Z))) → tensor3 → nat * nat →
    list (list (list bool)) → tensor3;
  addnorm2 : tensor3 → tensor3 → tensor3;
  mlp : tensor3 → tensor3;
  addnorm3 : tensor3 → tensor3 → tensor3;
}.

Section TrackFormerDecoderLayer.
Variable embed_dim : nat.
Variable bev_feature_shape : nat * nat.
Variable layer : layer_modules.

(** Lines 91 to 95, and again lines 101 to 105 with [out2] for
    [q_and_k]: the detection queries are added to the last rows of [x]
    in a new tensor. *)
Definition add_det_queries (num_tracks : Z) (x og_det_queries : loc)
    : M layer_state loc :=
  xv ← load x;
  og ← load og_det_queries;
  if (0 <? num_tracks)%Z then
    let n := Z.to_nat num_tracks in
    let head := take n <$> xv in
    sum ← lift (tadd3 (drop n <$> xv) og) ≫= alloc;
    tail ← load sum;
    lift (concat1 head tail) ≫= alloc
  else
    lift (tadd3 xv og) ≫= alloc.

Definition TrackFormerDecoderLayer_forward
    (queries bev_features : loc) (ref_points : list (list (list (Z * Z))))
    (og_det_queries : loc) (padding_mask : list (list bool))
    : M layer_state loc :=
  let '(H_bev, W_bev) := bev_feature_shape in
  qv ← load queries;
  bev ← load bev_features;
  og ← load og_det_queries;
  _ ← lift (assert (dim1_is bev (H_bev * W_bev)));
  _ ← lift (assert (last_dim_is bev embed_dim && last_dim_is qv embed_dim));
  let bev_spatial_shape := (H_bev, W_bev) in
  let num_queries := shape1 qv in
  let num_det := shape1 og in
  let num_tracks := (Z.of_nat num_queries - Z.of_nat num_det)%Z in
  q_and_k ← add_det_queries num_tracks queries og_det_queries;
  qk ← load q_and_k;
  _ ← record (SelfAttention q_and_k q_and_k queries);
  out1 ← alloc (self_attention layer qk qk qv padding_mask);
  o1 ← load out1;
  _ ← record (AddNorm1 queries out1);
  out2 ← alloc (addnorm1 layer qv o1);
  o2 ← load out2;
  aug_out2 ← add_det_queries num_tracks out2 og_det_queries;
  a2 ← load aug_out2;
  _ ← record (DeformAttention aug_out2 bev_features);
  out3 ← alloc (deform_attention layer a2 ref_points bev bev_spatial_shape
                  ((λ m : list bool, (λ b : bool, [b]) <$> m) <$> padding_mask));
  o3 ← load out3;
  _ ← record (AddNorm2 out2 out3);
  out4 ← alloc (addnorm2 layer o2 o3);
  o4 ← load out4;
  _ ← record (Mlp out4);
  out5 ← alloc (mlp layer o4);
  o5 ← load out5;
  _ ← record (AddNorm3 out4 out5);
  alloc (addnorm3 layer o4 o5).

(** The layer as a function of the tensors it is given: it runs on a heap
    that holds them and returns the tensor at the location it returns. *)
Definition decoder_layer (queries bev_features : tensor3)
    (ref_points : list (list (list (Z * Z))))
    (og_det_queries : tensor3) (padding_mask : list (list bool))
    : res tensor3 :=
  let s0 := LayerState [queries; bev_features; og_det_queries] [] in
  match TrackFormerDecoderLayer_forward 0 1 ref_points 2 padding_mask s0 with
  | (Ok out, s) => getitem (heap s) out
  | (Err e, _) => Err e
  end.
End TrackFormerDecoderLayer.

(** ** TrackFormer.forward (lines 174 to 268) *)

(** Modelled from the spec: [PosEmbedding1D] is not among the sources.
    The spec has the detection-query block be the [max_detections] slots
    of the positional-embedding table, the same on every call;
    [pos_table] stands for the embedding of a slot. *)
Definition PosEmbedding1D (pos_table : nat → list Z) (num_slots : nat)
    : tensor2 :=
  pos_table <$> seq 0 num_slots.

(** Modelled from the spec:
    [DeformableAttention.generate_standard_ref_points] is not among the
    sources.  The spec has it generate one reference point per query, a
    uniform grid over the BEV shape whose length is that of the query set,
    the same for every batch element; [grid_point] stands for the
    coordinates of a point of the grid. *)
Definition generate_standard_ref_points
    (grid_point : nat * nat → nat → nat → Z * Z)
    (bev_feature_shape : nat * nat) (batch_size n_sample : nat)
    : list (list (Z * Z)) :=
  replicate batch_size (grid_point bev_feature_shape n_sample <$> seq 0 n_sample).

(** The submodule calls of [TrackFormer.forward] that are recorded: the
    decoder layers and the detection head, with the index of the decoder
    layer they belong to.  The positional embedding of line 208, which
    is evaluated once before the track queries are looked at, is the
    function [PosEmbedding1D]; it is not recorded. *)
Inductive forward_call :=
  | DecoderLayer (decoder_idx : nat)
  | DetectionModule (decoder_idx : nat).

(** What [forward] returns: the pair [(output, layers_detections)], or the
    detections alone. *)
Inductive forward_ret :=
  | RetPair (output : list (list (list Z)))
            (layers_detections : list (list (list (list Z))))
  | RetDetections (detections : list (list (list Z))).

Record query_set := QuerySet {
  queries : list (list (list Z));
  padding_mask : list (list bool);
  ref_points : list (list (list (Z * Z)));
  detection_queries : list (list (list Z));
}.

Section TrackFormer.
Variables embed_dim num_layers max_detections : nat.
Variable bev_feature_shape : nat * nat.
Variable training : bool.
Variable pos_table : nat → list Z.
Variable grid_point : nat * nat → nat → nat → Z * Z.
Variable layers : nat → layer_modules.
Variable detection_module : tensor3 → tensor3.

(** [_create_decoder_layers]: one layer per index below [num_layers]. *)
Definition decoder_modules : list layer_modules :=
  layers <$> seq 0 num_layers.

(** Lines 204 to 249: the query set, its padding mask and the reference
    points.  The width of the track queries is checked on line 220, before
    line 221 reads the shape of the mask, which [None] does not have;
    [pad_tracks] holds both checks. *)
Definition build_query_set (bev_features : tensor3)
    (track_queries : option tensor3)
    (track_queries_mask : option (list (list bool))) : res query_set :=
  _ ← assert (last_dim_is bev_features embed_dim);
  let batch_size := length bev_features in
  let detection_queries :=
    replicate batch_size (PosEmbedding1D pos_table max_detections) in
  let padding_mask :=
    (λ q : tensor2, replicate (length q) true) <$> detection_queries in
  '(queries, padding_mask) ←
    match track_queries with
    | Some track_queries =>
        _ ← assert (last_dim_is track_queries embed_dim);
        track_queries_mask ←
          match track_queries_mask with
          | Some m => Ok m
          | None => Err (AttributeError "shape")
          end;
        '(track_queries, track_queries_mask) ←
          pad_tracks embed_dim batch_size track_queries track_queries_mask;
        queries ← concat1 track_queries detection_queries;
        padding_mask ← concat1 track_queries_mask padding_mask;
        Ok (queries, padding_mask)
    | None => Ok (detection_queries, padding_mask)
    end;
  let ref_points :=
    (λ pts : list (Z * Z), (λ p, [p]) <$> pts) <$>
      generate_standard_ref_points grid_point bev_feature_shape batch_size
        (shape1 queries) in
  Ok (QuerySet queries padding_mask ref_points detection_queries).

(** Lines 251 to 268: the loop over the decoder layers, from the indices
    still to visit, the last [output] and the detections collected so
    far.  Every layer is given the query set built above. *)
Fixpoint decoder_loop (qs : query_set) (bev_features : tensor3)
    (idxs : list nat) (output : option tensor3)
    (layers_detections : list (list (list (list Z))))
    : M (list forward_call) forward_ret :=
  match idxs with
  | decoder_idx :: idxs' =>
      layer ← lift (getitem decoder_modules decoder_idx);
      _ ← modify (λ log, log ++ [DecoderLayer decoder_idx]);
      output ← lift (decoder_layer embed_dim bev_feature_shape layer
                       (queries qs) bev_features (ref_points qs)
                       (detection_queries qs) (padding_mask qs));
      if negb training then
        if (Z.of_nat decoder_idx =? Z.of_nat num_layers - 1)%Z then
          _ ← modify (λ log, log ++ [DetectionModule decoder_idx]);
          mret (RetDetections (detection_module output))
        else
          decoder_loop qs bev_features idxs' (Some output) layers_detections
      else
        _ ← modify (λ log, log ++ [DetectionModule decoder_idx]);
        let detections := detection_module output in
        decoder_loop qs bev_features idxs' (Some output)
          (layers_detections ++ [detections])
  | [] =>
      layers_detections ← lift (stack layers_detections);
      match output with
      | Some output => mret (RetPair output layers_detections)
      | None => lift (Err RuntimeError)
      end
  end.

Definition TrackFormer_forward (bev_features : tensor3)
    (track_queries : option tensor3)
    (track_queries_mask : option (list (list bool)))
    : M (list forward_call) forward_ret :=
  qs ← lift (build_query_set bev_features track_queries track_queries_mask);
  decoder_loop qs bev_features (seq 0 (length decoder_modules)) None [].
End TrackFormer.

(** ** Vocabulary of the statements *)

(** A tensor of shape [(n0, n1, n2)]. *)
Definition has_shape (n0 n1 n2 : nat) (x : tensor3) : Prop :=
  length x = n0 ∧
  Forall (λ t : tensor2, length t = n1 ∧ Forall (λ r : row, length r = n2) t) x.


(** A submodule that returns a tensor of the shape of its first input. *)
Definition keeps_shape (f : tensor3 → tensor3) : Prop :=
  ∀ n0 n1 n2 x, has_shape n0 n1 n2 x → has_shape n0 n1 n2 (f x).

(** The tensor that [add_det_queries] builds from tensors [x] and [og]
    of matching shapes. *)
Definition with_det_queries (num_tracks : nat) (x og : tensor3) : tensor3 :=
  zip_with (λ xi ogi : tensor2,
              take num_tracks xi
              ++ zip_with (zip_with Z.add) (drop num_tracks xi) ogi) x og.

(** ** Python objects and their attributes

    The values a constructor is given, and an object as the dictionary of
    its attributes.  A float is [mantissa * 2 ^ exponent]; a module is
    known by the class it was built from and the arguments it was given. *)

#[warnings="-register-all"] Inductive pyval :=
  | PyNone
  | PyBool (b : bool)
  | PyInt (z : Z)
  | PyFloat (mantissa exponent : Z)
  | PyTuple (items : list pyval)
  | PyModule (class : string) (kwargs : list (string * pyval))
  | PyModuleList (modules : list pyval).

(** [self.name = v] *)
Definition setattr (name : string) (v : pyval) : M (gmap string pyval) unit :=
  modify (λ self, <[name := v]> self).

(** [self.name]: an attribute that was never assigned raises. *)
Definition getattr (name : string) : M (gmap string pyval) pyval :=
  λ self, (match self !! name with
           | Some v => Ok v
           | None => Err (AttributeError name)
           end, self).

(** [x > 0] *)
Definition py_gt_0 (x : pyval) : res bool :=
  match x with
  | PyInt z => Ok (0 <? z)%Z
  | PyBool b => Ok b
  | PyFloat m _ => Ok (0 <? m)%Z
  | _ => Err TypeError
  end.

(** [range(n)] *)
Definition py_range (n : pyval) : res (list nat) :=
  match n with
  | PyInt z => Ok (seq 0 (Z.to_nat z))
  | PyBool b => Ok (seq 0 (if b then 1 else 0))
  | _ => Err TypeError
  end.

(** The parameters of [TrackFormer.__init__], once bound. *)
Record TrackFormer_args := {
  arg_num_heads : pyval;
  arg_embed_dim : pyval;
  arg_num_layers : pyval;
  arg_num_classes : pyval;
  arg_num_ref_points : pyval;
  arg_dim_feedforward : pyval;
  arg_dropout : pyval;
  arg_offset_scale : pyval;
  arg_max_detections : pyval;
  arg_learnable_pe : pyval;
  arg_bev_feature_shape : pyval;
  arg_track_threshold : pyval;
  arg_det_3d : pyval;
}.

Section Constructors.
(** The constructors of the classes that are not among the sources
    ([PosEmbedding1D], [DetectionHead], [ConvBNorm], the attention
    modules) are not modelled: [construct class kwargs] is what calling
    one returns, a module or an exception. *)
Variable construct : string → list (string * pyval) → res pyval.

(** [TrackFormerDecoderLayer.__init__] (lines 20 to 51); its own
    attributes stay inside the object it returns. *)
Definition TrackFormerDecoderLayer_new (kwargs : list (string * pyval))
    : res pyval :=
  _ ← construct "MultiHeadedAttention" kwargs;
  _ ← construct "AddNorm" kwargs;
  _ ← construct "DeformableAttention" kwargs;
  _ ← construct "AddNorm" kwargs;
  _ ← construct "Sequential" kwargs;
  _ ← construct "AddNorm" kwargs;
  Ok (PyModule "TrackFormerDecoderLayer" kwargs).

(** [TrackFormer._create_decoder_layers] (lines 162 to 171) *)
Definition _create_decoder_layers : M (gmap string pyval) pyval :=
  num_heads ← getattr "num_heads";
  embed_dim ← getattr "embed_dim";
  num_ref_points ← getattr "num_ref_points";
  dim_feedforward ← getattr "dim_feedforward";
  dropout ← getattr "dropout";
  offset_scale ← getattr "offset_scale";
  bev_feature_shape ← getattr "bev_feature_shape";
  num_layers ← getattr "num_layers";
  idxs ← lift (py_range num_layers);
  layers ← lift (mapM (λ _ : nat,
              TrackFormerDecoderLayer_new
                [("num_heads", num_heads); ("embed_dim", embed_dim);
                 ("num_ref_points", num_ref_points);
                 ("dim_feedforward", dim_feedforward);
                 ("dropout", dropout); ("offset_scale", offset_scale);
                 ("bev_feature_shape", bev_feature_shape)]) idxs);
  mret (PyModuleList layers).

(** [TrackFormer.__init__] (lines 133 to 160) on a new object. *)
Definition TrackFormer___init__ (a : TrackFormer_args)
    : M (gmap string pyval) unit :=
  _ ← setattr "training" (PyBool true);
  _ ← setattr "num_heads" (arg_num_heads a);
  _ ← setattr "embed_dim" (arg_embed_dim a);
  _ ← setattr "num_layers" (arg_num_layers a);
  _ ← setattr "num_classes" (arg_num_classes a);
  _ ← setattr "num_ref_points" (arg_num_ref_points a);
  _ ← setattr "dim_feedforward" (arg_dim_feedforward a);
  _ ← setattr "dropout" (arg_dropout a);
  _ ← setattr "offset_scale" (arg_offset_scale a);
  _ ← setattr "max_detections" (arg_max_detections a);
  _ ← setattr "learnable_pe" (arg_learnable_pe a);
  _ ← setattr "bev_feature_shape" (arg_bev_feature_shape a);
  _ ← setattr "track_threshold" (arg_track_threshold a);
  _ ← setattr "det_3d" (arg_det_3d a);
  max_detections ← getattr "max_detections";
  embed_dim ← getattr "embed_dim";
  pos_emb ← lift (construct "PosEmbedding1D"
                    [("", max_detections); ("embed_dim", embed_dim);
                     ("learnable", arg_learnable_pe a)]);
  _ ← setattr "detection_pos_emb" pos_emb;
  decoder_modules ← _create_decoder_layers;
  _ ← setattr "decoder_modules" decoder_modules;
  embed_dim ← getattr "embed_dim";
  num_classes ← getattr "num_classes";
  det_3d ← getattr "det_3d";
  head ← lift (construct "DetectionHead"
                 [("embed_dim", embed_dim); ("num_classes", num_classes);
                  ("det_3d", det_3d); ("num_seg_coefs", PyNone)]);
  setattr "detection_module" head.

(** [ProtoSegModule.__init__] (mapformer.py, lines 8 to 19) *)
Definition ProtoSegModule_new (in_channels out_channels c_h : pyval)
    : res pyval :=
  _ ← construct "ConvBNorm"
        [("", in_channels); ("", c_h); ("kernel_size", PyInt 3)];
  _ ← construct "ConvBNorm" [("", c_h); ("", c_h); ("kernel_size", PyInt 3)];
  _ ← construct "ConvBNorm"
        [("", c_h); ("", out_channels); ("kernel_size", PyInt 1)];
  Ok (PyModule "ProtoSegModule"
        [("in_channels", in_channels); ("out_channels", out_channels);
         ("c_h", c_h)]).

(** [MapFormer.__init__] (mapformer.py, lines 34 to 53) *)
Definition MapFormer___init__ (a : TrackFormer_args)
    (num_seg_coeffs seg_c_h : pyval) : M (gmap string pyval) unit :=
  _ ← TrackFormer___init__ a;
  positive ← lift (py_gt_0 num_seg_coeffs);
  _ ← lift (assert positive);
  _ ← setattr "num_seg_coeffs" num_seg_coeffs;
  _ ← setattr "seg_c_h" seg_c_h;
  embed_dim ← getattr "embed_dim";
  proto ← lift (ProtoSegModule_new embed_dim num_seg_coeffs seg_c_h);
  _ ← setattr "proto_seg_module" proto;
  embed_dim ← getattr "embed_dim";
  num_obj_classes ← getattr "num_obj_classes";
  det_3d ← getattr "det_3d";
  num_seg_coeffs ← getattr "num_seg_coeffs";
  head ← lift (construct "DetectionHead"
                 [("embed_dim", embed_dim);
                  ("num_obj_class", num_obj_classes);
                  ("det_3d", det_3d); ("num_seg_coefs", num_seg_coeffs)]);
  setattr "detection_module" head.

(** [MapFormer(...)]: a new object, initialised; the object is returned
    only if [__init__] does. *)
Definition MapFormer_new (a : TrackFormer_args)
    (num_seg_coeffs seg_c_h : pyval) : res (gmap string pyval) :=
  match MapFormer___init__ a num_seg_coeffs seg_c_h ∅ with
  | (Ok _, self) => Ok self
  | (Err e, _) => Err e
  end.
End Constructors.

(** A computation on an object that keeps a property of its attributes,
    whether it returns or raises. *)
Definition preserves {A} (P : gmap string pyval → Prop)
    (m : M (gmap string pyval) A) : Prop :=
  ∀ self r self', m self = (r, self') → P self → P self'.

(** ** MapFormer.forward (mapformer.py, lines 55 to 99)

    What the parent's [forward] returns is unpacked and indexed without
    knowing how many axes it has, so here a tensor carries its shape and
    its entries in row-major order. *)

Record tensor := Tensor { shape : list nat; data : list Z }.

#[warnings="-register-all"] Inductive pyobj :=
  | PTensor (t : tensor)
  | PTuple (items : list pyobj).

Definition numel (shape : list nat) : nat := foldr Nat.mul 1 shape.

(** The tensor of a nested list with three axes, and with four. *)
Definition of_tensor3 (x : tensor3) : tensor :=
  Tensor [length x; shape1 x; shape1 (mjoin x)] (mjoin (mjoin x)).
Definition of_tensor4 (x : tensor4) : tensor :=
  Tensor [length x; shape1 x; shape1 (mjoin x); shape1 (mjoin (mjoin x))]
         (mjoin (mjoin (mjoin x))).

(** [l] cut into [n] pieces of [k] entries. *)
Definition chunks {A} (n k : nat) (l : list A) : list (list A) :=
  reshape (replicate n k) l.

(** The nested list of a tensor with four axes. *)
Definition to_tensor4 (t : tensor) : res tensor4 :=
  match shape t with
  | [n0; n1; n2; n3] =>
      Ok ((λ b, (λ c, chunks n2 n3 c) <$> chunks n1 (n2 * n3) b)
            <$> chunks n0 (n1 * n2 * n3) (data t))
  | _ => Err RuntimeError
  end.

Definition of_ret (r : forward_ret) : pyobj :=
  match r with
  | RetPair output layers_detections =>
      PTuple [PTensor (of_tensor3 output);
              PTensor (of_tensor4 layers_detections)]
  | RetDetections detections => PTensor (of_tensor3 detections)
  end.

(** [a, b, ... = v] with [n] names on the left: a tuple must have [n]
    items; a tensor is iterated over its first axis, which must have size
    [n]. *)
Definition unpack (n : nat) (v : pyobj) : res (list pyobj) :=
  match v with
  | PTuple items =>
      if decide (length items = n) then Ok items else Err ValueError
  | PTensor t =>
      match shape t with
      | [] => Err TypeError
      | k :: rest =>
          if decide (k = n)
          then Ok ((λ d, PTensor (Tensor rest d))
                     <$> chunks k (numel rest) (data t))
          else Err ValueError
      end
  end.

(** [v.shape[-1]] *)
Definition shape_last (v : pyobj) : res nat :=
  match v with
  | PTuple _ => Err (AttributeError "shape")
  | PTensor t =>
      match last (shape t) with Some k => Ok k | None => Err IndexError end
  end.

(** The bound of a slice over an axis of size [n], as Python clips it. *)
Definition slice_bound (i : Z) (n : nat) : nat :=
  if (i <? 0)%Z then Z.to_nat (Z.max 0 (i + Z.of_nat n))
  else Z.to_nat (Z.min i (Z.of_nat n)).

(** [v[..., i:]] and [v[..., :i]] *)
Definition slice_last (from_i : bool) (i : Z) (v : pyobj) : res pyobj :=
  match v with
  | PTuple _ => Err TypeError
  | PTensor t =>
      match last (shape t) with
      | None => Err IndexError
      | Some k =>
          let b := slice_bound i k in
          let rows := chunks (length (data t) / k) k (data t) in
          let cut (r : list Z) := if from_i then drop b r else take b r in
          Ok (PTensor (Tensor (removelast (shape t)
                                 ++ [if from_i then k - b else b])
                              (mjoin (cut <$> rows))))
      end
  end.

(** [v[..., None]] *)
Definition unsqueeze_last (v : pyobj) : res tensor :=
  match v with
  | PTuple _ => Err TypeError
  | PTensor t => Ok (Tensor (shape t ++ [1]) (data t))
  end.

(** Entrywise sum of matrices, and a matrix times a scalar. *)
Definition madd (x y : tensor2) : tensor2 := zip_with (zip_with Z.add) x y.
Definition mscale (c : Z) (x : tensor2) : tensor2 :=
  (λ r : list Z, Z.mul c <$> r) <$> x.
Definition msum (ms : list (list (list Z))) : tensor2 :=
  match ms with [] => [] | m :: ms' => foldl madd m ms' end.

(** [torch.einsum("nast,nshw->nahw", a, b)]: for every [n] and [a], the
    sum over [s] and [t] of [a[n][a][s][t] * b[n][s]]. *)
Definition einsum_nast_nshw (a b : tensor4) : res tensor4 :=
  _ ← assert_that (length a =? length b);
  mapM (λ p : list (list (list Z)) * list (list (list Z)),
          mapM (λ coefs : list (list Z),
                  _ ← assert_that (length coefs =? length p.2);
                  Ok (msum (zip_with (λ ct m, mscale (foldr Z.add 0%Z ct) m)
                                     coefs p.2)))
               p.1)
       (zip a b).

(** [bev_features.permute(0, 2, 1).reshape(batch_size, embed_dim, H, W)] *)
Definition transpose (ncols : nat) (m : tensor2) : tensor2 :=
  (λ j, (λ r : list Z, nth j r 0%Z) <$> m) <$> seq 0 ncols.

Definition bev_to_grid (embed_dim : nat) (bev_feature_shape : nat * nat)
    (bev_features : tensor3) : res tensor4 :=
  let '(H_bev, W_bev) := bev_feature_shape in
  mapM (λ b : list (list Z),
          let flat := mjoin (transpose (shape1 b) b) in
          _ ← assert_that (length flat =? embed_dim * (H_bev * W_bev));
          Ok ((λ c, chunks H_bev W_bev c)
                <$> chunks embed_dim (H_bev * W_bev) flat))
       bev_features.

Section MapFormer.
Variables embed_dim num_layers max_detections : nat.
Variable bev_feature_shape : nat * nat.
Variable training : bool.
Variable pos_table : nat → list Z.
Variable grid_point : nat * nat → nat → nat → Z * Z.
Variable layers : nat → layer_modules.
Variable detection_module : tensor3 → tensor3.
Variable num_seg_coeffs : nat.
Variable proto_seg_module : tensor4 → tensor4.

Definition MapFormer_forward (bev_features : tensor3)
    (track_queries : option tensor3)
    (track_queries_mask : option (list (list bool)))
    : M (list forward_call) (pyobj * pyobj * tensor4 * pyobj * pyobj) :=
  ret ← TrackFormer_forward embed_dim num_layers max_detections
          bev_feature_shape training pos_table grid_point layers
          detection_module bev_features track_queries track_queries_mask;
  items ← lift (unpack 4 (of_ret ret));
  match items with
  | [output; detections; track_queries_mask; layers_results] =>
      width ← lift (shape_last detections);
      let coef_dim_trunc := (Z.of_nat width - Z.of_nat num_seg_coeffs)%Z in
      mask_coefs ← lift (slice_last true coef_dim_trunc detections);
      detections ← lift (slice_last false coef_dim_trunc detections);
      bev_grid ← lift (bev_to_grid embed_dim bev_feature_shape bev_features);
      let protos := proto_seg_module bev_grid in
      coefs ← lift (unsqueeze_last mask_coefs ≫= to_tensor4);
      masks ← lift (einsum_nast_nshw coefs protos);
      mret (output, detections, masks, track_queries_mask, layers_results)
  | _ => lift (Err ValueError)
  end.
End MapFormer.

(** ** torch: the shapes of tensors

    [OccFormer] is followed on the shapes of its tensors: a tensor is the
    list of the sizes of its axes. *)

Abbreviation shp := (list nat) (only parsing).

(** Two sizes that broadcast against each other, and two shapes, aligned
    on their last axes. *)
Definition bdim (a b : nat) : res nat :=
  if a =? b then Ok a
  else if a =? 1 then Ok b
  else if b =? 1 then Ok a
  else Err RuntimeError.

Fixpoint bshape_rev (r1 r2 : list nat) : res (list nat) :=
  match r1, r2 with
  | [], r => Ok r
  | r, [] => Ok r
  | a :: r1', b :: r2' =>
      d ← bdim a b; rest ← bshape_rev r1' r2'; Ok (d :: rest)
  end.

Definition bshape (s1 s2 : shp) : res shp :=
  reverse <$> bshape_rev (reverse s1) (reverse s2).

(** [x.permute(dims)] *)
Definition permute (dims : list nat) (s : shp) : res shp :=
  _ ← assert_that (length dims =? length s);
  mapM (getitem s) dims.

(** [x.reshape(target)], where [None] stands for [-1]. *)
Definition reshape_shape (target : list (option nat)) (s : shp) : res shp :=
  let n := numel s in
  let p := numel (omap id target) in
  match length target - length (omap id target) with
  | 0 => _ ← assert_that (p =? n); Ok (omap id target)
  | 1 =>
      _ ← assert_that (negb (p =? 0) && (n mod p =? 0));
      Ok (from_option id (n / p) <$> target)
  | _ => Err RuntimeError
  end.

(** *** Double precision

    [nn.Upsample] computes the size of a side in double precision.  A
    positive double is a mantissa [m], with [2^52 ≤ m < 2^53], and an
    exponent [e], for the number [m * 2^e]; sizes and scale factors stay
    far from the ends of the range of the exponent, which is left
    unbounded here.  A result is rounded to the nearest double, and to
    the even mantissa when two are as near. *)

(** The integer nearest to [p / q], the even one of two. *)
Definition round_half_even (p q : Z) : Z :=
  let f := (p / q)%Z in
  let r := (p mod q)%Z in
  if (2 * r <? q)%Z then f
  else if (q <? 2 * r)%Z then (f + 1)%Z
  else if Z.even f then f else (f + 1)%Z.

(** The double nearest to [n * 2^e], for an integer [n > 0]. *)
Definition double_round (n e : Z) : Z * Z :=
  let l := Z.log2 n in
  if (l <=? 52)%Z then ((n * 2 ^ (52 - l))%Z, (e + l - 52)%Z)
  else
    let m := round_half_even n (2 ^ (l - 52)) in
    if (m =? 2 ^ 53)%Z then ((2 ^ 52)%Z, (e + l - 52 + 1)%Z)
    else (m, (e + l - 52)%Z).

(** [float(n)] *)
Definition double_of_int (n : Z) : Z * Z := double_round n 0.

(** [1 / s], for an int [s > 0] *)
Definition double_inv (s : Z) : Z * Z :=
  let l := Z.log2 s in
  if (s =? 2 ^ l)%Z then ((2 ^ 52)%Z, (- l - 52)%Z)
  else
    let m := round_half_even (2 ^ (l + 53)) s in
    if (m =? 2 ^ 53)%Z then ((2 ^ 52)%Z, (- (l + 53) + 1)%Z)
    else (m, (- (l + 53))%Z).

(** [x * y] *)
Definition double_mul (x y : Z * Z) : Z * Z :=
  double_round (x.1 * y.1) (x.2 + y.2).

(** [math.floor(x)] *)
Definition double_floor (x : Z * Z) : Z :=
  if (0 <=? x.2)%Z then (x.1 * 2 ^ x.2)%Z else (x.1 / 2 ^ (- x.2))%Z.

(** The scale factors that the layers are built with: [scale_factor=s]
    and [scale_factor=1 / s], for an int [s]. *)
Inductive scale_factor : Type :=
  | Times (s : nat)
  | Over (s : nat).

(** The size that [nn.Upsample] gives a side of size [h]: the floor of
    the double [h * scale_factor].  With [1 / s] two roundings come in,
    that of the quotient and that of the product.  The product of [h] and
    an int [s] is exact in double precision while it is below [2^53]; it
    is written as the product of the integers.  A side without entries
    stays without entries; no layer is built with [1 / 0], and the size
    is 0 for it. *)
Definition upsampled_size (scale : scale_factor) (h : nat) : nat :=
  match scale with
  | Times s => h * s
  | Over s =>
      if (h =? 0) || (s =? 0) then 0
      else Z.to_nat (double_floor
                       (double_mul (double_of_int (Z.of_nat h))
                                   (double_inv (Z.of_nat s))))
  end.

(** [nn.Upsample(scale_factor=scale, mode="bilinear")] *)
Definition Upsample (scale : scale_factor) (s : shp) : res shp :=
  match s with
  | [n; c; h; w] =>
      let h' := upsampled_size scale h in
      let w' := upsampled_size scale w in
      _ ← assert_that ((0 <? h') && (0 <? w'));
      Ok [n; c; h'; w']
  | _ => Err RuntimeError
  end.

(** [torch.matmul] of two tensors with three axes. *)
Definition matmul (a b : shp) : res shp :=
  match a, b with
  | [n; p; q], [n'; q'; r] =>
      _ ← assert_that (q =? q'); m ← bdim n n'; Ok [m; p; r]
  | _, _ => Err RuntimeError
  end.

(** [torch.concat(ss, dim=-1)] *)
Definition concat_last (ss : list (list nat)) : res (list nat) :=
  match ss with
  | [] => Err RuntimeError
  | s :: _ =>
      _ ← assert_that (forallb (λ u, bool_decide (removelast u = removelast s)
                                      && negb (length u =? 0)) ss);
      Ok (removelast s ++ [sum_list ((λ u, List.last u 0) <$> ss)])
  end.

(** [torch.stack(ss, dim=2)] *)
Definition stack_dim2 (ss : list (list nat)) : res (list nat) :=
  match ss with
  | [] => Err RuntimeError
  | s :: _ =>
      _ ← assert_that (forallb (λ u, bool_decide (u = s)) ss
                       && (2 <=? length s));
      Ok (take 2 s ++ [length ss] ++ drop 2 s)
  end.

(** [nn.MaxPool2d(kernel_size=(kh, kw), stride=1)] on a batch of planes:
    no axis but the first may be empty, and a window must fit. *)
Definition MaxPool2d_shape (kh kw : nat) (s : shp) : res shp :=
  match s with
  | [n; c; h; w] =>
      _ ← assert_that ((0 <? c) && (0 <? kh) && (0 <? kw)
                       && (kh <=? h) && (kw <=? w));
      Ok [n; c; h - kh + 1; w - kw + 1]
  | _ => Err RuntimeError
  end.

(** [x[..., 0, :]] *)
Definition index0_before_last (s : shp) : res shp :=
  match reverse s with
  | w :: h :: rest => if 0 <? h then Ok (reverse rest ++ [w]) else Err IndexError
  | _ => Err IndexError
  end.

(** A linear layer from [n_in] to [n_out] features, on the last axis. *)
Definition Linear_shape (n_in n_out : nat) (s : shp) : res shp :=
  match reverse s with
  | d :: rest =>
      _ ← assert_that (d =? n_in); Ok (reverse rest ++ [n_out])
  | [] => Err RuntimeError
  end.

(** A convolution over [c_in] channels that keeps the grid, and a
    transposed convolution whose kernel and stride are [k]. *)
Definition Conv_shape (c_in c_out k : nat) (s : shp) : res shp :=
  match s with
  | [n; c; h; w] =>
      _ ← assert_that (c =? c_in); Ok [n; c_out; h * k; w * k]
  | _ => Err RuntimeError
  end.

(** A submodule call, recorded by name. *)
Definition called {A} (name : string) (r : res A) : M (list string) A :=
  _ ← modify (λ log, log ++ [name]); lift r.

(** ** OccFormerDecoderLayer.forward (occformer.py, lines 54 to 118)

    Modelled from the spec: [MultiHeadedAttention] and [AddNorm] are not
    among the sources; the spec has attention return one vector per
    query and the residual block keep the shape of its input.
    [torch.masked_fill] returns a tensor of the shape that its input and
    its mask broadcast to. *)

Section OccFormerDecoderLayer.
Variable embed_dim : nat.
Variable dense_feature_shape : nat * nat.
Variable op_attn_scale : nat.

Definition OccFormerDecoderLayer_forward
    (dense_features agent_features mask_features : shp)
    (return_attn_mask : bool) (pad_mask : option (list nat * bool))
    : M (list string) (list nat * option (list nat)) :=
  batch_size ← lift (getitem dense_features 0);
  let ds_shape := (dense_feature_shape.1 / op_attn_scale,
                   dense_feature_shape.2 / op_attn_scale) in
  ds ← called "downsampler" (Upsample (Over op_attn_scale) dense_features);
  ds ← lift (permute [0; 2; 3; 1] ds);
  ds ← lift (reshape_shape
               [Some batch_size; Some (ds_shape.1 * ds_shape.2);
                Some embed_dim] ds);
  out1 ← called "self_attention" (Ok ds);
  out2 ← called "addnorm1" (Ok ds);
  mask ← lift (permute [0; 2; 1] mask_features ≫= matmul out2);
  mask ←
    match pad_mask with
    | Some (pad_shape, is_bool) =>
        _ ← lift (assert ((length pad_shape =? 2) && is_bool));
        pad ← lift (match pad_shape with
                    | [n; a] => Ok [n; 1; a]
                    | _ => Err IndexError
                    end);
        lift (bshape mask pad)
    | None => mret mask
    end;
  out3 ← called "cross_attention" (Ok out2);
  out4 ← called "addnorm2" (Ok out2);
  out4 ← lift (permute [0; 2; 1] out4);
  out4 ← lift (reshape_shape
                 [Some batch_size; Some embed_dim; Some ds_shape.1;
                  Some ds_shape.2] out4);
  up ← called "upsampler" (Upsample (Times op_attn_scale) out4);
  out5 ← lift (bshape up dense_features);
  if return_attn_mask then
    mask ← lift (permute [0; 2; 1] mask);
    mask ← lift (reshape_shape
                   [Some batch_size; None; Some ds_shape.1; Some ds_shape.2]
                   mask);
    mret (out5, Some mask)
  else mret (out5, None).
End OccFormerDecoderLayer.

(** ** OccFormer.forward (occformer.py, lines 209 to 289)

    Modelled from the spec: [PosEmbedding1D], [TemporalSpecificMLP],
    [SimpleMLP], [ConvBNorm] and [ConvTransposeBNorm] are not among the
    sources.  The spec has one positional embedding per agent slot, from
    a table of [max_num_agents] slots; the two kinds of MLP map the last
    axis to [embed_dim]; the convolution stack brings the dense map back
    to the resolution of the BEV grid. *)

Section OccFormer.
Variables max_num_agents embed_dim num_modes pred_horizon : nat.
Variable bev_feature_hw : nat * nat.
Variables bev_downsmaple_scale op_attn_scale : nat.
Variable inference_mode : bool.

Definition num_layers_of_OccFormer : nat := pred_horizon.

Definition agent_pos_emb (pos_indexes : shp) (num_agents : nat) : res shp :=
  if num_agents <=? max_num_agents then Ok (pos_indexes ++ [embed_dim])
  else Err IndexError.

Definition conv_transpose (s : shp) : res shp :=
  s ← Conv_shape embed_dim embed_dim 1 s;
  s ← Conv_shape embed_dim embed_dim bev_downsmaple_scale s;
  Conv_shape embed_dim embed_dim 1 s.

(** The body of the loop over the timesteps, for layer [tidx]. *)
Definition occ_step (batch_size num_agents : nat) (sparse_features : shp)
    (pad_mask : option (list nat * bool)) (dense_features : shp)
    : M (list string) (list nat * list nat * option (list nat)) :=
  agent_features ←
    called "temporal_mlp" (Linear_shape (embed_dim * 3) embed_dim
                             sparse_features);
  mask_features ←
    called "mask_features_mlp" (Linear_shape embed_dim embed_dim
                                  agent_features);
  '(dense_features, attn_masks) ←
    OccFormerDecoderLayer_forward embed_dim
      (bev_feature_hw.1 / bev_downsmaple_scale,
       bev_feature_hw.2 / bev_downsmaple_scale)
      op_attn_scale dense_features agent_features mask_features
      (negb inference_mode) pad_mask;
  occ_features ←
    called "occ_features_mlp" (Linear_shape embed_dim embed_dim
                                 mask_features);
  proba_map ← called "conv_transpose" (conv_transpose dense_features);
  proba_map ← lift (permute [0; 2; 1; 3] proba_map);
  proba_map ← lift (reshape_shape [Some batch_size; None; Some embed_dim]
                      proba_map);
  occupancy ← lift (permute [0; 2; 1] proba_map ≫= matmul occ_features);
  occupancy ← lift (permute [0; 2; 1] occupancy);
  occupancy ← lift (reshape_shape
                      [Some batch_size; Some num_agents;
                       Some bev_feature_hw.1; Some bev_feature_hw.2]
                      occupancy);
  mret (dense_features, occupancy, attn_masks).

Fixpoint occ_loop (batch_size num_agents : nat) (sparse_features : shp)
    (pad_mask : option (list nat * bool)) (tidxs : list nat)
    (dense_features : shp) (occupancies all_attn_masks : list (list nat))
    : M (list string) (list (list nat) * list (list nat)) :=
  match tidxs with
  | [] => mret (occupancies, all_attn_masks)
  | _ :: tidxs' =>
      '(dense_features, occupancy, attn_masks) ←
        occ_step batch_size num_agents sparse_features pad_mask
          dense_features;
      occ_loop batch_size num_agents sparse_features pad_mask tidxs'
        dense_features (occupancies ++ [occupancy])
        (all_attn_masks ++ from_option (λ m, [m]) [] attn_masks)
  end.

Definition OccFormer_forward (bev_features track_queries motion_queries : shp)
    (pad_mask : option (list nat * bool))
    : M (list string) (list nat * option (list nat)) :=
  t1 ← lift (getitem track_queries 1);
  m1 ← lift (getitem motion_queries 1);
  _ ← lift (assert (t1 =? m1));
  t2 ← lift (getitem track_queries 2);
  m3 ← lift (getitem motion_queries 3);
  _ ← lift (assert ((t2 =? m3) && (m3 =? embed_dim)));
  m2 ← lift (getitem motion_queries 2);
  _ ← lift (assert (m2 =? num_modes));
  b2 ← lift (getitem bev_features 2);
  _ ← lift (assert (b2 =? embed_dim));
  batch_size ← lift (getitem track_queries 0);
  let num_agents := t1 in
  x_queries ← called "mode_pool_module"
                (MaxPool2d_shape num_modes 1 motion_queries);
  x_queries ← lift (index0_before_last x_queries);
  let pos_indexes := [batch_size; num_agents] in
  pos_emb ← called "agent_pos_emb" (agent_pos_emb pos_indexes num_agents);
  sparse_features ← lift (concat_last [track_queries; pos_emb; x_queries]);
  bev ← lift (permute [0; 2; 1] bev_features);
  bev ← lift (reshape_shape
                [Some batch_size; Some embed_dim; Some bev_feature_hw.1;
                 Some bev_feature_hw.2] bev);
  dense_features ←
    called "downsampler" (Upsample (Over bev_downsmaple_scale) bev);
  '(occupancies, all_attn_masks) ←
    occ_loop batch_size num_agents sparse_features pad_mask
      (seq 0 num_layers_of_OccFormer) dense_features [] [];
  occupancies ← lift (stack_dim2 occupancies);
  if 0 <? length all_attn_masks then
    all_attn_masks ← lift (stack_dim2 all_attn_masks);
    mret (occupancies, Some all_attn_masks)
  else mret (occupancies, None).
End OccFormer.

(** ** OccFormer.forward: pooling the motion modes (lines 165, 242, 243)

    [nn.MaxPool2d(kernel_size=(kh, kw), stride=1)] on the entries: every
    output entry is the largest entry of the window of [kh] rows and [kw]
    columns that starts at its position. *)

Definition maximum (l : list Z) : Z :=
  match l with [] => 0%Z | z :: zs => foldl Z.max z zs end.

Definition window (kh kw : nat) (plane : tensor2) (i j : nat) : list Z :=
  mjoin ((λ r : list Z, take kw (drop j r)) <$> take kh (drop i plane)).

Definition MaxPool2d_plane (kh kw : nat) (plane : tensor2) : res tensor2 :=
  let h := length plane in
  let w := shape1 plane in
  _ ← assert_that ((0 <? kh) && (0 <? kw) && (kh <=? h) && (kw <=? w));
  Ok ((λ i, (λ j, maximum (window kh kw plane i j)) <$> seq 0 (w - kw + 1))
        <$> seq 0 (h - kh + 1)).

Definition MaxPool2d (kh kw : nat) (x : tensor4) : res tensor4 :=
  mapM (λ planes : list (list (list Z)),
          _ ← assert_that (0 <? length planes);
          mapM (MaxPool2d_plane kh kw) planes) x.

(** [x[..., 0, :]] on a tensor with four axes. *)
Definition index0_rows (x : tensor4) : res tensor3 :=
  mapM (mapM (λ plane : list (list Z), getitem plane 0)) x.

(** [x_queries = mode_pool_module(motion_queries)[..., 0, :]] *)
Definition pool_modes (num_modes : nat) (motion_queries : tensor4)
    : res tensor3 :=
  MaxPool2d num_modes 1 motion_queries ≫= index0_rows.
(** * Properties *)

(** ** Gathering and padding the track queries *)

Example pad_tracks_drops_invalid :
  pad_tracks 1 1 [[[1%Z]; [2%Z]; [3%Z]]] [[true; false; true]]
  = Ok ([[[1%Z]; [3%Z]]], [[true; true]]).
Proof. reflexivity. Qed.

Example pad_tracks_scenario :
  pad_tracks 1 1 [[[1%Z]; [2%Z]; [3%Z]; [4%Z]]] [[true; false; true; true]]
  = Ok ([[[1%Z]; [3%Z]; [4%Z]]], [[true; true; true]]).
Proof. reflexivity. Qed.

Example pad_tracks_ragged :
  pad_tracks 2 2 [[[1%Z; 1%Z]; [2%Z; 2%Z]]; [[3%Z; 3%Z]; [4%Z; 4%Z]]]
                 [[true; true]; [false; true]]
  = Ok ([[[1%Z; 1%Z]; [2%Z; 2%Z]]; [[4%Z; 4%Z]; [0%Z; 0%Z]]],
        [[true; true]; [true; false]]).
Proof. reflexivity. Qed.

(** *** The monad of results *)

Lemma mapM_ext_Ok {A B} (f : A → res B) (g : A → B) (l : list A) :
  (∀ a, a ∈ l → f a = Ok (g a)) → mapM f l = Ok (g <$> l).
Proof.
  induction l as [|a l IH]; intros Hf; [reflexivity|].
  cbn. rewrite (Hf a) by apply list_elem_of_here. cbn.
  rewrite IH; [reflexivity|].
  intros b Hb. apply Hf. by apply list_elem_of_further.
Qed.

(** *** Boolean masks *)

Lemma mask_sum_cons b m :
  mask_sum (b :: m) = (if b then 1 else 0) + mask_sum m.
Proof. reflexivity. Qed.

Lemma mask_sum_le_length m : mask_sum m ≤ length m.
Proof.
  induction m as [|[] m IH]; rewrite ?mask_sum_cons; cbn [length]; try lia.
  reflexivity.
Qed.

Lemma mask_sum_all_true m : Forall (eq true) m → mask_sum m = length m.
Proof.
  induction 1 as [|b m <- _ IH]; [reflexivity|].
  rewrite mask_sum_cons, IH. reflexivity.
Qed.

Lemma length_masked {A} (x : list A) m :
  length x = length m → length (masked x m) = mask_sum m.
Proof.
  revert m. induction x as [|a x IH]; intros [|b m] Hl; try discriminate;
    [reflexivity|].
  injection Hl as Hl. rewrite mask_sum_cons. destruct b; cbn; rewrite IH; done.
Qed.

Lemma masked_all_true {A} (x : list A) m :
  length x = length m → Forall (eq true) m → masked x m = x.
Proof.
  revert m. induction x as [|a x IH]; intros [|b m] Hl Hm; try discriminate;
    [reflexivity|].
  injection Hl as Hl. inversion Hm as [|?? <- Hm']; subst. cbn.
  by rewrite IH.
Qed.

Lemma elem_of_nonzero_from k m j :
  j ∈ nonzero_from k m ↔ k ≤ j ∧ m !! (j - k) = Some true.
Proof.
  revert k. induction m as [|b m IH]; intros k; cbn.
  - split; [by intros ?%elem_of_nil | by intros [_ ?]].
  - assert (Hstep : j ∈ nonzero_from (S k) m ↔
                    S k ≤ j ∧ (b :: m) !! (j - k) = Some true).
    { rewrite IH. split; intros [Hle Hj]; split; try done.
      - by replace (j - k) with (S (j - S k)) by lia.
      - by replace (j - k) with (S (j - S k)) in Hj by lia. }
    destruct b.
    + rewrite elem_of_cons, Hstep. split.
      * intros [->|[Hle Hj]]; [|split; [lia|done]].
        split; [done|]. by rewrite Nat.sub_diag.
      * intros [Hle Hj]. destruct (decide (j = k)) as [->|Hne]; [by left|].
        right. split; [lia|done].
    + rewrite Hstep. split; intros [Hle Hj]; (split; [lia|done]) || idtac.
      split; [|done]. destruct (decide (j = k)) as [->|Hne]; [|lia].
      by rewrite Nat.sub_diag in Hj.
Qed.

Lemma elem_of_nonzero m j : j ∈ nonzero m ↔ m !! j = Some true.
Proof.
  unfold nonzero. rewrite elem_of_nonzero_from, Nat.sub_0_r.
  split; [by intros [_ ?] | split; [lia|done]].
Qed.

Lemma nonzero_from_sorted k m : StronglySorted lt (nonzero_from k m).
Proof.
  revert k. induction m as [|b m IH]; intros k; cbn; [constructor|].
  destruct b; [|apply IH].
  constructor; [apply IH|].
  apply Forall_forall. intros j [Hj _]%elem_of_nonzero_from. lia.
Qed.

Lemma masked_nonzero_from {A} (x : list A) m k :
  length x = length m →
  Forall2 (λ a j, k ≤ j ∧ x !! (j - k) = Some a) (masked x m) (nonzero_from k m).
Proof.
  revert m k. induction x as [|a x IH]; intros [|b m] k Hl; try discriminate;
    [constructor|].
  injection Hl as Hl. cbn.
  assert (Htl : Forall2 (λ a' j, k ≤ j ∧ (a :: x) !! (j - k) = Some a')
                        (masked x m) (nonzero_from (S k) m)).
  { eapply Forall2_impl; [apply (IH m (S k) Hl)|].
    intros a' j [Hle Hj]. split; [lia|].
    by replace (j - k) with (S (j - S k)) by lia. }
  destruct b; [|exact Htl].
  constructor; [|exact Htl]. split; [done|]. by rewrite Nat.sub_diag.
Qed.

Lemma masked_nonzero {A} (x : list A) m :
  length x = length m →
  Forall2 (λ a j, x !! j = Some a) (masked x m) (nonzero m).
Proof.
  intros Hl. eapply Forall2_impl; [apply (masked_nonzero_from x m 0 Hl)|].
  intros a j [_ Hj]. by rewrite Nat.sub_0_r in Hj.
Qed.

Lemma prefix_mask_le n k :
  k ≤ n → prefix_mask n k = replicate k true ++ replicate (n - k) false.
Proof.
  intros Hle. unfold prefix_mask. rewrite length_replicate, drop_replicate.
  by rewrite Nat.min_l.
Qed.

(** *** What [pad_tracks] returns on a rectangular batch *)

Lemma last_dim_is_true (x : tensor3) n :
  Forall (Forall (λ r : row, length r = n)) x → last_dim_is x n = true.
Proof.
  intros Hx. unfold last_dim_is. apply Is_true_eq_true, forallb_True.
  eapply Forall_impl; [exact Hx|]. intros t Ht. apply forallb_True.
  eapply Forall_impl; [exact Ht|]. intros r Hr. cbn in Hr.
  apply Is_true_eq_left, Nat.eqb_eq, Hr.
Qed.

Lemma shape1_rect {A} (x : list (list A)) n :
  x ≠ [] → Forall (λ r, length r = n) x → shape1 x = n.
Proof. intros Hne Hx. destruct x as [|r x]; [done|]. by inversion Hx. Qed.

Lemma stack_rect {A} (ts : list (list A)) n :
  ts ≠ [] → Forall (λ t, length t = n) ts → stack ts = Ok ts.
Proof.
  intros Hne Hts. destruct ts as [|t ts']; [done|]. unfold stack.
  assert (Ht : length t = n) by (by inversion Hts).
  replace (forallb _ (t :: ts')) with true; [done|].
  symmetry. apply Is_true_eq_true, forallb_True.
  eapply Forall_impl; [exact Hts|]. intros u Hu. cbn in Hu.
  apply Is_true_eq_left, Nat.eqb_eq. lia.
Qed.

Lemma tensor_max_nonempty v : v ≠ [] → tensor_max v = Ok (max_list v).
Proof. by destruct v. Qed.

Lemma F_pad_rows_nonneg width (x : tensor2) (n : nat) :
  F_pad_rows width x (Z.of_nat n) = x ++ replicate n (replicate width 0%Z).
Proof.
  unfold F_pad_rows. destruct (Z.leb_spec 0 (Z.of_nat n)); [|lia].
  by rewrite Nat2Z.id.
Qed.

Lemma mask_sum_le_max (tqm : list (list bool)) m :
  m ∈ tqm → mask_sum m ≤ max_list (mask_sum <$> tqm).
Proof.
  intros Hm. apply max_list_elem_of_le, list_elem_of_fmap. by exists m.
Qed.

Lemma max_is_attained (tqm : list (list bool)) :
  tqm ≠ [] → ∃ m, m ∈ tqm ∧ mask_sum m = max_list (mask_sum <$> tqm).
Proof.
  intros Hne.
  assert (Hne' : mask_sum <$> tqm ≠ []) by (by intros ?%fmap_nil_inv).
  apply max_list_elem_of, list_elem_of_fmap in Hne' as (m & Hm & Hin).
  by exists m.
Qed.

Section PadTracksFacts.
Variables (embed_dim batch_size T : nat).
Variables (tq : tensor3) (tqm : list (list bool)).
Hypothesis batch_pos : 0 < batch_size.
Hypothesis tq_batch : length tq = batch_size.
Hypothesis tqm_batch : length tqm = batch_size.
Hypothesis tq_rect : Forall (λ t : tensor2, length t = T) tq.
Hypothesis tq_width : Forall (Forall (λ r : row, length r = embed_dim)) tq.
Hypothesis tqm_rect : Forall (λ m : list bool, length m = T) tqm.

Let maxv := max_list (mask_sum <$> tqm).
Let pad_rows (t : tensor2) (m : list bool) : tensor2 :=
  masked t m ++ replicate (maxv - mask_sum m) (replicate embed_dim 0%Z).
Let pad_mask (m : list bool) : list bool :=
  replicate (mask_sum m) true ++ replicate (maxv - mask_sum m) false.

Lemma pad_one_Ok i t m :
  tq !! i = Some t → tqm !! i = Some m →
  pad_one embed_dim tq tqm maxv i = Ok (pad_rows t m, pad_mask m).
Proof.
  intros Ht Hm. unfold pad_one, getitem. rewrite Ht, Hm. cbn.
  assert (Hlt : length t = T)
    by (eapply (proj1 (Forall_lookup _ _) tq_rect); eauto).
  assert (Hlm : length m = T)
    by (eapply (proj1 (Forall_lookup _ _) tqm_rect); eauto).
  unfold bool_index. rewrite decide_True by lia. cbn.
  assert (Hle : mask_sum m ≤ maxv)
    by (apply mask_sum_le_max; eapply list_elem_of_lookup_2; eauto).
  rewrite length_masked by lia.
  replace (Z.of_nat maxv - Z.of_nat (mask_sum m))%Z
    with (Z.of_nat (maxv - mask_sum m)) by lia.
  by rewrite F_pad_rows_nonneg, prefix_mask_le.
Qed.

Lemma pad_tracks_rect :
  pad_tracks embed_dim batch_size tq tqm
  = Ok (zip_with pad_rows tq tqm, pad_mask <$> tqm).
Proof.
  assert (Htq_ne : tq ≠ []) by (intros ->; cbn in tq_batch; lia).
  assert (Htqm_ne : tqm ≠ []) by (intros ->; cbn in tqm_batch; lia).
  unfold pad_tracks.
  rewrite last_dim_is_true by done. cbn.
  rewrite (shape1_rect tq T), (shape1_rect tqm T), Nat.eqb_refl by done. cbn.
  rewrite tensor_max_nonempty by (by intros ?%fmap_nil_inv). cbn.
  fold maxv.
  set (g := λ i, match tq !! i, tqm !! i with
                 | Some t, Some m => (pad_rows t m, pad_mask m)
                 | _, _ => ([], [])
                 end).
  rewrite (mapM_ext_Ok _ g).
  2:{ intros i [_ Hi]%elem_of_seq. cbn in Hi.
      destruct (lookup_lt_is_Some_2 tq i) as [t Ht]; [lia|].
      destruct (lookup_lt_is_Some_2 tqm i) as [m Hm]; [lia|].
      unfold g. rewrite Ht, Hm. by apply pad_one_Ok. }
  cbn.
  assert (Hfst : fst <$> (g <$> seq 0 batch_size) = zip_with pad_rows tq tqm).
  { apply list_eq. intros i.
    rewrite !list_lookup_fmap, lookup_zip_with.
    destruct (decide (i < batch_size)) as [Hi|Hi].
    - rewrite lookup_seq_lt by done. cbn. unfold g.
      destruct (lookup_lt_is_Some_2 tq i) as [t Ht]; [lia|].
      destruct (lookup_lt_is_Some_2 tqm i) as [m Hm]; [lia|].
      by rewrite Ht, Hm.
    - rewrite lookup_seq_ge by lia. cbn.
      by rewrite (lookup_ge_None_2 tq i) by lia. }
  assert (Hsnd : snd <$> (g <$> seq 0 batch_size) = pad_mask <$> tqm).
  { apply list_eq. intros i. rewrite !list_lookup_fmap.
    destruct (decide (i < batch_size)) as [Hi|Hi].
    - rewrite lookup_seq_lt by done. cbn. unfold g.
      destruct (lookup_lt_is_Some_2 tq i) as [t Ht]; [lia|].
      destruct (lookup_lt_is_Some_2 tqm i) as [m Hm]; [lia|].
      by rewrite Ht, Hm.
    - rewrite lookup_seq_ge by lia. cbn.
      by rewrite (lookup_ge_None_2 tqm i) by lia. }
  rewrite Hfst, Hsnd.
  rewrite (stack_rect (zip_with pad_rows tq tqm) maxv).
  2:{ destruct tq, tqm; done. }
  2:{ apply Forall_lookup. intros i r.
      rewrite lookup_zip_with. intros Hr.
      destruct (tq !! i) as [t|] eqn:Ht; [|done]. cbn in Hr.
      destruct (tqm !! i) as [m|] eqn:Hm; [|done]. cbn in Hr.
      injection Hr as <-. unfold pad_rows.
      assert (Hlt : length t = T)
        by (eapply (proj1 (Forall_lookup _ _) tq_rect); eauto).
      assert (Hlm : length m = T)
        by (eapply (proj1 (Forall_lookup _ _) tqm_rect); eauto).
      assert (Hle : mask_sum m ≤ maxv)
        by (apply mask_sum_le_max; eapply list_elem_of_lookup_2; eauto).
      rewrite length_app, length_replicate, length_masked by lia. lia. }
  cbn.
  rewrite (stack_rect (pad_mask <$> tqm) maxv).
  2:{ by intros ?%fmap_nil_inv. }
  2:{ apply Forall_fmap, Forall_forall. intros m Hm. cbn. unfold pad_mask.
      pose proof (mask_sum_le_max tqm m Hm).
      rewrite length_app, !length_replicate. lia. }
  reflexivity.
Qed.
End PadTracksFacts.

(** C1.  On a batch of [batch_size] elements with [T] track queries each,
    the gather-and-pad step of [TrackFormer.forward] succeeds and, for
    every batch element: the gathered rows are the rows of that element's
    track queries at the positions where its mask is True, in their
    original order; they are followed by rows of zeros up to the largest
    number of valid tracks in the batch; and the rebuilt mask is True on
    the gathered positions and False on the padding. *)
Theorem pad_tracks_gathers_valid_in_order
    (embed_dim batch_size T : nat) (tq : tensor3) (tqm : list (list bool)) :
  0 < batch_size →
  length tq = batch_size →
  length tqm = batch_size →
  Forall (λ t : tensor2, length t = T) tq →
  Forall (Forall (λ r : row, length r = embed_dim)) tq →
  Forall (λ m : list bool, length m = T) tqm →
  ∃ new_tq new_mask max_num_tracks,
    pad_tracks embed_dim batch_size tq tqm = Ok (new_tq, new_mask) ∧
    length new_tq = batch_size ∧ length new_mask = batch_size ∧
    (∀ m, m ∈ tqm → mask_sum m ≤ max_num_tracks) ∧
    (∃ m, m ∈ tqm ∧ mask_sum m = max_num_tracks) ∧
    ∀ i t m, tq !! i = Some t → tqm !! i = Some m →
      StronglySorted lt (nonzero m) ∧
      (∀ j, j ∈ nonzero m ↔ m !! j = Some true) ∧
      ∃ gathered,
        Forall2 (λ r j, t !! j = Some r) gathered (nonzero m) ∧
        length gathered = mask_sum m ∧
        new_tq !! i
          = Some (gathered ++ replicate (max_num_tracks - mask_sum m)
                                        (replicate embed_dim 0%Z)) ∧
        new_mask !! i
          = Some (replicate (mask_sum m) true
                  ++ replicate (max_num_tracks - mask_sum m) false) ∧
        (∀ j, j < max_num_tracks →
              (replicate (mask_sum m) true
               ++ replicate (max_num_tracks - mask_sum m) false) !! j
              = Some (bool_decide (j < mask_sum m))).
Proof.
  intros Hpos Htq Htqm Hrect Hwidth Hmrect.
  eexists _, _, (max_list (mask_sum <$> tqm)).
  split; [by apply (pad_tracks_rect embed_dim batch_size T)|].
  split; [rewrite length_zip_with; lia|].
  split; [by rewrite length_fmap|].
  split; [apply mask_sum_le_max|].
  split; [apply max_is_attained; intros ->; cbn in Htqm; lia|].
  intros i t m Ht Hm.
  assert (Hlt : length t = T)
    by (eapply (proj1 (Forall_lookup _ _) Hrect); eauto).
  assert (Hlm : length m = T)
    by (eapply (proj1 (Forall_lookup _ _) Hmrect); eauto).
  assert (Hle : mask_sum m ≤ max_list (mask_sum <$> tqm))
    by (apply mask_sum_le_max; eapply list_elem_of_lookup_2; eauto).
  split; [apply nonzero_from_sorted|].
  split; [apply elem_of_nonzero|].
  exists (masked t m).
  split; [apply masked_nonzero; lia|].
  split; [apply length_masked; lia|].
  split; [by rewrite lookup_zip_with, Ht, Hm|].
  split; [by rewrite list_lookup_fmap, Hm|].
  intros j Hj. destruct (decide (j < mask_sum m)) as [Hlt'|Hge].
  - rewrite lookup_app_l, lookup_replicate_2, bool_decide_eq_true_2;
      rewrite ?length_replicate; done.
  - rewrite lookup_app_r, lookup_replicate_2, bool_decide_eq_false_2;
      rewrite ?length_replicate; try done; lia.
Qed.

Lemma pad_tracks_gathers_valid_in_order_witness :
  ∃ new_tq new_mask max_num_tracks,
    pad_tracks 1 2 [[[1%Z]; [2%Z]; [3%Z]]; [[4%Z]; [5%Z]; [6%Z]]]
                   [[true; false; true]; [false; false; true]]
    = Ok (new_tq, new_mask) ∧
    new_tq !! 1 = Some [[6%Z]; [0%Z]] ∧ new_mask !! 1 = Some [true; false] ∧
    max_num_tracks = 2.
Proof.
  destruct (pad_tracks_gathers_valid_in_order 1 2 3
              [[[1%Z]; [2%Z]; [3%Z]]; [[4%Z]; [5%Z]; [6%Z]]]
              [[true; false; true]; [false; false; true]])
    as (new_tq & new_mask & mx & Hrun & _).
  - lia.
  - reflexivity.
  - reflexivity.
  - repeat constructor.
  - repeat constructor.
  - repeat constructor.
  - exists new_tq, new_mask, 2. split; [exact Hrun|].
    vm_compute in Hrun. injection Hrun as <- <-. done.
Defined.

(** C10.  When every entry of the supplied mask is True, the rebuilt mask
    is the supplied one: each element's mask keeps its length [T] and all
    of its entries are True (and no track query is dropped or padded). *)
Theorem pad_tracks_all_valid_identity
    (embed_dim batch_size T : nat) (tq : tensor3) (tqm : list (list bool)) :
  0 < batch_size →
  length tq = batch_size →
  length tqm = batch_size →
  Forall (λ t : tensor2, length t = T) tq →
  Forall (Forall (λ r : row, length r = embed_dim)) tq →
  Forall (λ m : list bool, length m = T) tqm →
  Forall (Forall (eq true)) tqm →
  pad_tracks embed_dim batch_size tq tqm = Ok (tq, tqm) ∧
  Forall (λ m : list bool, length m = T ∧ Forall (eq true) m) tqm.
Proof.
  intros Hpos Htq Htqm Hrect Hwidth Hmrect Hall.
  assert (Hsum : ∀ m, m ∈ tqm → mask_sum m = T).
  { intros m Hm. rewrite mask_sum_all_true.
    - by apply (proj1 (Forall_forall _ _) Hmrect).
    - by apply (proj1 (Forall_forall _ _) Hall). }
  assert (Hmax : max_list (mask_sum <$> tqm) = T).
  { destruct (max_is_attained tqm) as (m & Hm & <-).
    { intros ->. cbn in Htqm. lia. }
    by apply Hsum. }
  split.
  2:{ apply Forall_forall. intros m Hm. split.
      - by apply (proj1 (Forall_forall _ _) Hmrect).
      - by apply (proj1 (Forall_forall _ _) Hall). }
  rewrite (pad_tracks_rect embed_dim batch_size T) by done.
  rewrite Hmax. f_equal. f_equal.
  - apply list_eq. intros i. rewrite lookup_zip_with.
    destruct (tq !! i) as [t|] eqn:Ht; [|done]. cbn.
    destruct (lookup_lt_is_Some_2 tqm i) as [m Hm].
    { apply lookup_lt_Some in Ht. lia. }
    rewrite Hm. cbn. f_equal.
    assert (Hin : m ∈ tqm) by (eapply list_elem_of_lookup_2; eauto).
    rewrite (Hsum m Hin), Nat.sub_diag. cbn. rewrite app_nil_r.
    apply masked_all_true.
    + rewrite (proj1 (Forall_lookup _ _) Hrect i t Ht).
      symmetry. by apply (proj1 (Forall_forall _ _) Hmrect).
    + by apply (proj1 (Forall_forall _ _) Hall).
  - apply list_eq. intros i. rewrite list_lookup_fmap.
    destruct (tqm !! i) as [m|] eqn:Hm; [|done]. cbn. f_equal.
    assert (Hin : m ∈ tqm) by (eapply list_elem_of_lookup_2; eauto).
    rewrite (Hsum m Hin), Nat.sub_diag. cbn. rewrite app_nil_r.
    assert (HmT : length m = T) by (by apply (proj1 (Forall_forall _ _) Hmrect)).
    assert (Hmt : Forall (eq true) m) by (by apply (proj1 (Forall_forall _ _) Hall)).
    rewrite <- HmT. clear -Hmt. induction Hmt as [|b m <- _ IH]; [done|].
    cbn. by rewrite IH.
Qed.

Lemma pad_tracks_all_valid_identity_witness :
  pad_tracks 1 2 [[[1%Z]; [2%Z]]; [[3%Z]; [4%Z]]] [[true; true]; [true; true]]
  = Ok ([[[1%Z]; [2%Z]]; [[3%Z]; [4%Z]]], [[true; true]; [true; true]]).
Proof.
  apply (pad_tracks_all_valid_identity 1 2 2
           [[[1%Z]; [2%Z]]; [[3%Z]; [4%Z]]] [[true; true]; [true; true]]).
  - lia.
  - reflexivity.
  - reflexivity.
  - repeat constructor.
  - repeat constructor.
  - repeat constructor.
  - repeat constructor.
Defined.

(** ** The decoder layer *)

(** *** Running [M] *)

Lemma bind_run {S A B} (m : M S A) (f : A → M S B) s a s' :
  m s = (Ok a, s') → (m ≫= f) s = f a s'.
Proof. intros H. unfold mbind, M_bind. by rewrite H. Qed.

Lemma bind_run_err {S A B} (m : M S A) (f : A → M S B) s e s' :
  m s = (Err e, s') → (m ≫= f) s = (Err e, s').
Proof. intros H. unfold mbind, M_bind. by rewrite H. Qed.

Lemma load_run s l v : heap s !! l = Some v → load l s = (Ok v, s).
Proof. intros H. unfold load, getitem. by rewrite H. Qed.

Lemma lookup_snoc {A} (h : list A) v : (h ++ [v]) !! length h = Some v.
Proof. by apply list_lookup_middle. Qed.

(** *** Addition without broadcasting *)

Lemma bcast_same {A B C} (f : A → B → res C) (g : A → B → C) x y :
  length x = length y →
  (∀ i a b, x !! i = Some a → y !! i = Some b → f a b = Ok (g a b)) →
  bcast f x y = Ok (zip_with g x y).
Proof.
  intros Hl Hf. unfold bcast. rewrite decide_True by done.
  rewrite (mapM_ext_Ok _ (λ p, g p.1 p.2)).
  - f_equal. clear. revert y. induction x as [|a x IH]; intros [|b y]; try done.
    cbn. by rewrite IH.
  - intros [a b] Hin. apply list_elem_of_lookup in Hin as [i Hi].
    apply lookup_zip_with_Some in Hi as (a' & b' & Heq & Ha & Hb).
    injection Heq as <- <-. by apply (Hf i).
Qed.

Lemma tadd1_same (r d : list Z) :
  length r = length d → tadd1 r d = Ok (zip_with Z.add r d).
Proof. intros Hl. unfold tadd1. by apply bcast_same. Qed.

Lemma tadd2_same n2 (x y : list (list Z)) :
  length x = length y →
  Forall (λ r, length r = n2) x → Forall (λ r, length r = n2) y →
  tadd2 x y = Ok (zip_with (zip_with Z.add) x y).
Proof.
  intros Hl Hx Hy. unfold tadd2. apply bcast_same; [done|].
  intros i r d Hr Hd. apply tadd1_same.
  rewrite (proj1 (Forall_lookup _ _) Hx i r Hr).
  by rewrite (proj1 (Forall_lookup _ _) Hy i d Hd).
Qed.

Lemma tadd3_same n0 n1 n2 (x y : list (list (list Z))) :
  has_shape n0 n1 n2 x → has_shape n0 n1 n2 y →
  tadd3 x y = Ok (zip_with (zip_with (zip_with Z.add)) x y).
Proof.
  intros [Hlx Hx] [Hly Hy]. unfold tadd3. apply bcast_same; [lia|].
  intros i a b Ha Hb.
  destruct (proj1 (Forall_lookup _ _) Hx i a Ha) as [Hla Hwa].
  destruct (proj1 (Forall_lookup _ _) Hy i b Hb) as [Hlb Hwb].
  apply (tadd2_same n2); [lia|done..].
Qed.

(** *** Adding the detection queries *)

Lemma has_shape_lookup n0 n1 n2 (x : list (list (list Z))) i t :
  has_shape n0 n1 n2 x → x !! i = Some t →
  length t = n1 ∧ Forall (λ r, length r = n2) t.
Proof. intros [_ Hx] Ht. exact (proj1 (Forall_lookup _ _) Hx i t Ht). Qed.

Lemma has_shape_drop n0 n n1 n2 (x : list (list (list Z))) :
  has_shape n0 (n + n1) n2 x → has_shape n0 n1 n2 (drop n <$> x).
Proof.
  intros [Hl Hx]. split; [by rewrite length_fmap|].
  apply Forall_fmap. eapply Forall_impl; [exact Hx|].
  intros t [Hlt Hw]. cbn. split; [rewrite length_drop; lia|].
  by apply Forall_drop.
Qed.

Lemma with_det_queries_split n (x og : list (list (list Z))) :
  zip_with app (take n <$> x)
    (zip_with (zip_with (zip_with Z.add)) (drop n <$> x) og)
  = with_det_queries n x og.
Proof.
  unfold with_det_queries. revert og.
  induction x as [|xi x IH]; intros [|ogi og]; try done.
  cbn. by rewrite IH.
Qed.

Lemma with_det_queries_0 (x og : list (list (list Z))) :
  zip_with (zip_with (zip_with Z.add)) x og = with_det_queries 0 x og.
Proof.
  unfold with_det_queries. revert og.
  induction x as [|xi x IH]; intros [|ogi og]; cbn; rewrite ?IH; done.
Qed.

Lemma with_det_queries_shape n0 n n1 n2 (x og : list (list (list Z))) :
  has_shape n0 (n + n1) n2 x → has_shape n0 n1 n2 og →
  has_shape n0 (n + n1) n2 (with_det_queries n x og).
Proof.
  intros Hx Hog. unfold with_det_queries. split.
  - rewrite length_zip_with. destruct Hx, Hog. lia.
  - apply Forall_lookup. intros i yi Hyi.
    apply lookup_zip_with_Some in Hyi as (xi & ogi & -> & Hxi & Hogi).
    destruct (has_shape_lookup _ _ _ _ _ _ Hx Hxi) as [Hlx Hwx].
    destruct (has_shape_lookup _ _ _ _ _ _ Hog Hogi) as [Hlo Hwo].
    split.
    + rewrite length_app, length_take, length_zip_with, length_drop. lia.
    + apply Forall_app. split; [by apply Forall_take|].
      apply Forall_lookup. intros j r Hr.
      apply lookup_zip_with_Some in Hr as (a & d & -> & Ha & Hd).
      rewrite length_zip_with.
      rewrite (proj1 (Forall_lookup _ _) Hwo j d Hd).
      rewrite lookup_drop in Ha.
      rewrite (proj1 (Forall_lookup _ _) Hwx _ a Ha). lia.
Qed.


Lemma add_det_queries_run n x og h c (xv ogv : list (list (list Z))) n0 n1 n2 :
  h !! x = Some xv → h !! og = Some ogv →
  has_shape n0 (n + n1) n2 xv → has_shape n0 n1 n2 ogv →
  ∃ extra, length extra ≤ 1 ∧
    add_det_queries (Z.of_nat n) x og (LayerState h c)
    = (Ok (length h + length extra),
       LayerState (h ++ extra ++ [with_det_queries n xv ogv]) c).
Proof.
  intros Hx Hog Hsx Hso. unfold add_det_queries.
  rewrite (bind_run _ _ _ xv (LayerState h c)) by (by apply load_run).
  rewrite (bind_run _ _ _ ogv (LayerState h c)) by (by apply load_run).
  destruct n as [|n'].
  - exists []. split; [cbn; lia|].
    change (0 <? Z.of_nat 0)%Z with false. cbv iota.
    unfold mbind, M_bind, lift, alloc.
    rewrite (tadd3_same n0 n1 n2) by done. cbn.
    by rewrite with_det_queries_0, Nat.add_0_r.
  - set (n := S n') in *.
    exists [zip_with (zip_with (zip_with Z.add)) (drop n <$> xv) ogv].
    split; [cbn; lia|].
    replace (0 <? Z.of_nat n)%Z with true by (symmetry; apply Z.ltb_lt; lia).
    cbv iota. rewrite Nat2Z.id.
    unfold mbind, M_bind, lift, alloc, load, getitem. cbn [heap calls].
    rewrite (tadd3_same n0 n1 n2); [|by apply has_shape_drop|done].
    cbn [heap calls]. rewrite lookup_snoc.
    unfold concat1. rewrite decide_True.
    2:{ rewrite length_zip_with, !length_fmap. destruct Hsx, Hso. lia. }
    cbn [heap calls]. rewrite with_det_queries_split, length_app. cbn.
    by rewrite <- app_assoc.
Qed.

(** *** The layer, step by step *)

Lemma lift_run {S A} (r : res A) (s : S) : lift r s = (r, s).
Proof. reflexivity. Qed.

Lemma dim1_is_true {A} (x : list (list A)) n :
  Forall (λ t, length t = n) x → dim1_is x n = true.
Proof.
  intros Hx. unfold dim1_is. apply Is_true_eq_true, forallb_True.
  eapply Forall_impl; [exact Hx|]. intros t Ht. cbn in Ht.
  apply Is_true_eq_left, Nat.eqb_eq, Ht.
Qed.

Lemma has_shape_last n0 n1 n2 (x : list (list (list Z))) :
  has_shape n0 n1 n2 x → last_dim_is x n2 = true.
Proof.
  intros [_ Hx]. apply last_dim_is_true.
  eapply Forall_impl; [exact Hx|]. by intros t [_ Ht].
Qed.

Lemma has_shape_dim1 n0 n1 n2 (x : list (list (list Z))) :
  has_shape n0 n1 n2 x → Forall (λ t, length t = n1) x.
Proof. intros [_ Hx]. eapply Forall_impl; [exact Hx|]. by intros t [Ht _]. Qed.

Lemma has_shape_shape1 n0 n1 n2 (x : list (list (list Z))) :
  0 < n0 → has_shape n0 n1 n2 x → shape1 x = n1.
Proof.
  intros Hpos Hx. apply shape1_rect; [|by eapply has_shape_dim1].
  destruct Hx as [Hl _]. intros ->. cbn in Hl. lia.
Qed.

Lemma lookup_app_snoc {A} (h extra : list A) v :
  (h ++ extra ++ [v]) !! (length h + length extra) = Some v.
Proof. rewrite app_assoc, <- length_app. apply lookup_snoc. Qed.

Section LayerRun.
Variables (embed_dim : nat) (bev_feature_shape : nat * nat).
Variable layer : layer_modules.
Variables (n0 nb n n1 : nat).
Variables (h0 : list (list (list (list Z)))) (c0 : list call).
Variables (queries bev_features og_det_queries : nat).
Variables (qv bev og : list (list (list Z))).
Variable ref_points : list (list (list (Z * Z))).
Variable padding_mask : list (list bool).
Hypothesis batch_pos : 0 < n0.
Hypothesis load_q : h0 !! queries = Some qv.
Hypothesis load_bev : h0 !! bev_features = Some bev.
Hypothesis load_og : h0 !! og_det_queries = Some og.
Hypothesis shape_q : has_shape n0 (n + n1) embed_dim qv.
Hypothesis shape_og : has_shape n0 n1 embed_dim og.
Hypothesis shape_bev :
  has_shape nb (bev_feature_shape.1 * bev_feature_shape.2) embed_dim bev.
Hypothesis addnorm1_shape : ∀ y, keeps_shape (λ x, addnorm1 layer x y).

Lemma layer_forward_run :
  ∃ extra1 extra2,
    length extra1 ≤ 1 ∧ length extra2 ≤ 1 ∧
    let qk := with_det_queries n qv og in
    let q_and_k := length h0 + length extra1 in
    let o1 := self_attention layer qk qk qv padding_mask in
    let out1 := S q_and_k in
    let o2 := addnorm1 layer qv o1 in
    let out2 := S out1 in
    let a2 := with_det_queries n o2 og in
    let aug_out2 := S out2 + length extra2 in
    let o3 := deform_attention layer a2 ref_points bev bev_feature_shape
                ((λ m : list bool, (λ b : bool, [b]) <$> m) <$> padding_mask) in
    let out3 := S aug_out2 in
    let o4 := addnorm2 layer o2 o3 in
    let out4 := S out3 in
    let o5 := mlp layer o4 in
    let out5 := S out4 in
    let o6 := addnorm3 layer o4 o5 in
    TrackFormerDecoderLayer_forward embed_dim bev_feature_shape layer
      queries bev_features ref_points og_det_queries padding_mask
      (LayerState h0 c0)
    = (Ok (S out5),
       LayerState
         (h0 ++ (extra1 ++ [qk]) ++ [o1; o2] ++ (extra2 ++ [a2])
             ++ [o3; o4; o5; o6])
         (c0 ++ [SelfAttention q_and_k q_and_k queries;
                 AddNorm1 queries out1;
                 DeformAttention aug_out2 bev_features;
                 AddNorm2 out2 out3;
                 Mlp out4;
                 AddNorm3 out4 out5])).
Proof.
  destruct bev_feature_shape as [H_bev W_bev] eqn:Hshape. cbn in shape_bev.
  unfold TrackFormerDecoderLayer_forward.
  rewrite (bind_run _ _ _ qv (LayerState h0 c0)) by (by apply load_run).
  rewrite (bind_run _ _ _ bev (LayerState h0 c0)) by (by apply load_run).
  rewrite (bind_run _ _ _ og (LayerState h0 c0)) by (by apply load_run).
  rewrite (dim1_is_true bev (H_bev * W_bev)) by (by eapply has_shape_dim1).
  rewrite (has_shape_last _ _ _ _ shape_bev), (has_shape_last _ _ _ _ shape_q).
  rewrite (has_shape_shape1 n0 (n + n1) embed_dim qv) by done.
  rewrite (has_shape_shape1 n0 n1 embed_dim og) by done.
  replace (Z.of_nat (n + n1) - Z.of_nat n1)%Z with (Z.of_nat n) by lia.
  destruct (add_det_queries_run n queries og_det_queries h0 c0 qv og
              n0 n1 embed_dim load_q load_og shape_q shape_og)
    as (extra1 & Hex1 & Hrun1).
  set (qk := with_det_queries n qv og) in *.
  set (o1 := self_attention layer qk qk qv padding_mask).
  set (o2 := addnorm1 layer qv o1).
  set (h1 := h0 ++ extra1 ++ [qk]) in *.
  set (q_and_k := length h0 + length extra1) in *.
  assert (Hlen1 : length h1 = S q_and_k).
  { unfold h1, q_and_k. rewrite !length_app. cbn. lia. }
  assert (Hpre : ∀ l v (k : list (list (list (list Z)))),
             h0 !! l = Some v → (h1 ++ k) !! l = Some v).
  { intros l v k Hl. unfold h1. rewrite <- app_assoc.
    by apply lookup_app_l_Some. }
  set (h2 := (h1 ++ [o1]) ++ [o2]).
  set (c2 := (c0 ++ [SelfAttention q_and_k q_and_k queries])
             ++ [AddNorm1 queries (S q_and_k)]).
  assert (Hlen2 : length h2 = S (S (S q_and_k))).
  { unfold h2. rewrite !length_app, Hlen1. cbn. lia. }
  assert (Ho2 : h2 !! S (S q_and_k) = Some o2).
  { unfold h2. replace (S (S q_and_k)) with (length (h1 ++ [o1])).
    - apply lookup_snoc.
    - rewrite length_app, Hlen1. cbn. lia. }
  assert (Hog2 : h2 !! og_det_queries = Some og).
  { unfold h2. rewrite <- app_assoc. by apply Hpre. }
  assert (shape_o2 : has_shape n0 (n + n1) embed_dim o2)
    by (by apply addnorm1_shape).
  destruct (add_det_queries_run n (S (S q_and_k)) og_det_queries h2 c2 o2 og
              n0 n1 embed_dim Ho2 Hog2 shape_o2 shape_og)
    as (extra2 & Hex2 & Hrun2).
  exists extra1, extra2. split; [done|]. split; [done|]. cbv zeta.
  erewrite bind_run by reflexivity.
  erewrite bind_run by reflexivity.
  erewrite bind_run by exact Hrun1.
  erewrite bind_run by (apply load_run; apply lookup_app_snoc).
  erewrite bind_run by reflexivity.
  erewrite bind_run by reflexivity. cbn [heap calls].
  fold o1. rewrite Hlen1.
  erewrite bind_run
    by (apply load_run; cbn [heap]; rewrite <- Hlen1; apply lookup_snoc).
  erewrite bind_run by reflexivity.
  erewrite bind_run by reflexivity. cbn [heap calls].
  fold o2. fold h2. fold c2. rewrite length_app, Hlen1. cbn [length Nat.add].
  rewrite Nat.add_1_r.
  erewrite bind_run by (apply load_run; exact Ho2).
  erewrite bind_run by exact Hrun2.
  erewrite bind_run by (apply load_run; apply lookup_app_snoc).
  erewrite bind_run by reflexivity.
  erewrite bind_run by reflexivity. cbn [heap calls].
  erewrite bind_run by (apply load_run; apply lookup_snoc).
  erewrite bind_run by reflexivity.
  erewrite bind_run by reflexivity. cbn [heap calls].
  erewrite bind_run by (apply load_run; apply lookup_snoc).
  erewrite bind_run by reflexivity.
  erewrite bind_run by reflexivity. cbn [heap calls].
  erewrite bind_run by (apply load_run; apply lookup_snoc).
  erewrite bind_run by reflexivity.
  unfold alloc. cbn [heap calls].
  assert (Hlen3 : length (h2 ++ extra2 ++ [with_det_queries n o2 og])
                  = S (S (S (S q_and_k)) + length extra2)).
  { rewrite !length_app, Hlen2. cbn. lia. }
  rewrite !(length_app _ [_]), Hlen3, Hlen2. cbn [length].
  rewrite !Nat.add_1_r.
  replace (S (S (S q_and_k)) + length extra2)
    with (S (S (S (q_and_k + length extra2)))) by lia.
  unfold c2, h2, h1, q_and_k.
  rewrite <- !app_assoc. reflexivity.
Qed.
End LayerRun.

Lemma lookup_app_add {A} (pre l : list A) k :
  (pre ++ l) !! (length pre + k) = l !! k.
Proof. rewrite lookup_app_r by lia. f_equal. lia. Qed.



Example layer_adds_to_detection_rows_only :
  let layer := LayerModules (λ q k v m, v) (λ x y, x) (λ q r b s m, q)
                            (λ x y, x) (λ x, x) (λ x y, x) in
  TrackFormerDecoderLayer_forward 1 (1, 1) layer 0 1 [] 2 [[true; true]]
    (LayerState [[[[1%Z]; [2%Z]]]; [[[5%Z]]]; [[[10%Z]]]] [])
  = (Ok 12,
     LayerState [[[[1%Z]; [2%Z]]]; [[[5%Z]]]; [[[10%Z]]];
                 [[[12%Z]]]; [[[1%Z]; [12%Z]]];
                 [[[1%Z]; [2%Z]]]; [[[1%Z]; [2%Z]]];
                 [[[12%Z]]]; [[[1%Z]; [12%Z]]];
                 [[[1%Z]; [12%Z]]]; [[[1%Z]; [2%Z]]]; [[[1%Z]; [2%Z]]];
                 [[[1%Z]; [2%Z]]]]
       [SelfAttention 4 4 0; AddNorm1 0 5; DeformAttention 8 1;
        AddNorm2 6 9; Mlp 10; AddNorm3 10 11]).
Proof. reflexivity. Qed.

(** The layer as a function of tensors returns, on well-shaped inputs. *)
Lemma decoder_layer_Ok
    (embed_dim : nat) (bev_feature_shape : nat * nat) (layer : layer_modules)
    (n0 nb n n1 : nat) (qv bev og : list (list (list Z)))
    (ref_points : list (list (list (Z * Z)))) (padding_mask : list (list bool)) :
  0 < n0 →
  has_shape n0 (n + n1) embed_dim qv →
  has_shape n0 n1 embed_dim og →
  has_shape nb (bev_feature_shape.1 * bev_feature_shape.2) embed_dim bev →
  (∀ y, keeps_shape (λ x, addnorm1 layer x y)) →
  ∃ out, decoder_layer embed_dim bev_feature_shape layer qv bev ref_points og
           padding_mask = Ok out.
Proof.
  intros Hpos Hsq Hsog Hsbev Hkeep. unfold decoder_layer.
  destruct (layer_forward_run embed_dim bev_feature_shape layer n0 nb n n1
              [qv; bev; og] [] 0 1 2 qv bev og ref_points padding_mask)
    as (extra1 & extra2 & Hex1 & Hex2 & Hrun); try done.
  cbv zeta in Hrun. rewrite Hrun. cbn [heap]. unfold getitem.
  set (qk := with_det_queries n qv og).
  set (o1 := self_attention layer qk qk qv padding_mask).
  set (o2 := addnorm1 layer qv o1).
  set (a2 := with_det_queries n o2 og).
  eexists.
  lazymatch goal with
  | |- context [?h !! ?i] =>
      replace i
        with (length [qv; bev; og]
              + (length (extra1 ++ [qk])
                 + (length [o1; o2] + (length (extra2 ++ [a2]) + 3))))
        by (rewrite !length_app; cbn; lia)
  end.
  rewrite !lookup_app_add. cbn. reflexivity.
Qed.

(** ** The query set of [TrackFormer.forward] *)

Lemma length_PosEmbedding1D pos_table n :
  length (PosEmbedding1D pos_table n) = n.
Proof. unfold PosEmbedding1D. by rewrite length_fmap, length_seq. Qed.

Lemma Forall_replicate_2 {A} (P : A → Prop) n x :
  P x → Forall P (replicate n x).
Proof. intros Hx. apply Forall_forall. by intros y [-> _]%elem_of_replicate. Qed.

Lemma Forall_zip_with_app {A} (P Q R : list A → Prop)
    (a b : list (list A)) :
  Forall Q a → Forall R b →
  (∀ u v, Q u → R v → P (u ++ v)) →
  Forall P (zip_with app a b).
Proof.
  intros Ha Hb HP. apply Forall_lookup. intros i w Hw.
  apply lookup_zip_with_Some in Hw as (u & v & -> & Hu & Hv).
  apply HP.
  - exact (proj1 (Forall_lookup _ _) Ha i u Hu).
  - exact (proj1 (Forall_lookup _ _) Hb i v Hv).
Qed.

Lemma concat1_same {A} (a b : list (list A)) :
  length a = length b → concat1 a b = Ok (zip_with app a b).
Proof. intros Hl. unfold concat1. by rewrite decide_True. Qed.

Section QuerySetFacts.
Variables (embed_dim max_detections : nat) (bev_feature_shape : nat * nat).
Variable pos_table : nat → list Z.
Variable grid_point : nat * nat → nat → nat → Z * Z.
Variables (batch_size nbev : nat) (bev : list (list (list Z))).
Hypothesis batch_pos : 0 < batch_size.
Hypothesis bev_shape : has_shape batch_size nbev embed_dim bev.

Let det := replicate batch_size (PosEmbedding1D pos_table max_detections).
Let ones := replicate batch_size (replicate max_detections true).
Let points (n : nat) : list (list (list (Z * Z))) :=
  (λ pts : list (Z * Z), (λ p, [p]) <$> pts) <$>
    generate_standard_ref_points grid_point bev_feature_shape batch_size n.

Lemma length_points n : length (points n) = batch_size.
Proof.
  unfold points, generate_standard_ref_points.
  by rewrite length_fmap, length_replicate.
Qed.

Lemma points_rect n : Forall (λ r, length r = n) (points n).
Proof.
  unfold points, generate_standard_ref_points.
  apply Forall_fmap, Forall_replicate_2. cbn.
  by rewrite !length_fmap, length_seq.
Qed.

Lemma build_query_set_none :
  build_query_set embed_dim max_detections bev_feature_shape pos_table
    grid_point bev None None
  = Ok (QuerySet det ones (points max_detections) det).
Proof.
  unfold build_query_set.
  rewrite (has_shape_last _ _ _ _ bev_shape). cbn.
  destruct bev_shape as [Hl _]. rewrite Hl. fold det.
  assert (Hones : (λ q : list (list Z), replicate (length q) true) <$> det
                  = ones).
  { unfold det, ones. rewrite fmap_replicate.
    by rewrite length_PosEmbedding1D. }
  rewrite Hones.
  assert (Hs : shape1 det = max_detections).
  { unfold det. destruct batch_size; [lia|]. cbn.
    apply length_PosEmbedding1D. }
  by rewrite Hs.
Qed.

Variables (T : nat) (tq : list (list (list Z))) (tqm : list (list bool)).
Hypothesis tq_batch : length tq = batch_size.
Hypothesis tqm_batch : length tqm = batch_size.
Hypothesis tq_rect : Forall (λ t : tensor2, length t = T) tq.
Hypothesis tq_width : Forall (Forall (λ r : row, length r = embed_dim)) tq.
Hypothesis tqm_rect : Forall (λ m : list bool, length m = T) tqm.

Let maxv := max_list (mask_sum <$> tqm).
Let pad_rows (t : tensor2) (m : list bool) : tensor2 :=
  masked t m ++ replicate (maxv - mask_sum m) (replicate embed_dim 0%Z).
Let pad_mask (m : list bool) : list bool :=
  replicate (mask_sum m) true ++ replicate (maxv - mask_sum m) false.

Lemma padded_tracks_rect :
  Forall (λ t, length t = maxv) (zip_with pad_rows tq tqm).
Proof.
  apply Forall_lookup. intros i r Hr.
  apply lookup_zip_with_Some in Hr as (t & m & -> & Ht & Hm).
  unfold pad_rows.
  assert (Hlt : length t = T)
    by exact (proj1 (Forall_lookup _ _) tq_rect i t Ht).
  assert (Hlm : length m = T)
    by exact (proj1 (Forall_lookup _ _) tqm_rect i m Hm).
  assert (Hle : mask_sum m ≤ maxv)
    by (apply mask_sum_le_max; eapply list_elem_of_lookup_2; eauto).
  rewrite length_app, length_replicate, length_masked by lia. lia.
Qed.

Lemma padded_mask_rect : Forall (λ m, length m = maxv) (pad_mask <$> tqm).
Proof.
  apply Forall_fmap, Forall_forall. intros m Hm. cbn. unfold pad_mask.
  pose proof (mask_sum_le_max tqm m Hm).
  rewrite length_app, !length_replicate. lia.
Qed.

Lemma build_query_set_tracks :
  build_query_set embed_dim max_detections bev_feature_shape pos_table
    grid_point bev (Some tq) (Some tqm)
  = Ok (QuerySet (zip_with app (zip_with pad_rows tq tqm) det)
                 (zip_with app (pad_mask <$> tqm) ones)
                 (points (maxv + max_detections)) det).
Proof.
  unfold build_query_set.
  rewrite (has_shape_last _ _ _ _ bev_shape). cbn.
  destruct bev_shape as [Hl _]. rewrite Hl. fold det.
  assert (Hones : (λ q : list (list Z), replicate (length q) true) <$> det
                  = ones).
  { unfold det, ones. rewrite fmap_replicate.
    by rewrite length_PosEmbedding1D. }
  rewrite Hones.
  rewrite (last_dim_is_true tq embed_dim tq_width). cbn.
  rewrite (pad_tracks_rect embed_dim batch_size T) by done. cbn.
  fold maxv. fold pad_rows. fold pad_mask.
  rewrite (concat1_same (zip_with pad_rows tq tqm) det)
    by (unfold det; rewrite length_zip_with, length_replicate; lia).
  rewrite (concat1_same (pad_mask <$> tqm) ones)
    by (unfold ones; rewrite length_fmap, length_replicate; lia).
  cbn.
  assert (Hs : shape1 (zip_with app (zip_with pad_rows tq tqm) det)
               = maxv + max_detections).
  { apply shape1_rect.
    - unfold det. destruct tq, tqm, batch_size; cbn in *; done || lia.
    - apply (Forall_zip_with_app _ (λ t, length t = maxv)
               (λ t, length t = max_detections)).
      + exact padded_tracks_rect.
      + unfold det. apply Forall_replicate_2.
        exact (length_PosEmbedding1D pos_table max_detections).
      + intros u v Hu Hv. rewrite length_app. lia. }
  by rewrite Hs.
Qed.
End QuerySetFacts.

(** C2.  On a valid call the query set, its padding mask and the
    reference points have, for every batch element, as many entries as the
    largest number of valid tracks in the batch plus [max_detections] when
    track queries are supplied, and exactly [max_detections] when they are
    not. *)
Theorem query_set_length
    (embed_dim max_detections : nat) (bev_feature_shape : nat * nat)
    (pos_table : nat → list Z) (grid_point : nat * nat → nat → nat → Z * Z)
    (batch_size nbev T : nat) (bev tq : list (list (list Z)))
    (tqm : list (list bool)) :
  0 < batch_size →
  has_shape batch_size nbev embed_dim bev →
  length tq = batch_size →
  length tqm = batch_size →
  Forall (λ t : tensor2, length t = T) tq →
  Forall (Forall (λ r : row, length r = embed_dim)) tq →
  Forall (λ m : list bool, length m = T) tqm →
  let build := build_query_set embed_dim max_detections bev_feature_shape
                 pos_table grid_point bev in
  let sized (n : nat) (qs : query_set) :=
    length (queries qs) = batch_size ∧
    Forall (λ q, length q = n) (queries qs) ∧
    length (padding_mask qs) = batch_size ∧
    Forall (λ m, length m = n) (padding_mask qs) ∧
    length (ref_points qs) = batch_size ∧
    Forall (λ r, length r = n) (ref_points qs) in
  (∃ max_num_tracks qs,
     (∀ m, m ∈ tqm → mask_sum m ≤ max_num_tracks) ∧
     (∃ m, m ∈ tqm ∧ mask_sum m = max_num_tracks) ∧
     build (Some tq) (Some tqm) = Ok qs ∧
     sized (max_num_tracks + max_detections) qs) ∧
  (∃ qs, build None None = Ok qs ∧ sized max_detections qs).
Proof.
  intros Hpos Hbev Htq Htqm Hrect Hwidth Hmrect build sized.
  assert (Hdet : Forall (λ t : list (list Z), length t = max_detections)
                   (replicate batch_size
                      (PosEmbedding1D pos_table max_detections))).
  { apply Forall_replicate_2. apply length_PosEmbedding1D. }
  assert (Hones : Forall (λ m : list bool, length m = max_detections)
                    (replicate batch_size (replicate max_detections true))).
  { apply Forall_replicate_2. apply length_replicate. }
  split.
  - exists (max_list (mask_sum <$> tqm)). eexists.
    split; [apply mask_sum_le_max|].
    split; [apply max_is_attained; intros ->; cbn in Htqm; lia|].
    split.
    { unfold build.
      by apply (build_query_set_tracks embed_dim max_detections
                  bev_feature_shape pos_table grid_point batch_size nbev bev
                  Hpos Hbev T). }
    unfold sized. cbn [queries padding_mask ref_points].
    split; [rewrite !length_zip_with, length_replicate; lia|].
    split.
    { apply (Forall_zip_with_app _
               (λ t, length t = max_list (mask_sum <$> tqm))
               (λ t, length t = max_detections)); [|done|].
      - by apply (padded_tracks_rect embed_dim batch_size Hpos T tq tqm).
      - intros u v Hu Hv. rewrite length_app. lia. }
    split; [rewrite length_zip_with, length_fmap, length_replicate; lia|].
    split.
    { apply (Forall_zip_with_app _
               (λ t, length t = max_list (mask_sum <$> tqm))
               (λ t, length t = max_detections)); [|done|].
      - by apply (padded_mask_rect batch_size Hpos tq tqm).
      - intros u v Hu Hv. rewrite length_app. lia. }
    split; [apply length_points|apply points_rect].
  - eexists. split.
    { unfold build.
      by apply (build_query_set_none embed_dim max_detections
                  bev_feature_shape pos_table grid_point batch_size nbev bev). }
    unfold sized. cbn [queries padding_mask ref_points].
    split; [by rewrite length_replicate|]. split; [done|].
    split; [by rewrite length_replicate|]. split; [done|].
    split; [apply length_points|apply points_rect].
Qed.

Lemma query_set_length_witness :
  ∃ qs, build_query_set 1 3 (2, 2) (λ i, [Z.of_nat i])
          (λ _ _ i, (Z.of_nat i, 0%Z)) [[[7%Z]]]
          (Some [[[1%Z]; [2%Z]; [3%Z]; [4%Z]]])
          (Some [[true; false; true; true]]) = Ok qs ∧
        Forall (λ q, length q = 3 + 3) (queries qs) ∧
        Forall (λ r, length r = 3 + 3) (ref_points qs).
Proof.
  destruct (query_set_length 1 3 (2, 2) (λ i, [Z.of_nat i])
              (λ _ _ i, (Z.of_nat i, 0%Z)) 1 1 4 [[[7%Z]]]
              [[[1%Z]; [2%Z]; [3%Z]; [4%Z]]] [[true; false; true; true]])
    as [(mx & qs & Hle & (m & Hm & Hmx) & Hrun & _ & Hq & _ & _ & _ & Hr) _].
  - lia.
  - split; [reflexivity|]. repeat constructor.
  - reflexivity.
  - reflexivity.
  - repeat constructor.
  - repeat constructor.
  - repeat constructor.
  - exists qs. split; [exact Hrun|].
    apply list_elem_of_singleton in Hm. subst m. cbn in Hmx. subst mx.
    split; [exact Hq|exact Hr].
Defined.

Example query_set_without_tracks :
  padding_mask <$> build_query_set 8 3 (2, 2) (λ i, replicate 8 (Z.of_nat i))
                     (λ _ _ i, (Z.of_nat i, 0%Z))
                     (replicate 2 (replicate 4 (replicate 8 0%Z))) None None
  = Ok [[true; true; true]; [true; true; true]].
Proof. reflexivity. Qed.

(** ** The loop over the decoder layers *)

Lemma modify_run {S} (f : S → S) s : modify f s = (Ok tt, f s).
Proof. reflexivity. Qed.

Section DecoderLoopFacts.
Variables (embed_dim num_layers max_detections : nat).
Variable bev_feature_shape : nat * nat.
Variable layers : nat → layer_modules.
Variable detection_module : list (list (list Z)) → list (list (list Z)).
Variable qs : query_set.
Variable bev : list (list (list Z)).
Variable outs : nat → list (list (list Z)).
Hypothesis layers_return : ∀ i, i < num_layers →
  decoder_layer embed_dim bev_feature_shape (layers i) (queries qs) bev
    (ref_points qs) (detection_queries qs) (padding_mask qs) = Ok (outs i).

Let loop (training : bool) :=
  decoder_loop embed_dim num_layers bev_feature_shape training layers
    detection_module qs bev.

Lemma decoder_modules_lookup i :
  i < num_layers →
  getitem (decoder_modules num_layers layers) i = Ok (layers i).
Proof.
  intros Hi. unfold getitem, decoder_modules.
  by rewrite list_lookup_fmap, lookup_seq_lt.
Qed.

Lemma decoder_loop_training idxs output dets log :
  Forall (λ i, i < num_layers) idxs →
  loop true idxs output dets log
  = loop true []
      (from_option (λ i, Some (outs i)) output (last idxs))
      (dets ++ ((λ i, detection_module (outs i)) <$> idxs))
      (log ++ flat_map (λ i, [DecoderLayer i; DetectionModule i]) idxs).
Proof.
  revert output dets log.
  induction idxs as [|i idxs IH]; intros output dets log Hidx.
  { cbn [fmap list_fmap flat_map last from_option]. by rewrite !app_nil_r. }
  inversion Hidx as [|?? Hi Hidx']; subst.
  unfold loop. cbn [decoder_loop].
  erewrite bind_run by (rewrite decoder_modules_lookup by done; reflexivity).
  erewrite bind_run by reflexivity.
  erewrite bind_run by (rewrite layers_return by done; reflexivity).
  cbn [negb].
  erewrite bind_run by reflexivity.
  fold (loop true). rewrite IH by done.
  cbn [fmap list_fmap flat_map]. rewrite <- !app_assoc. cbn [app].
  destruct idxs as [|j idxs]; [reflexivity|].
  change (last (i :: j :: idxs)) with (last (j :: idxs)).
  destruct (last (j :: idxs)) eqn:Hlast; [reflexivity|].
  by apply last_None in Hlast.
Qed.

Lemma decoder_loop_inference m k output dets log :
  k + S m = num_layers →
  loop false (seq k (S m)) output dets log
  = (Ok (RetDetections (detection_module (outs (num_layers - 1)))),
     log ++ (DecoderLayer <$> seq k (S m))
         ++ [DetectionModule (num_layers - 1)]).
Proof.
  revert k output log.
  induction m as [|m IH]; intros k output log Hk.
  - unfold loop. cbn [seq decoder_loop].
    erewrite bind_run
      by (rewrite decoder_modules_lookup by lia; reflexivity).
    erewrite bind_run by reflexivity.
    erewrite bind_run by (rewrite layers_return by lia; reflexivity).
    cbn [negb].
    replace (Z.of_nat k =? Z.of_nat num_layers - 1)%Z with true
      by (symmetry; apply Z.eqb_eq; lia).
    erewrite bind_run by reflexivity.
    replace (num_layers - 1) with k by lia.
    cbn. by rewrite <- app_assoc.
  - unfold loop.
    change (seq k (S (S m))) with (k :: seq (S k) (S m)).
    cbn [decoder_loop].
    erewrite bind_run
      by (rewrite decoder_modules_lookup by lia; reflexivity).
    erewrite bind_run by reflexivity.
    erewrite bind_run by (rewrite layers_return by lia; reflexivity).
    cbn [negb].
    replace (Z.of_nat k =? Z.of_nat num_layers - 1)%Z with false
      by (symmetry; apply Z.eqb_neq; lia).
    fold (loop false).
    rewrite IH by lia.
    cbn [fmap list_fmap]. by rewrite <- !app_assoc.
Qed.
End DecoderLoopFacts.

Lemma last_seq n : 0 < n → last (seq 0 n) = Some (n - 1).
Proof.
  intros Hn. destruct n as [|m]; [lia|].
  rewrite seq_S, last_snoc. f_equal. lia.
Qed.

(** C3.  With at least one decoder layer, on a query set that was built
    and decoder layers that return: in training mode the detection head
    is applied to the output of every layer, in order, and [forward]
    returns the output of the last layer with the [num_layers] detection
    tensors; in inference mode the detection head is applied once, to the
    output of the last layer, and [forward] returns that detection tensor
    alone. *)
Theorem forward_detections_by_mode
    (embed_dim num_layers max_detections : nat) (bev_feature_shape : nat * nat)
    (pos_table : nat → list Z) (grid_point : nat * nat → nat → nat → Z * Z)
    (layers : nat → layer_modules)
    (detection_module : list (list (list Z)) → list (list (list Z)))
    (bev : list (list (list Z))) (track_queries : option (list (list (list Z))))
    (track_queries_mask : option (list (list bool)))
    (qs : query_set) (outs : nat → list (list (list Z))) :
  0 < num_layers →
  build_query_set embed_dim max_detections bev_feature_shape pos_table
    grid_point bev track_queries track_queries_mask = Ok qs →
  (∀ i, i < num_layers →
     decoder_layer embed_dim bev_feature_shape (layers i) (queries qs) bev
       (ref_points qs) (detection_queries qs) (padding_mask qs)
     = Ok (outs i)) →
  (∀ i, i < num_layers →
     length (detection_module (outs i)) = length (detection_module (outs 0))) →
  let forward (training : bool) :=
    TrackFormer_forward embed_dim num_layers max_detections bev_feature_shape
      training pos_table grid_point layers detection_module bev
      track_queries track_queries_mask [] in
  let layers_detections :=
    (λ i, detection_module (outs i)) <$> seq 0 num_layers in
  forward true
  = (Ok (RetPair (outs (num_layers - 1)) layers_detections),
     flat_map (λ i, [DecoderLayer i; DetectionModule i]) (seq 0 num_layers)) ∧
  length layers_detections = num_layers ∧
  forward false
  = (Ok (RetDetections (detection_module (outs (num_layers - 1)))),
     (DecoderLayer <$> seq 0 num_layers)
     ++ [DetectionModule (num_layers - 1)]).
Proof.
  intros Hpos Hqs Hlayers Hsize forward layers_detections.
  assert (Hlen : length (decoder_modules num_layers layers) = num_layers).
  { unfold decoder_modules. by rewrite length_fmap, length_seq. }
  pose (m := num_layers - 1).
  assert (HL : num_layers = S m) by (unfold m; lia).
  split; [|split].
  - unfold forward, TrackFormer_forward.
    erewrite bind_run by (rewrite Hqs; reflexivity). rewrite Hlen.
    rewrite (decoder_loop_training embed_dim num_layers bev_feature_shape
               layers detection_module qs bev outs Hlayers).
    2:{ apply Forall_forall. intros i [_ Hi]%elem_of_seq. lia. }
    cbn [app decoder_loop]. fold layers_detections.
    rewrite last_seq by done. cbn [from_option].
    erewrite bind_run; [reflexivity|].
    rewrite lift_run. f_equal.
    apply (stack_rect _ (length (detection_module (outs 0)))).
    + unfold layers_detections. rewrite HL; done.
    + apply Forall_fmap, Forall_forall. intros i [_ Hi]%elem_of_seq.
      cbn. apply Hsize. lia.
  - unfold layers_detections. by rewrite length_fmap, length_seq.
  - unfold forward, TrackFormer_forward.
    erewrite bind_run by (rewrite Hqs; reflexivity). rewrite Hlen.
    replace (seq 0 num_layers) with (seq 0 (S m)) by (by rewrite HL).
    by rewrite (decoder_loop_inference embed_dim num_layers bev_feature_shape
                  layers detection_module qs bev outs Hlayers m 0) by lia.
Qed.

Lemma forward_detections_by_mode_witness :
  let layers (i : nat) :=
    LayerModules (λ q k v m, v) (λ x y, x) (λ q r b s m, q) (λ x y, x)
      (λ x, (λ t : list (list Z),
               (λ r : list Z, Z.add (Z.of_nat i) <$> r) <$> t) <$> x)
      (λ x y, y) in
  let forward (training : bool) :=
    TrackFormer_forward 1 2 1 (1, 1) training (λ i, [(Z.of_nat i + 10)%Z])
      (λ _ _ i, (Z.of_nat i, 0%Z)) layers (λ x, x) [[[5%Z]]] None None [] in
  forward true
  = (Ok (RetPair [[[11%Z]]] [[[[10%Z]]]; [[[11%Z]]]]),
     [DecoderLayer 0; DetectionModule 0; DecoderLayer 1; DetectionModule 1]) ∧
  forward false
  = (Ok (RetDetections [[[11%Z]]]),
     [DecoderLayer 0; DecoderLayer 1; DetectionModule 1]).
Proof.
  intros layers forward.
  destruct (forward_detections_by_mode 1 2 1 (1, 1)
              (λ i, [(Z.of_nat i + 10)%Z]) (λ _ _ i, (Z.of_nat i, 0%Z))
              layers (λ x, x) [[[5%Z]]] None None
              (QuerySet [[[10%Z]]] [[true]] [[[(0%Z, 0%Z)]]] [[[10%Z]]])
              (λ i, [[[(Z.of_nat i + 10)%Z]]]))
    as (Htrain & _ & Hinfer).
  - lia.
  - reflexivity.
  - intros [|[|i]] Hi; [reflexivity|reflexivity|lia].
  - intros i Hi. reflexivity.
  - split; [exact Htrain|exact Hinfer].
Defined.

(** X1.  Without a decoder layer there is nothing to return: on inputs
    from which the query set is built, a [TrackFormer] with
    [num_layers = 0] raises in training and in inference mode, with no
    submodule called; both modes reach [torch.stack] on an empty list. *)
Lemma forward_without_layers_raises
    (embed_dim max_detections : nat) (bev_feature_shape : nat * nat)
    (training : bool)
    (pos_table : nat → list Z) (grid_point : nat * nat → nat → nat → Z * Z)
    (layers : nat → layer_modules)
    (detection_module : list (list (list Z)) → list (list (list Z)))
    (bev : list (list (list Z))) track_queries track_queries_mask qs :
  build_query_set embed_dim max_detections bev_feature_shape pos_table
    grid_point bev track_queries track_queries_mask = Ok qs →
  TrackFormer_forward embed_dim 0 max_detections bev_feature_shape
    training pos_table grid_point layers detection_module bev
    track_queries track_queries_mask []
  = (Err RuntimeError, []).
Proof.
  intros Hqs. unfold TrackFormer_forward.
  erewrite bind_run by (rewrite Hqs; reflexivity). reflexivity.
Qed.

Lemma forward_without_layers_raises_witness :
  TrackFormer_forward 1 0 1 (1, 1) false (λ i, [(Z.of_nat i + 10)%Z])
    (λ _ _ i, (Z.of_nat i, 0%Z))
    (λ _, LayerModules (λ q k v m, v) (λ x y, x) (λ q r b s m, q)
                       (λ x y, x) (λ x, x) (λ x y, y))
    (λ x, x) [[[5%Z]]] (Some [[[1%Z]; [2%Z]]]) (Some [[true; false]]) []
  = (Err RuntimeError, []).
Proof.
  eapply forward_without_layers_raises. reflexivity.
Defined.

(** ** Constructing a MapFormer *)

Lemma bind_inv {S A B} (m : M S A) (f : A → M S B) s b s' :
  (m ≫= f) s = (Ok b, s') →
  ∃ a s1, m s = (Ok a, s1) ∧ f a s1 = (Ok b, s').
Proof.
  unfold mbind, M_bind. destruct (m s) as [[a|e] s1]; [eauto|discriminate].
Qed.

Lemma preserves_bind {A B} P (m : M (gmap string pyval) A)
    (f : A → M (gmap string pyval) B) :
  preserves P m → (∀ a, preserves P (f a)) → preserves P (m ≫= f).
Proof.
  intros Hm Hf self r self' Hrun HP. unfold mbind, M_bind in Hrun.
  destruct (m self) as [[a|e] s1] eqn:Hm1.
  - eapply Hf; [exact Hrun|]. eapply Hm; eauto.
  - injection Hrun as <- <-. eapply Hm; eauto.
Qed.

Lemma preserves_setattr_absent name k v :
  k ≠ name → preserves (λ self, self !! name = None) (setattr k v).
Proof.
  intros Hne self r self' Hrun Habs. injection Hrun as <- <-.
  by rewrite lookup_insert_ne.
Qed.

Lemma preserves_setattr_value name x k v :
  k ≠ name → preserves (λ self, self !! name = Some x) (setattr k v).
Proof.
  intros Hne self r self' Hrun Habs. injection Hrun as <- <-.
  by rewrite lookup_insert_ne.
Qed.

Lemma preserves_getattr P k : preserves P (getattr k).
Proof. intros self r self' Hrun HP. by injection Hrun as <- <-. Qed.

Lemma preserves_lift {A} P (r : res A) : preserves P (lift r).
Proof. intros self r' self' Hrun HP. by injection Hrun as <- <-. Qed.

Lemma preserves_ret {A} P (a : A) :
  preserves P (mret a : M (gmap string pyval) A).
Proof. intros self r' self' Hrun HP. by injection Hrun as <- <-. Qed.

Create HintDb attrs.
#[local] Hint Resolve preserves_getattr preserves_lift preserves_ret : attrs.
#[local] Hint Extern 1 (preserves (λ _, _ = None) (setattr _ _)) =>
  apply preserves_setattr_absent; discriminate : attrs.
#[local] Hint Extern 1 (preserves (λ _, _ = Some _) (setattr _ _)) =>
  apply preserves_setattr_value; discriminate : attrs.
#[local] Hint Extern 2 (preserves _ (_ ≫= _)) =>
  apply preserves_bind; [|intros ?] : attrs.

Lemma create_decoder_layers_preserves construct P :
  preserves P (_create_decoder_layers construct).
Proof. unfold _create_decoder_layers. auto 30 with attrs. Qed.

Lemma TrackFormer_init_keeps_num_obj_classes_absent construct a :
  preserves (λ self, self !! "num_obj_classes" = None)
    (TrackFormer___init__ construct a).
Proof.
  unfold TrackFormer___init__.
  pose proof (create_decoder_layers_preserves construct
                (λ self, self !! "num_obj_classes" = None)).
  auto 60 with attrs.
Qed.

Lemma setattr_run name v self :
  setattr name v self = (Ok tt, <[name := v]> self).
Proof. reflexivity. Qed.

Lemma getattr_inv name self v self' :
  getattr name self = (Ok v, self') → self !! name = Some v ∧ self' = self.
Proof.
  unfold getattr. destruct (self !! name); intros H; by simplify_eq.
Qed.

Lemma lift_inv {S A} (r : res A) (s : S) a s' :
  lift r s = (Ok a, s') → r = Ok a ∧ s' = s.
Proof. unfold lift. intros H. by simplify_eq. Qed.

(** The statements of [MapFormer.__init__] up to the read of
    [self.num_obj_classes] assign other attributes only. *)
Lemma MapFormer_init_reads_unassigned construct a num_seg_coeffs seg_c_h u self :
  MapFormer___init__ construct a num_seg_coeffs seg_c_h ∅ = (Ok u, self) →
  False.
Proof.
  unfold MapFormer___init__. intros Hrun.
  apply bind_inv in Hrun as ([] & s1 & Hinit & Hrun).
  assert (Habs : s1 !! "num_obj_classes" = None).
  { eapply (TrackFormer_init_keeps_num_obj_classes_absent construct a);
      [exact Hinit|]. apply lookup_empty. }
  apply bind_inv in Hrun as (positive & s2 & [_ ->]%lift_inv & Hrun).
  apply bind_inv in Hrun as ([] & s3 & [_ ->]%lift_inv & Hrun).
  apply bind_inv in Hrun as ([] & s4 & Hset1 & Hrun).
  rewrite setattr_run in Hset1. injection Hset1 as <-.
  apply bind_inv in Hrun as ([] & s5 & Hset2 & Hrun).
  rewrite setattr_run in Hset2. injection Hset2 as <-.
  apply bind_inv in Hrun as (e1 & s6 & [_ ->]%getattr_inv & Hrun).
  apply bind_inv in Hrun as (proto & s7 & [_ ->]%lift_inv & Hrun).
  apply bind_inv in Hrun as ([] & s8 & Hset3 & Hrun).
  rewrite setattr_run in Hset3. injection Hset3 as <-.
  apply bind_inv in Hrun as (e2 & s9 & [_ ->]%getattr_inv & Hrun).
  apply bind_inv in Hrun as (c & s10 & [Hc _]%getattr_inv & _).
  rewrite !lookup_insert_ne in Hc by discriminate.
  congruence.
Qed.

(** C6.  Whatever the arguments, and whatever the constructors of the
    submodules do, [MapFormer(...)] raises: no object is returned. *)
Theorem MapFormer_cannot_be_constructed
    (construct : string → list (string * pyval) → res pyval)
    (a : TrackFormer_args) (num_seg_coeffs seg_c_h : pyval) :
  ∃ e, MapFormer_new construct a num_seg_coeffs seg_c_h = Err e.
Proof.
  unfold MapFormer_new.
  destruct (MapFormer___init__ construct a num_seg_coeffs seg_c_h ∅)
    as [[u|e] self] eqn:Hrun; [|by exists e].
  exfalso. by eapply MapFormer_init_reads_unassigned.
Qed.

(** What [TrackFormer.__init__] leaves behind when it returns: the number
    of classes is stored as [num_classes], and no attribute is called
    [num_obj_classes]. *)
Lemma TrackFormer_init_attributes construct a self :
  TrackFormer___init__ construct a ∅ = (Ok tt, self) →
  self !! "num_classes" = Some (arg_num_classes a) ∧
  self !! "embed_dim" = Some (arg_embed_dim a) ∧
  self !! "num_obj_classes" = None.
Proof.
  intros Hinit.
  pose proof (create_decoder_layers_preserves construct) as Hlayers.
  split; [|split].
  - unfold TrackFormer___init__ in Hinit.
    do 5 (apply bind_inv in Hinit as ([] & ? & Hset & Hinit);
          rewrite setattr_run in Hset; injection Hset as <-).
    lazymatch type of Hinit with
    | ?m ?s = _ =>
        assert (Hkeep : preserves
                  (λ self, self !! "num_classes" = Some (arg_num_classes a)) m)
          by auto 60 with attrs
    end.
    eapply Hkeep; [exact Hinit|]. by simplify_map_eq.
  - unfold TrackFormer___init__ in Hinit.
    do 3 (apply bind_inv in Hinit as ([] & ? & Hset & Hinit);
          rewrite setattr_run in Hset; injection Hset as <-).
    lazymatch type of Hinit with
    | ?m ?s = _ =>
        assert (Hkeep : preserves
                  (λ self, self !! "embed_dim" = Some (arg_embed_dim a)) m)
          by auto 60 with attrs
    end.
    eapply Hkeep; [exact Hinit|]. by simplify_map_eq.
  - eapply (TrackFormer_init_keeps_num_obj_classes_absent construct a);
      [exact Hinit|]. apply lookup_empty.
Qed.

Example MapFormer_default_arguments_raise :
  MapFormer_new (λ class kwargs, Ok (PyModule class kwargs))
    {| arg_num_heads := PyInt 8; arg_embed_dim := PyInt 256;
       arg_num_layers := PyInt 6; arg_num_classes := PyInt 10;
       arg_num_ref_points := PyInt 4; arg_dim_feedforward := PyInt 512;
       arg_dropout := PyFloat 1 (-3); arg_offset_scale := PyFloat 1 0;
       arg_max_detections := PyInt 900; arg_learnable_pe := PyBool true;
       arg_bev_feature_shape := PyTuple [PyInt 200; PyInt 200];
       arg_track_threshold := PyFloat 1 (-1); arg_det_3d := PyBool true |}
    (PyInt 32) (PyInt 256)
  = Err (AttributeError "num_obj_classes").
Proof. vm_compute. reflexivity. Qed.

(** ** MapFormer.forward *)

Lemma unpack_pair n a b : n ≠ 2 → unpack n (PTuple [a; b]) = Err ValueError.
Proof. intros Hn. unfold unpack. by rewrite decide_False. Qed.

Lemma unpack_tensor_items n t items :
  unpack n (PTensor t) = Ok items →
  ∃ k rest, shape t = k :: rest ∧
    Forall (λ v, ∃ d, v = PTensor (Tensor rest d)) items.
Proof.
  unfold unpack. destruct (shape t) as [|k rest] eqn:Hs; [done|].
  destruct (decide (k = n)); [|done]. intros [= <-].
  exists k, rest. split; [done|].
  apply Forall_fmap, Forall_forall. intros d _. by exists d.
Qed.

(** A tensor with two axes, sliced on the last one and given one more axis,
    has three: it cannot be the first operand of the contraction. *)
Lemma coefs_of_matrix_rejected from_i i n0 n1 d v :
  slice_last from_i i (PTensor (Tensor [n0; n1] d)) = Ok v →
  unsqueeze_last v ≫= to_tensor4 = Err RuntimeError.
Proof.
  unfold slice_last. cbn [shape last]. intros [= <-]. reflexivity.
Qed.

Section MapFormerFacts.
Variables embed_dim num_layers max_detections : nat.
Variable bev_feature_shape : nat * nat.
Variable training : bool.
Variable pos_table : nat → list Z.
Variable grid_point : nat * nat → nat → nat → Z * Z.
Variable layers : nat → layer_modules.
Variable detection_module : list (list (list Z)) → list (list (list Z)).
Variable num_seg_coeffs : nat.
Variable proto_seg_module :
  list (list (list (list Z))) → list (list (list (list Z))).
Variable bev : list (list (list Z)).
Variable track_queries : option (list (list (list Z))).
Variable track_queries_mask : option (list (list bool)).

Let parent :=
  TrackFormer_forward embed_dim num_layers max_detections bev_feature_shape
    training pos_table grid_point layers detection_module bev
    track_queries track_queries_mask.
Let forward :=
  MapFormer_forward embed_dim num_layers max_detections bev_feature_shape
    training pos_table grid_point layers detection_module num_seg_coeffs
    proto_seg_module bev track_queries track_queries_mask.

(** When the parent returns its pair, the unpacking raises. *)
Lemma MapFormer_forward_unpacks_pair log output layers_detections log' :
  parent log = (Ok (RetPair output layers_detections), log') →
  forward log = (Err ValueError, log').
Proof.
  intros Hparent. unfold forward, MapFormer_forward. fold parent.
  erewrite bind_run by exact Hparent.
  erewrite bind_run_err; [reflexivity|].
  cbn [of_ret]. by rewrite unpack_pair.
Qed.

Lemma MapFormer_forward_raises log :
  ∃ e log', forward log = (Err e, log').
Proof.
  destruct (forward log) as [[r|e] log'] eqn:Hrun; [exfalso|by eauto].
  unfold forward, MapFormer_forward in Hrun. fold parent in Hrun.
  apply bind_inv in Hrun as (ret & log1 & Hparent & Hrun).
  apply bind_inv in Hrun as (items & log2 & [Hunpack ->]%lift_inv & Hrun).
  destruct ret as [output layers_detections|detections].
  { cbn [of_ret] in Hunpack. by rewrite unpack_pair in Hunpack. }
  cbn [of_ret] in Hunpack.
  apply unpack_tensor_items in Hunpack as (k & rest & Hshape & Hitems).
  cbn [of_tensor3 shape] in Hshape. injection Hshape as <- <-.
  destruct items as [|o [|det [|m [|l [|]]]]]; try discriminate.
  inversion Hitems as [|?? _ Hitems']; subst.
  inversion Hitems' as [|?? [d ->] _]; subst.
  apply bind_inv in Hrun as (width & log3 & [_ ->]%lift_inv & Hrun).
  apply bind_inv in Hrun as (coefs & log4 & [Hslice ->]%lift_inv & Hrun).
  apply bind_inv in Hrun as (dets & log5 & [_ ->]%lift_inv & Hrun).
  apply bind_inv in Hrun as (grid & log6 & [_ ->]%lift_inv & Hrun).
  apply bind_inv in Hrun as (c4 & log7 & [Hc4 ->]%lift_inv & Hrun).
  by rewrite (coefs_of_matrix_rejected _ _ _ _ _ _ Hslice) in Hc4.
Qed.
End MapFormerFacts.

(** C5.  [MapFormer.forward] does not return the five outputs its
    docstring lists: for every input, in training and in inference mode,
    it raises.  The parent's [forward] returns a pair (or one tensor),
    which the method unpacks into four names. *)
Theorem MapFormer_forward_never_returns
    (embed_dim num_layers max_detections : nat) (bev_feature_shape : nat * nat)
    (training : bool) (pos_table : nat → list Z)
    (grid_point : nat * nat → nat → nat → Z * Z)
    (layers : nat → layer_modules)
    (detection_module : list (list (list Z)) → list (list (list Z)))
    (num_seg_coeffs : nat)
    (proto_seg_module :
       list (list (list (list Z))) → list (list (list (list Z))))
    (bev : list (list (list Z)))
    (track_queries : option (list (list (list Z))))
    (track_queries_mask : option (list (list bool)))
    (log : list forward_call) :
  ∃ e log',
    MapFormer_forward embed_dim num_layers max_detections bev_feature_shape
      training pos_table grid_point layers detection_module num_seg_coeffs
      proto_seg_module bev track_queries track_queries_mask log
    = (Err e, log').
Proof. apply MapFormer_forward_raises. Qed.

Example MapFormer_forward_training_raises :
  let layers (i : nat) :=
    LayerModules (λ q k v m, v) (λ x y, x) (λ q r b s m, q) (λ x y, x)
                 (λ x, x) (λ x y, y) in
  MapFormer_forward 1 2 1 (1, 1) true (λ i, [(Z.of_nat i + 10)%Z])
    (λ _ _ i, (Z.of_nat i, 0%Z)) layers (λ x, x) 1 (λ x, x)
    [[[5%Z]]] None None []
  = (Err ValueError,
     [DecoderLayer 0; DetectionModule 0; DecoderLayer 1; DetectionModule 1]).
Proof. reflexivity. Qed.

Example MapFormer_forward_inference_raises :
  let layers (i : nat) :=
    LayerModules (λ q k v m, v) (λ x y, x) (λ q r b s m, q) (λ x y, x)
                 (λ x, x) (λ x y, y) in
  MapFormer_forward 1 2 1 (1, 1) false (λ i, [(Z.of_nat i + 10)%Z])
    (λ _ _ i, (Z.of_nat i, 0%Z)) layers (λ x, x) 1 (λ x, x)
    [[[5%Z]]] None None []
  = (Err ValueError, [DecoderLayer 0; DecoderLayer 1; DetectionModule 1]) ∧
  MapFormer_forward 1 2 1 (1, 1) false (λ i, [(Z.of_nat i + 10)%Z])
    (λ _ _ i, (Z.of_nat i, 0%Z)) layers (λ x, x) 1 (λ x, x)
    (replicate 4 [[5%Z]]) None None []
  = (Err RuntimeError, [DecoderLayer 0; DecoderLayer 1; DetectionModule 1]).
Proof. split; reflexivity. Qed.

(** ** OccFormer *)

(** *** Shapes *)

Lemma assert_that_true : assert_that true = Ok tt.
Proof. reflexivity. Qed.

Lemma bdim_same a : bdim a a = Ok a.
Proof. unfold bdim. by rewrite Nat.eqb_refl. Qed.

Lemma bshape_rev_same r : bshape_rev r r = Ok r.
Proof.
  induction r as [|a r IH]; [reflexivity|].
  cbn. rewrite bdim_same. cbn. by rewrite IH.
Qed.

Lemma bshape_same s : bshape s s = Ok s.
Proof. unfold bshape. rewrite bshape_rev_same. cbn. by rewrite reverse_involutive. Qed.

Lemma bshape_pad n l a : bshape [n; l; a] [n; 1; a] = Ok [n; l; a].
Proof.
  unfold bshape. cbn. rewrite !bdim_same. cbn.
  unfold bdim. destruct (l =? 1) eqn:Hl; [|by rewrite Nat.eqb_refl].
  apply Nat.eqb_eq in Hl. by subst.
Qed.

Lemma matmul_same n p q r : matmul [n; p; q] [n; q; r] = Ok [n; p; r].
Proof. unfold matmul. by rewrite Nat.eqb_refl, bdim_same. Qed.

Lemma Linear_shape_3 n_in n_out n a :
  Linear_shape n_in n_out [n; a; n_in] = Ok [n; a; n_out].
Proof. unfold Linear_shape. cbn. by rewrite Nat.eqb_refl. Qed.

Lemma Conv_shape_4 c c_out k n h w :
  Conv_shape c c_out k [n; c; h; w] = Ok [n; c_out; h * k; w * k].
Proof. unfold Conv_shape. by rewrite Nat.eqb_refl. Qed.

(** *** Double precision: scale factors that are powers of two

    For a side below [2^53] and a scale factor [1 / 2^k] neither the
    quotient nor the product is rounded, and the size is the integer
    quotient. *)

Lemma round_half_even_exact m q :
  (0 < q)%Z → round_half_even (m * q) q = m.
Proof.
  intros Hq. unfold round_half_even.
  rewrite Z.div_mul, Z.mod_mul by lia.
  destruct (Z.ltb_spec (2 * 0) q); [reflexivity|lia].
Qed.

Lemma double_of_int_exact n :
  (0 < n < 2 ^ 53)%Z →
  double_of_int n = ((n * 2 ^ (52 - Z.log2 n))%Z, (Z.log2 n - 52)%Z).
Proof.
  intros Hn. unfold double_of_int, double_round.
  assert (Z.log2 n < 53)%Z by (apply Z.log2_lt_pow2; lia).
  destruct (Z.leb_spec (Z.log2 n) 52); [|lia].
  f_equal; lia.
Qed.

Lemma double_inv_pow2 k :
  (0 ≤ k)%Z → double_inv (2 ^ k) = ((2 ^ 52)%Z, (- k - 52)%Z).
Proof.
  intros Hk. unfold double_inv. rewrite Z.log2_pow2 by done.
  by rewrite Z.eqb_refl.
Qed.

Lemma double_size_pow2 n k :
  (0 < n < 2 ^ 53)%Z → (0 ≤ k)%Z →
  double_floor (double_mul (double_of_int n) (double_inv (2 ^ k)))
  = (n / 2 ^ k)%Z.
Proof.
  intros Hn Hk. rewrite double_of_int_exact, double_inv_pow2 by done.
  set (l := Z.log2 n).
  assert (Hl : (0 ≤ l < 53)%Z).
  { split; [apply Z.log2_nonneg|apply Z.log2_lt_pow2; lia]. }
  assert (Hlo : (2 ^ l ≤ n < 2 ^ (l + 1))%Z).
  { unfold l. replace (l + 1)%Z with (Z.succ (Z.log2 n)) by (unfold l; lia).
    apply Z.log2_spec. lia. }
  set (m := (n * 2 ^ (52 - l))%Z).
  assert (Hm : (2 ^ 52 ≤ m < 2 ^ 53)%Z).
  { unfold m. split.
    - replace 52%Z with (l + (52 - l))%Z at 1 by lia.
      rewrite Z.pow_add_r by lia. apply Z.mul_le_mono_nonneg_r; [|lia].
      apply Z.pow_nonneg. lia.
    - replace 53%Z with ((l + 1) + (52 - l))%Z by lia.
      rewrite Z.pow_add_r by lia. apply Z.mul_lt_mono_pos_r; [|lia].
      apply Z.pow_pos_nonneg; lia. }
  unfold double_mul, double_round. cbn [fst snd].
  assert (Hlog : Z.log2 (m * 2 ^ 52) = 104%Z).
  { apply Z.log2_unique; [lia|].
    change (Z.succ 104) with 105%Z.
    change (2 ^ 104)%Z with (2 ^ 52 * 2 ^ 52)%Z.
    change (2 ^ 105)%Z with (2 ^ 53 * 2 ^ 52)%Z. nia. }
  rewrite Hlog. change (104 <=? 52)%Z with false. cbv iota.
  change (104 - 52)%Z with 52%Z.
  rewrite round_half_even_exact by lia.
  destruct (Z.eqb_spec m (2 ^ 53)); [lia|].
  unfold double_floor. cbn [fst snd].
  destruct (Z.leb_spec 0 (l - 52 + (- k - 52) + 104 - 52)).
  - assert (l = 52%Z) by lia. assert (k = 0%Z) by lia. subst k.
    replace (l - 52 + (- 0 - 52) + 104 - 52)%Z with 0%Z by lia.
    unfold m. replace (52 - l)%Z with 0%Z by lia.
    rewrite !Z.pow_0_r, Z.div_1_r. lia.
  - replace (- (l - 52 + (- k - 52) + 104 - 52))%Z with (k + (52 - l))%Z
      by lia.
    unfold m. rewrite Z.pow_add_r by lia.
    rewrite Z.div_mul_cancel_r; [done| |].
    + apply Z.pow_nonzero; lia.
    + apply Z.pow_nonzero; lia.
Qed.

Lemma upsampled_size_Over_pow2 k h :
  (Z.of_nat h < 2 ^ 53)%Z → upsampled_size (Over (2 ^ k)) h = h / 2 ^ k.
Proof.
  intros Hh. unfold upsampled_size.
  assert (Hk : 2 ^ k ≠ 0) by (apply Nat.pow_nonzero; lia).
  destruct (Nat.eqb_spec h 0) as [->|Hh0].
  { cbn [orb]. symmetry. apply Nat.div_small. lia. }
  rewrite (proj2 (Nat.eqb_neq _ _) Hk). cbn [orb].
  rewrite Nat2Z.inj_pow. change (Z.of_nat 2) with 2%Z.
  rewrite double_size_pow2 by lia.
  apply Nat2Z.inj. rewrite Z2Nat.id.
  - by rewrite Nat2Z.inj_div, Nat2Z.inj_pow.
  - apply Z.div_pos; [lia|]. apply Z.pow_pos_nonneg; lia.
Qed.

Lemma Upsample_down s n c h w :
  (∃ k, s = 2 ^ k) → 0 < h → 0 < w →
  (Z.of_nat (h * s) < 2 ^ 53)%Z → (Z.of_nat (w * s) < 2 ^ 53)%Z →
  Upsample (Over s) [n; c; h * s; w * s] = Ok [n; c; h; w].
Proof.
  intros [k ->] Hh Hw Hhs Hws. unfold Upsample.
  rewrite !upsampled_size_Over_pow2 by done.
  rewrite !Nat.div_mul by (apply Nat.pow_nonzero; lia).
  replace (0 <? h) with true by (symmetry; apply Nat.ltb_lt; lia).
  replace (0 <? w) with true by (symmetry; apply Nat.ltb_lt; lia).
  reflexivity.
Qed.

Lemma pow2_pos s : (∃ k, s = 2 ^ k) → 0 < s.
Proof. intros [k ->]. apply Nat.neq_0_lt_0, Nat.pow_nonzero. lia. Qed.

Lemma Upsample_up s n c h w :
  0 < s → 0 < h → 0 < w →
  Upsample (Times s) [n; c; h; w] = Ok [n; c; h * s; w * s].
Proof.
  intros Hs Hh Hw. unfold Upsample, upsampled_size.
  replace (0 <? h * s) with true by (symmetry; apply Nat.ltb_lt; nia).
  replace (0 <? w * s) with true by (symmetry; apply Nat.ltb_lt; nia).
  reflexivity.
Qed.

Lemma reshape_shape_known (target s : list nat) :
  numel target = numel s → reshape_shape (Some <$> target) s = Ok target.
Proof.
  intros Hn. unfold reshape_shape.
  assert (Hid : omap id (Some <$> target) = target).
  { clear. induction target as [|d t IH]; [done|]. cbn. by rewrite IH. }
  rewrite Hid, length_fmap, Nat.sub_diag, Hn, Nat.eqb_refl. reflexivity.
Qed.

(** C8.  On inputs of the documented ranks, [OccFormer.forward] raises the
    assertion error itself, with no submodule called before, as soon as
    the agent counts of the track and motion queries differ, or the
    embedding widths of the track queries, the motion queries and the
    model do not agree, or the number of modes is not [num_modes], or
    the BEV channel width is not [embed_dim]. *)
Theorem OccFormer_forward_rejects_mismatch
    (max_num_agents embed_dim num_modes pred_horizon : nat)
    (bev_feature_hw : nat * nat) (bev_downsmaple_scale op_attn_scale : nat)
    (inference_mode : bool)
    (nb hw c n a e n' a' k e' : nat) (pad_mask : option (list nat * bool))
    (log : list string) :
  a ≠ a' ∨ e ≠ e' ∨ e' ≠ embed_dim ∨ k ≠ num_modes ∨ c ≠ embed_dim →
  OccFormer_forward max_num_agents embed_dim num_modes pred_horizon
    bev_feature_hw bev_downsmaple_scale op_attn_scale inference_mode
    [nb; hw; c] [n; a; e] [n'; a'; k; e'] pad_mask log
  = (Err AssertionError, log).
Proof.
  intros Hbad. unfold OccFormer_forward.
  erewrite bind_run by reflexivity. erewrite bind_run by reflexivity.
  destruct (Nat.eqb_spec a a') as [<-|Ha]; [|reflexivity].
  erewrite bind_run by reflexivity.
  erewrite bind_run by reflexivity. erewrite bind_run by reflexivity.
  destruct (Nat.eqb_spec e e') as [<-|He]; [|reflexivity].
  destruct (Nat.eqb_spec e embed_dim) as [->|He]; [|reflexivity].
  erewrite bind_run by reflexivity. erewrite bind_run by reflexivity.
  destruct (Nat.eqb_spec k num_modes) as [->|Hk]; [|reflexivity].
  erewrite bind_run by reflexivity. erewrite bind_run by reflexivity.
  destruct (Nat.eqb_spec c embed_dim) as [->|Hc]; [|reflexivity].
  exfalso. destruct Hbad as [?|[?|[?|[?|?]]]]; congruence.
Qed.

Lemma OccFormer_forward_rejects_mismatch_witness :
  OccFormer_forward 10 8 6 5 (8, 8) 4 2 false [1; 64; 8] [1; 5; 8] [1; 4; 6; 8]
    None []
  = (Err AssertionError, []).
Proof.
  apply (OccFormer_forward_rejects_mismatch 10 8 6 5 (8, 8) 4 2 false
           1 64 8 1 5 8 1 4 6 8 None []).
  left. lia.
Defined.

(** *** One decoder layer, one timestep, the loop *)

Lemma reshape_shape_infer (target : list (option nat)) (s : list nat) x :
  length target - length (omap id target) = 1 →
  0 < numel (omap id target) →
  numel s = x * numel (omap id target) →
  reshape_shape target s = Ok (from_option id x <$> target).
Proof.
  intros Hone Hp Hn. unfold reshape_shape. rewrite Hone, Hn.
  rewrite Nat.Div0.mod_mul, Nat.div_mul by lia.
  replace (numel (omap id target) =? 0) with false
    by (symmetry; apply Nat.eqb_neq; lia).
  reflexivity.
Qed.

Lemma called_run {A} name (a : A) (log : list string) :
  called name (Ok a) log = (Ok a, log ++ [name]).
Proof. reflexivity. Qed.

Section OccLayerRun.
Variables (embed_dim op_attn_scale N A hq wq : nat).
Hypothesis N_pos : 0 < N.
Hypothesis E_pos : 0 < embed_dim.
Hypothesis a_pos : 0 < op_attn_scale.
Hypothesis a_pow2 : ∃ k, op_attn_scale = 2 ^ k.
Hypothesis hq_pos : 0 < hq.
Hypothesis wq_pos : 0 < wq.
Hypothesis h_small : (Z.of_nat (hq * op_attn_scale) < 2 ^ 53)%Z.
Hypothesis w_small : (Z.of_nat (wq * op_attn_scale) < 2 ^ 53)%Z.
Variable pad_mask : option (list nat * bool).
Hypothesis pad_ok : pad_mask = None ∨ pad_mask = Some ([N; A], true).

End OccLayerRun.

Lemma stack_dim2_replicate T (s : list nat) :
  0 < T → 2 ≤ length s →
  stack_dim2 (replicate T s) = Ok (take 2 s ++ [T] ++ drop 2 s).
Proof.
  intros HT Hs. destruct T as [|T]; [lia|]. unfold stack_dim2.
  cbn [replicate]. fold (replicate (S T) s).
  replace (forallb _ (replicate (S T) s)) with true.
  - replace (2 <=? length s) with true by (symmetry; apply Nat.leb_le; lia).
    cbn. by rewrite length_replicate.
  - symmetry. apply Is_true_eq_true, forallb_True, Forall_replicate_2.
    apply Is_true_eq_left, bool_decide_eq_true_2. reflexivity.
Qed.

Section OccFormerRun.
Variables (max_num_agents embed_dim num_modes pred_horizon : nat).
Variables (s a : nat) (inference_mode : bool).
Variables (N A hq wq : nat).
Hypothesis N_pos : 0 < N.
Hypothesis A_pos : 0 < A.
Hypothesis A_max : A ≤ max_num_agents.
Hypothesis E_pos : 0 < embed_dim.
Hypothesis K_pos : 0 < num_modes.
Hypothesis T_pos : 0 < pred_horizon.
Hypothesis s_pos : 0 < s.
Hypothesis a_pos : 0 < a.
Hypothesis a_pow2 : ∃ k, a = 2 ^ k.
Hypothesis hq_pos : 0 < hq.
Hypothesis wq_pos : 0 < wq.
Hypothesis h_small : (Z.of_nat (hq * a) < 2 ^ 53)%Z.
Hypothesis w_small : (Z.of_nat (wq * a) < 2 ^ 53)%Z.
Variable pad_mask : option (list nat * bool).
Hypothesis pad_ok : pad_mask = None ∨ pad_mask = Some ([N; A], true).

Let H := hq * a * s.
Let W := wq * a * s.
Let dense := [N; embed_dim; hq * a; wq * a].
Let attn := if negb inference_mode then [[N; A; hq; wq]] else [].


End OccFormerRun.

Lemma concat_last_3 n a e1 e2 e3 :
  concat_last [[n; a; e1]; [n; a; e2]; [n; a; e3]] = Ok [n; a; e1 + e2 + e3].
Proof.
  unfold concat_last. cbn [forallb removelast length Nat.eqb negb andb].
  rewrite bool_decide_eq_true_2 by done. cbn.
  by replace (e1 + (e2 + (e3 + 0))) with (e1 + e2 + e3) by lia.
Qed.

Lemma mjoin_replicate_nil {A} n : mjoin (replicate n (@nil A)) = [].
Proof. induction n as [|n IH]; [done|]. cbn. exact IH. Qed.

Lemma mjoin_replicate_singleton {A} n (x : A) :
  mjoin (replicate n [x]) = replicate n x.
Proof. induction n as [|n IH]; [done|]. cbn. f_equal. exact IH. Qed.




Example upsampled_size_98_over_49 :
  upsampled_size (Over 49) 98 = 1 ∧ upsampled_size (Over 49) 49 = 0
  ∧ upsampled_size (Over 4) 200 = 50 ∧ upsampled_size (Over 3) 200 = 66.
Proof. vm_compute. done. Qed.

Example OccFormerDecoderLayer_forward_scale_49_raises :
  OccFormerDecoderLayer_forward 8 (49, 49) 49 [2; 8; 49; 49]
    [2; 3; 8] [2; 3; 8] false None []
  = (Err RuntimeError, ["downsampler"]).
Proof. vm_compute. reflexivity. Qed.

Example OccFormer_forward_default_grid :
  fst (OccFormer_forward 10 128 6 5 (200, 200) 4 2 true
         [1; 200 * 200; 128] [1; 7; 128] [1; 7; 6; 128] None [])
  = Ok ([1; 7; 5; 200; 200], None).
Proof. vm_compute. reflexivity. Qed.

Example OccFormer_forward_empty_batch_raises :
  fst (OccFormer_forward 10 8 6 5 (16, 8) 4 2 true
         [0; 16 * 8; 8] [0; 3; 8] [0; 3; 6; 8] None [])
  = Err RuntimeError.
Proof. vm_compute. reflexivity. Qed.

(** ** Pooling the motion modes *)

Lemma foldl_max_ge z zs : (z ≤ foldl Z.max z zs)%Z.
Proof.
  revert z. induction zs as [|y zs IH]; intros z; cbn; [lia|].
  etrans; [|apply IH]. lia.
Qed.

Lemma foldl_max_upper x z zs :
  x = z ∨ x ∈ zs → (x ≤ foldl Z.max z zs)%Z.
Proof.
  revert z. induction zs as [|y zs IH]; intros z [->|Hx]; cbn.
  - lia.
  - by apply elem_of_nil in Hx.
  - etrans; [|apply foldl_max_ge]. lia.
  - apply elem_of_cons in Hx as [->|Hx].
    + etrans; [|apply foldl_max_ge]. lia.
    + apply IH. by right.
Qed.

Lemma maximum_ge l x : x ∈ l → (x ≤ maximum l)%Z.
Proof.
  destruct l as [|z zs]; [by intros ?%elem_of_nil|].
  intros Hx. cbn. apply foldl_max_upper.
  by apply elem_of_cons in Hx.
Qed.

Lemma maximum_elem_of l : l ≠ [] → maximum l ∈ l.
Proof.
  destruct l as [|z zs]; [done|]. intros _. cbn.
  revert z. induction zs as [|y zs IH]; intros z; cbn.
  - apply list_elem_of_here.
  - destruct (Z.max_spec z y) as [[_ ->]|[_ ->]].
    + apply list_elem_of_further, IH.
    + specialize (IH z). apply elem_of_cons in IH as [->|Hin].
      * apply list_elem_of_here.
      * by do 2 apply list_elem_of_further.
Qed.

Lemma elem_of_window kh kw (plane : list (list Z)) i j x :
  x ∈ window kh kw plane i j ↔
  ∃ di dj row, di < kh ∧ dj < kw ∧
    plane !! (i + di) = Some row ∧ row !! (j + dj) = Some x.
Proof.
  unfold window. rewrite list_elem_of_join. split.
  - intros (l & Hx & Hl).
    apply list_elem_of_fmap in Hl as (row & -> & Hrow).
    apply elem_of_take in Hrow as (di & Hrow & Hdi).
    apply elem_of_take in Hx as (dj & Hx & Hdj).
    rewrite lookup_drop in Hrow. rewrite lookup_drop in Hx.
    by exists di, dj, row.
  - intros (di & dj & row & Hdi & Hdj & Hrow & Hx).
    exists (take kw (drop j row)). split.
    + apply elem_of_take. exists dj. by rewrite lookup_drop.
    + apply list_elem_of_fmap. exists row. split; [done|].
      apply elem_of_take. exists di. by rewrite lookup_drop.
Qed.

Lemma mapM_fmap_Ok {A B C} (f : B → res C) (g : A → B) (h : A → C) l :
  (∀ a, a ∈ l → f (g a) = Ok (h a)) → mapM f (g <$> l) = Ok (h <$> l).
Proof.
  induction l as [|a l IH]; intros Hf; [reflexivity|].
  cbn. rewrite (Hf a) by apply list_elem_of_here. cbn.
  rewrite IH; [reflexivity|].
  intros b Hb. apply Hf. by apply list_elem_of_further.
Qed.

Section PoolModes.
Variables (num_modes E : nat).
Hypothesis K_pos : 0 < num_modes.
Hypothesis E_pos : 0 < E.

Let pooled_plane (plane : list (list Z)) : list Z :=
  (λ c, maximum (window num_modes 1 plane 0 c)) <$> seq 0 E.

Lemma MaxPool2d_plane_modes (plane : list (list Z)) :
  length plane = num_modes → Forall (λ r, length r = E) plane →
  MaxPool2d_plane num_modes 1 plane = Ok [pooled_plane plane].
Proof.
  intros Hl Hw. unfold MaxPool2d_plane.
  assert (Hs : shape1 plane = E).
  { apply shape1_rect; [|done]. intros ->. cbn in Hl. lia. }
  rewrite Hs, Hl, Nat.leb_refl.
  replace (0 <? num_modes) with true by (symmetry; apply Nat.ltb_lt; lia).
  replace (1 <=? E) with true by (symmetry; apply Nat.leb_le; lia).
  cbn [andb Nat.ltb Nat.leb assert_that mbind res_bind].
  rewrite Nat.sub_diag. replace (E - 1 + 1) with E by lia.
  reflexivity.
Qed.

Lemma pool_modes_value (mq : list (list (list (list Z)))) :
  Forall (λ agents : list (list (list Z)),
            agents ≠ [] ∧
            Forall (λ plane : list (list Z),
                      length plane = num_modes ∧
                      Forall (λ r : list Z, length r = E) plane) agents) mq →
  pool_modes num_modes mq
  = Ok ((λ agents : list (list (list Z)), pooled_plane <$> agents) <$> mq).
Proof.
  intros Hmq. unfold pool_modes, MaxPool2d.
  rewrite (mapM_ext_Ok _
             (λ agents : list (list (list Z)),
                (λ plane, [pooled_plane plane]) <$> agents)).
  2:{ intros agents Hin.
      destruct (proj1 (Forall_forall _ _) Hmq agents Hin) as [Hne Hag].
      replace (0 <? length agents) with true
        by (symmetry; apply Nat.ltb_lt; destruct agents; cbn; [done|lia]).
      cbn [assert_that mbind res_bind].
      apply mapM_ext_Ok. intros plane Hp.
      destruct (proj1 (Forall_forall _ _) Hag plane Hp) as [Hl Hw].
      by apply MaxPool2d_plane_modes. }
  cbn [mbind res_bind]. unfold index0_rows.
  apply mapM_fmap_Ok. intros agents _.
  apply mapM_fmap_Ok. intros plane _. reflexivity.
Qed.
End PoolModes.

(** C9.  On motion queries with [num_modes] modes of width [E] per agent,
    the pooled queries have one vector of width [E] per batch element and
    agent, and each of its entries is the maximum of that channel over
    the modes: it is at least the entry of every mode and it is the entry
    of one of them. *)
Theorem pool_modes_is_max_over_modes
    (num_modes E : nat) (mq : list (list (list (list Z)))) :
  0 < num_modes → 0 < E →
  Forall (λ agents : list (list (list Z)),
            agents ≠ [] ∧
            Forall (λ plane : list (list Z),
                      length plane = num_modes ∧
                      Forall (λ r : list Z, length r = E) plane) agents) mq →
  ∃ pooled,
    pool_modes num_modes mq = Ok pooled ∧
    length pooled = length mq ∧
    ∀ b ag (agents : list (list (list Z))) (plane : list (list Z)),
      mq !! b = Some agents → agents !! ag = Some plane →
      ∃ (pb : list (list Z)) (v : list Z),
        pooled !! b = Some pb ∧ length pb = length agents ∧
        pb !! ag = Some v ∧ length v = E ∧
        ∀ c, c < E →
          ∃ z, v !! c = Some z ∧
            (∀ m (row : list Z) x,
               plane !! m = Some row → row !! c = Some x → (x ≤ z)%Z) ∧
            (∃ m (row : list Z),
               m < num_modes ∧ plane !! m = Some row ∧ row !! c = Some z).
Proof.
  intros HK HE Hmq. eexists. split; [by apply (pool_modes_value _ E)|].
  split; [by rewrite length_fmap|].
  intros b ag agents plane Hb Hag.
  destruct (proj1 (Forall_lookup _ _) Hmq b agents Hb) as [_ Hagents].
  destruct (proj1 (Forall_lookup _ _) Hagents ag plane Hag) as [Hl Hw].
  eexists _, _. split; [by rewrite list_lookup_fmap, Hb|].
  split; [by rewrite length_fmap|].
  split; [by rewrite list_lookup_fmap, Hag|].
  split; [by rewrite length_fmap, length_seq|].
  intros c Hc. eexists. split.
  { rewrite list_lookup_fmap, lookup_seq_lt by done. reflexivity. }
  cbn [Nat.add]. split.
  - intros m row x Hrow Hx. apply maximum_ge, elem_of_window.
    exists m, 0, row. rewrite Nat.add_0_r. cbn [Nat.add].
    split; [apply lookup_lt_Some in Hrow; lia|].
    split; [lia|]. by split.
  - assert (Hne : window num_modes 1 plane 0 c ≠ []).
    { destruct (lookup_lt_is_Some_2 plane 0) as [row Hrow]; [lia|].
      destruct (lookup_lt_is_Some_2 row c) as [x Hx].
      { by rewrite (proj1 (Forall_lookup _ _) Hw 0 row Hrow). }
      intros Hnil.
      assert (Hin : x ∈ window num_modes 1 plane 0 c).
      { apply elem_of_window. exists 0, 0, row. rewrite !Nat.add_0_r. split; [lia|]. split; [lia|]. by split. }
      rewrite Hnil in Hin. by apply elem_of_nil in Hin. }
    apply maximum_elem_of, elem_of_window in Hne
      as (di & dj & row & Hdi & Hdj & Hrow & Hz).
    exists di, row. replace dj with 0 in Hz by lia.
    rewrite Nat.add_0_r in Hz. cbn [Nat.add] in Hrow. by repeat split.
Qed.

Lemma pool_modes_is_max_over_modes_witness :
  pool_modes 3 [[[[1%Z; 9%Z]; [5%Z; 2%Z]; [3%Z; 4%Z]];
                   [[0%Z; 0%Z]; [(-1)%Z; 7%Z]; [(-2)%Z; 7%Z]]]]
  = Ok [[[5%Z; 9%Z]; [0%Z; 7%Z]]].
Proof.
  destruct (pool_modes_is_max_over_modes 3 2
              [[[[1%Z; 9%Z]; [5%Z; 2%Z]; [3%Z; 4%Z]];
                [[0%Z; 0%Z]; [(-1)%Z; 7%Z]; [(-2)%Z; 7%Z]]]])
    as (pooled & Hrun & _).
  - lia.
  - lia.
  - repeat constructor; done.
  - rewrite Hrun. vm_compute in Hrun. by injection Hrun as <-.
Defined.

(** * Further properties *)

(** ** TrackFormer.forward: the decoder layers *)

(** The output of a layer that returns, and the empty tensor otherwise. *)
Lemma decoder_layer_outs embed_dim bev_feature_shape
    (layers : nat → layer_modules) (qs : query_set)
    (bev : list (list (list Z))) (num_layers : nat) :
  (∀ i, i < num_layers →
     is_Ok (decoder_layer embed_dim bev_feature_shape (layers i) (queries qs)
              bev (ref_points qs) (detection_queries qs) (padding_mask qs))) →
  ∃ outs : nat → list (list (list Z)), ∀ i, i < num_layers →
    decoder_layer embed_dim bev_feature_shape (layers i) (queries qs) bev
      (ref_points qs) (detection_queries qs) (padding_mask qs) = Ok (outs i).
Proof.
  intros Hok.
  exists (λ i, match decoder_layer embed_dim bev_feature_shape (layers i)
                       (queries qs) bev (ref_points qs)
                       (detection_queries qs) (padding_mask qs) with
               | Ok o => o
               | Err _ => []
               end).
  intros i Hi. by destruct (Hok i Hi) as [o ->].
Qed.

(** X2.  The decoder layers are not chained: every layer is given the
    query set that was built from the inputs, never the output of the
    layer before it.  So, as long as every layer returns, what
    [TrackFormer.forward] returns in inference mode is the same for two
    lists of layers that have the same last layer; and in training mode
    the output it returns is what the last layer returns on the query set
    built from the inputs. *)
Theorem forward_uses_last_layer_only
    (embed_dim num_layers max_detections : nat) (bev_feature_shape : nat * nat)
    (pos_table : nat → list Z) (grid_point : nat * nat → nat → nat → Z * Z)
    (layers layers' : nat → layer_modules)
    (detection_module : list (list (list Z)) → list (list (list Z)))
    (bev : list (list (list Z))) (track_queries : option (list (list (list Z))))
    (track_queries_mask : option (list (list bool))) (qs : query_set) :
  0 < num_layers →
  build_query_set embed_dim max_detections bev_feature_shape pos_table
    grid_point bev track_queries track_queries_mask = Ok qs →
  (∀ i, i < num_layers →
     is_Ok (decoder_layer embed_dim bev_feature_shape (layers i) (queries qs)
              bev (ref_points qs) (detection_queries qs) (padding_mask qs))) →
  (∀ i, i < num_layers →
     is_Ok (decoder_layer embed_dim bev_feature_shape (layers' i) (queries qs)
              bev (ref_points qs) (detection_queries qs) (padding_mask qs))) →
  layers' (num_layers - 1) = layers (num_layers - 1) →
  let forward (training : bool) (ls : nat → layer_modules) :=
    TrackFormer_forward embed_dim num_layers max_detections bev_feature_shape
      training pos_table grid_point ls detection_module bev
      track_queries track_queries_mask [] in
  forward false layers' = forward false layers ∧
  ∀ output layers_detections log,
    forward true layers = (Ok (RetPair output layers_detections), log) →
    decoder_layer embed_dim bev_feature_shape (layers (num_layers - 1))
      (queries qs) bev (ref_points qs) (detection_queries qs)
      (padding_mask qs) = Ok output.
Proof.
  intros Hpos Hqs Hok Hok' Hlast forward.
  destruct (decoder_layer_outs _ _ _ _ _ _ Hok) as [outs Houts].
  destruct (decoder_layer_outs _ _ _ _ _ _ Hok') as [outs' Houts'].
  assert (Hlen : ∀ ls, length (decoder_modules num_layers ls) = num_layers).
  { intros ls. unfold decoder_modules. by rewrite length_fmap, length_seq. }
  pose (m := num_layers - 1).
  assert (HL : num_layers = S m) by (unfold m; lia).
  split.
  - assert (Hsame : outs' (num_layers - 1) = outs (num_layers - 1)).
    { assert (Hi : num_layers - 1 < num_layers) by lia.
      pose proof (Houts' _ Hi) as H1. pose proof (Houts _ Hi) as H2.
      rewrite Hlast, H2 in H1. by injection H1. }
    unfold forward, TrackFormer_forward.
    erewrite !bind_run by (rewrite Hqs; reflexivity). rewrite !Hlen.
    replace (seq 0 num_layers) with (seq 0 (S m)) by (by rewrite HL).
    rewrite (decoder_loop_inference embed_dim num_layers bev_feature_shape
               layers' detection_module qs bev outs' Houts' m 0) by lia.
    rewrite (decoder_loop_inference embed_dim num_layers bev_feature_shape
               layers detection_module qs bev outs Houts m 0) by lia.
    by rewrite Hsame.
  - intros output dets log. unfold forward, TrackFormer_forward.
    erewrite bind_run by (rewrite Hqs; reflexivity). rewrite Hlen.
    rewrite (decoder_loop_training embed_dim num_layers bev_feature_shape
               layers detection_module qs bev outs Houts).
    2:{ apply Forall_forall. intros i [_ Hi]%elem_of_seq. lia. }
    rewrite last_seq by done. cbn [from_option decoder_loop].
    intros Hrun.
    apply bind_inv in Hrun as (stacked & log1 & _ & Hret).
    injection Hret as <- _ _.
    apply Houts. lia.
Qed.

Lemma forward_uses_last_layer_only_witness :
  let layer (k : Z) :=
    LayerModules (λ q k v m, v) (λ x y, x) (λ q r b s m, q) (λ x y, x)
      (λ x, (λ t : list (list Z), (λ r : list Z, Z.add k <$> r) <$> t) <$> x)
      (λ x y, y) in
  let layers (i : nat) := layer (Z.of_nat i) in
  let layers' (i : nat) := if i =? 0 then layer 100%Z else layer (Z.of_nat i) in
  let forward (ls : nat → layer_modules) :=
    TrackFormer_forward 1 2 1 (1, 1) false (λ i, [(Z.of_nat i + 10)%Z])
      (λ _ _ i, (Z.of_nat i, 0%Z)) ls (λ x, x) [[[5%Z]]] None None [] in
  forward layers' = forward layers.
Proof.
  intros layer layers layers' forward.
  refine (proj1 (forward_uses_last_layer_only 1 2 1 (1, 1)
                   (λ i, [(Z.of_nat i + 10)%Z]) (λ _ _ i, (Z.of_nat i, 0%Z))
                   layers layers' (λ x, x) [[[5%Z]]] None None
                   (QuerySet [[[10%Z]]] [[true]] [[[(0%Z, 0%Z)]]] [[[10%Z]]])
                   _ _ _ _ _)).
  - lia.
  - reflexivity.
  - intros [|[|i]] Hi; [by eexists|by eexists|lia].
  - intros [|[|i]] Hi; [by eexists|by eexists|lia].
  - reflexivity.
Defined.

(** ** TrackFormer.forward: the query set *)

Lemma mask_sum_all_false m : Forall (eq false) m → mask_sum m = 0.
Proof.
  induction 1 as [|b m <- _ IH]; [reflexivity|].
  by rewrite mask_sum_cons, IH.
Qed.

Lemma masked_all_false {A} (x : list A) m : Forall (eq false) m → masked x m = [].
Proof.
  intros Hm. revert x.
  induction Hm as [|b m <- _ IH]; intros [|a x]; cbn; auto.
Qed.

Lemma max_list_zero l : Forall (eq 0) l → max_list l = 0.
Proof. induction 1 as [|n l <- _ IH]; [reflexivity|]. cbn. by rewrite IH. Qed.

Lemma zip_with_app_nil_l {A} (a b : list (list A)) :
  Forall (eq []) a → length a = length b → zip_with app a b = b.
Proof.
  intros Ha. revert b.
  induction Ha as [|x a <- _ IH]; intros [|y b] Hlen; try done.
  cbn. f_equal. apply IH. by injection Hlen.
Qed.

Lemma Forall_zip_with_2 {A B C} (P : C → Prop) (Q : B → Prop)
    (f : A → B → C) (a : list A) (b : list B) :
  Forall Q b → (∀ x y, Q y → P (f x y)) → Forall P (zip_with f a b).
Proof.
  intros Hb Hf. revert a.
  induction Hb as [|y b Hy _ IH]; intros [|x a]; cbn; constructor; auto.
Qed.

(** X3.  Track queries none of which is valid are as good as no track
    queries: when every entry of the mask is False, [TrackFormer.forward]
    builds the query set it builds without track queries, and so does
    what it does without them. *)
Theorem forward_all_invalid_tracks_as_none
    (embed_dim num_layers max_detections : nat) (bev_feature_shape : nat * nat)
    (training : bool)
    (pos_table : nat → list Z) (grid_point : nat * nat → nat → nat → Z * Z)
    (layers : nat → layer_modules)
    (detection_module : list (list (list Z)) → list (list (list Z)))
    (batch_size nbev T : nat) (bev tq : list (list (list Z)))
    (tqm : list (list bool)) (log : list forward_call) :
  0 < batch_size →
  has_shape batch_size nbev embed_dim bev →
  length tq = batch_size →
  length tqm = batch_size →
  Forall (λ t : tensor2, length t = T) tq →
  Forall (Forall (λ r : row, length r = embed_dim)) tq →
  Forall (λ m : list bool, length m = T) tqm →
  Forall (Forall (eq false)) tqm →
  build_query_set embed_dim max_detections bev_feature_shape pos_table
    grid_point bev (Some tq) (Some tqm)
  = build_query_set embed_dim max_detections bev_feature_shape pos_table
      grid_point bev None None ∧
  TrackFormer_forward embed_dim num_layers max_detections bev_feature_shape
    training pos_table grid_point layers detection_module bev
    (Some tq) (Some tqm) log
  = TrackFormer_forward embed_dim num_layers max_detections bev_feature_shape
      training pos_table grid_point layers detection_module bev
      None None log.
Proof.
  intros HB Hbev Htq Htqm Hrect Hwidth Hmrect Hfalse.
  assert (Hbuild :
    build_query_set embed_dim max_detections bev_feature_shape pos_table
      grid_point bev (Some tq) (Some tqm)
    = build_query_set embed_dim max_detections bev_feature_shape pos_table
        grid_point bev None None).
  { rewrite (build_query_set_tracks embed_dim max_detections bev_feature_shape
               pos_table grid_point batch_size nbev bev HB Hbev T tq tqm
               Htq Htqm Hrect Hwidth Hmrect).
    rewrite (build_query_set_none embed_dim max_detections bev_feature_shape
               pos_table grid_point batch_size nbev bev HB Hbev).
    assert (Hmax : max_list (mask_sum <$> tqm) = 0).
    { apply max_list_zero, Forall_fmap.
      eapply Forall_impl; [exact Hfalse|].
      intros m Hm. cbn. symmetry. by apply mask_sum_all_false. }
    rewrite Hmax. cbn [Nat.add]. f_equal. f_equal.
    - apply zip_with_app_nil_l.
      + apply (Forall_zip_with_2 _ (Forall (eq false))); [exact Hfalse|].
        intros t m Hm.
        by rewrite masked_all_false, mask_sum_all_false by done.
      + by rewrite length_zip_with, length_replicate, Htq, Htqm, Nat.min_id.
    - apply zip_with_app_nil_l.
      + apply Forall_fmap. eapply Forall_impl; [exact Hfalse|].
        intros m Hm. cbn. by rewrite mask_sum_all_false by done.
      + by rewrite length_fmap, length_replicate. }
  split; [exact Hbuild|].
  unfold TrackFormer_forward. by rewrite Hbuild.
Qed.

Lemma forward_all_invalid_tracks_as_none_witness :
  let forward :=
    TrackFormer_forward 1 2 1 (1, 1) true (λ i, [(Z.of_nat i + 10)%Z])
      (λ _ _ i, (Z.of_nat i, 0%Z))
      (λ _, LayerModules (λ q k v m, v) (λ x y, x) (λ q r b s m, q)
                         (λ x y, x) (λ x, x) (λ x y, y))
      (λ x, x) [[[5%Z]]] in
  forward (Some [[[1%Z]; [2%Z]]]) (Some [[false; false]]) []
  = forward None None [].
Proof.
  intros forward.
  refine (proj2 (forward_all_invalid_tracks_as_none 1 2 1 (1, 1) true _ _ _ _
                   1 1 2 [[[5%Z]]] [[[1%Z]; [2%Z]]] [[false; false]] []
                   _ _ _ _ _ _ _ _)).
  - lia.
  - repeat constructor.
  - reflexivity.
  - reflexivity.
  - repeat constructor.
  - repeat constructor.
  - repeat constructor.
  - repeat constructor.
Defined.

Lemma mask_sum_app m1 m2 : mask_sum (m1 ++ m2) = mask_sum m1 + mask_sum m2.
Proof.
  induction m1 as [|b m1 IH]; [reflexivity|].
  cbn [app]. rewrite !mask_sum_cons, IH. lia.
Qed.

Lemma mask_sum_replicate n b :
  mask_sum (replicate n b) = if b then n else 0.
Proof.
  induction n as [|n IH]; [by destruct b|].
  cbn [replicate]. rewrite mask_sum_cons, IH. by destruct b.
Qed.

(** X4.  The query set is laid out as: the valid track queries of the
    batch element, in order; rows of zeros up to the largest number of
    valid tracks in the batch; the [max_detections] detection queries.
    The padding mask is True on the valid tracks and on the detection
    queries and False on the rows of zeros, so it has as many True
    entries as the element has valid tracks plus [max_detections]; and
    the detection queries handed to the decoder layers are the same block
    for every batch element. *)
Theorem query_set_layout
    (embed_dim max_detections : nat) (bev_feature_shape : nat * nat)
    (pos_table : nat → list Z) (grid_point : nat * nat → nat → nat → Z * Z)
    (batch_size nbev T : nat) (bev tq : list (list (list Z)))
    (tqm : list (list bool)) :
  0 < batch_size →
  has_shape batch_size nbev embed_dim bev →
  length tq = batch_size →
  length tqm = batch_size →
  Forall (λ t : tensor2, length t = T) tq →
  Forall (Forall (λ r : row, length r = embed_dim)) tq →
  Forall (λ m : list bool, length m = T) tqm →
  ∃ qs,
    build_query_set embed_dim max_detections bev_feature_shape pos_table
      grid_point bev (Some tq) (Some tqm) = Ok qs ∧
    ∀ i (t : list (list Z)) (m : list bool),
      tq !! i = Some t → tqm !! i = Some m →
      let pad := max_list (mask_sum <$> tqm) - mask_sum m in
      let mask_i := replicate (mask_sum m) true ++ replicate pad false
                    ++ replicate max_detections true in
      queries qs !! i
        = Some (masked t m ++ replicate pad (replicate embed_dim 0%Z)
                ++ PosEmbedding1D pos_table max_detections) ∧
      padding_mask qs !! i = Some mask_i ∧
      mask_sum mask_i = mask_sum m + max_detections ∧
      detection_queries qs !! i
        = Some (PosEmbedding1D pos_table max_detections).
Proof.
  intros HB Hbev Htq Htqm Hrect Hwidth Hmrect.
  eexists. split.
  { exact (build_query_set_tracks embed_dim max_detections bev_feature_shape
             pos_table grid_point batch_size nbev bev HB Hbev T tq tqm
             Htq Htqm Hrect Hwidth Hmrect). }
  intros i t m Ht Hm pad mask_i. cbn [queries padding_mask detection_queries].
  assert (Hi : i < batch_size) by (apply lookup_lt_Some in Ht; lia).
  split; [|split; [|split]].
  - rewrite lookup_zip_with, lookup_zip_with, Ht. cbn [mbind option_bind].
    rewrite Hm. cbn [mbind option_bind].
    rewrite lookup_replicate_2 by done. cbn [mbind option_bind].
    by rewrite <- app_assoc.
  - rewrite lookup_zip_with, list_lookup_fmap, Hm. cbn [fmap option_fmap option_map mbind option_bind].
    rewrite lookup_replicate_2 by done. cbn [mbind option_bind].
    by rewrite <- app_assoc.
  - unfold mask_i. rewrite !mask_sum_app, !mask_sum_replicate. lia.
  - by rewrite lookup_replicate_2.
Qed.

Lemma query_set_layout_witness :
  ∃ qs,
    build_query_set 1 2 (2, 2) (λ i, [(Z.of_nat i + 10)%Z])
      (λ _ _ i, (Z.of_nat i, 0%Z)) [[[7%Z]]; [[8%Z]]]
      (Some [[[1%Z]; [2%Z]; [3%Z]]; [[4%Z]; [5%Z]; [6%Z]]])
      (Some [[true; false; true]; [false; false; true]]) = Ok qs ∧
    queries qs !! 1 = Some [[6%Z]; [0%Z]; [10%Z]; [11%Z]] ∧
    padding_mask qs !! 1 = Some [true; false; true; true].
Proof.
  destruct (query_set_layout 1 2 (2, 2) (λ i, [(Z.of_nat i + 10)%Z])
              (λ _ _ i, (Z.of_nat i, 0%Z)) 2 1 3 [[[7%Z]]; [[8%Z]]]
              [[[1%Z]; [2%Z]; [3%Z]]; [[4%Z]; [5%Z]; [6%Z]]]
              [[true; false; true]; [false; false; true]])
    as (qs & Hqs & Hlayout).
  - lia.
  - repeat constructor.
  - reflexivity.
  - reflexivity.
  - repeat constructor.
  - repeat constructor.
  - repeat constructor.
  - exists qs. split; [exact Hqs|].
    destruct (Hlayout 1 [[4%Z]; [5%Z]; [6%Z]] [false; false; true]
                eq_refl eq_refl) as (Hq & Hm & _).
    split; [exact Hq|exact Hm].
Defined.

(** ** Gathering and padding, once more *)

Lemma masked_prefix {A} (x y : list A) n :
  masked (x ++ y) (replicate (length x) true ++ replicate n false) = x.
Proof.
  induction x as [|a x IH]; cbn.
  - apply masked_all_false, Forall_replicate_2. reflexivity.
  - by rewrite IH.
Qed.

Lemma Forall_masked {A} (P : A → Prop) (x : list A) m :
  Forall P x → Forall P (masked x m).
Proof.
  intros Hx. revert m.
  induction Hx as [|a x Ha _ IH]; intros [|[] m]; cbn; auto.
Qed.

Lemma zip_with_absorb {A B C} (R : A → B → Prop) (F : C → B → C)
    (G : A → B → C) (H : B → B) (a : list A) (b : list B) :
  Forall2 R a b →
  (∀ x y, R x y → F (G x y) (H y) = G x y) →
  zip_with F (zip_with G a b) (H <$> b) = zip_with G a b.
Proof.
  intros Hab HF. induction Hab as [|x y a b Hxy _ IH]; [reflexivity|].
  cbn. by rewrite HF, IH.
Qed.

Lemma padded_tracks_width embed_dim k (tq : list (list (list Z)))
    (tqm : list (list bool)) :
  Forall (Forall (λ r : list Z, length r = embed_dim)) tq →
  Forall (Forall (λ r : list Z, length r = embed_dim))
    (zip_with (λ (t : list (list Z)) (m : list bool),
                 masked t m
                 ++ replicate (k - mask_sum m) (replicate embed_dim 0%Z))
              tq tqm).
Proof.
  intros Hwidth. revert tqm.
  induction Hwidth as [|t tq Ht _ IH]; intros [|m tqm]; cbn;
    constructor; auto.
  apply Forall_app. split; [by apply Forall_masked|].
  apply Forall_replicate_2, length_replicate.
Qed.

(** X5.  Gathering and padding is idempotent: applied to the track
    queries and the mask it returned, the step returns them unchanged. *)
Theorem pad_tracks_idempotent
    (embed_dim batch_size T : nat) (tq : tensor3) (tqm : list (list bool)) :
  0 < batch_size →
  length tq = batch_size →
  length tqm = batch_size →
  Forall (λ t : tensor2, length t = T) tq →
  Forall (Forall (λ r : row, length r = embed_dim)) tq →
  Forall (λ m : list bool, length m = T) tqm →
  ∃ new_tq new_mask,
    pad_tracks embed_dim batch_size tq tqm = Ok (new_tq, new_mask) ∧
    pad_tracks embed_dim batch_size new_tq new_mask = Ok (new_tq, new_mask).
Proof.
  intros HB Htq Htqm Hrect Hwidth Hmrect.
  eexists _, _. split.
  { exact (pad_tracks_rect embed_dim batch_size T tq tqm
             HB Htq Htqm Hrect Hwidth Hmrect). }
  set (maxv := max_list (mask_sum <$> tqm)).
  set (pad_rows := λ (t : list (list Z)) (m : list bool),
         masked t m ++ replicate (maxv - mask_sum m) (replicate embed_dim 0%Z)).
  set (pad_mask := λ m : list bool,
         replicate (mask_sum m) true ++ replicate (maxv - mask_sum m) false).
  assert (Hsum : ∀ m, mask_sum (pad_mask m) = mask_sum m).
  { intros m. unfold pad_mask.
    rewrite mask_sum_app, !mask_sum_replicate. lia. }
  assert (Hmax : max_list (mask_sum <$> (pad_mask <$> tqm)) = maxv).
  { rewrite <- list_fmap_compose. unfold maxv. f_equal.
    apply list_fmap_ext. intros i m _. apply Hsum. }
  assert (Hpair : Forall2 (λ (t : list (list Z)) (m : list bool),
                             length t = length m) tq tqm).
  { apply Forall2_same_length_lookup_2; [lia|].
    intros i t m Ht Hm.
    rewrite (proj1 (Forall_lookup _ _) Hrect i t Ht).
    by rewrite (proj1 (Forall_lookup _ _) Hmrect i m Hm). }
  rewrite (pad_tracks_rect embed_dim batch_size maxv
             (zip_with pad_rows tq tqm) (pad_mask <$> tqm) HB).
  - rewrite Hmax. fold pad_rows pad_mask. f_equal. f_equal.
    + apply (zip_with_absorb (λ t m, length t = length m)); [exact Hpair|].
      intros t m Hlen. unfold pad_rows. rewrite Hsum. unfold pad_mask.
      pose proof (masked_prefix (masked t m)
                    (replicate (maxv - mask_sum m) (replicate embed_dim 0%Z))
                    (maxv - mask_sum m)) as Hp.
      rewrite (length_masked t m Hlen) in Hp. by rewrite Hp.
    + rewrite <- list_fmap_compose. apply list_fmap_ext.
      intros i m _. cbn. unfold pad_mask at 1. by rewrite Hsum.
  - rewrite length_zip_with. lia.
  - by rewrite length_fmap.
  - exact (padded_tracks_rect embed_dim batch_size HB T tq tqm
             Htq Htqm Hrect Hmrect).
  - exact (padded_tracks_width embed_dim maxv tq tqm Hwidth).
  - exact (padded_mask_rect batch_size HB tq tqm Htq Htqm).
Qed.

Lemma pad_tracks_idempotent_witness :
  pad_tracks 1 2 [[[6%Z]; [0%Z]]; [[1%Z]; [3%Z]]] [[true; false]; [true; true]]
  = Ok ([[[6%Z]; [0%Z]]; [[1%Z]; [3%Z]]], [[true; false]; [true; true]]).
Proof.
  destruct (pad_tracks_idempotent 1 2 3
              [[[4%Z]; [5%Z]; [6%Z]]; [[1%Z]; [2%Z]; [3%Z]]]
              [[false; false; true]; [true; false; true]])
    as (new_tq & new_mask & Hfirst & Hagain).
  - lia.
  - reflexivity.
  - reflexivity.
  - repeat constructor.
  - repeat constructor.
  - repeat constructor.
  - vm_compute in Hfirst. injection Hfirst as <- <-. exact Hagain.
Defined.

(** ** TrackFormer.forward: inputs that are refused *)

Lemma mapM_Err_uniform {A B} (f : A → res B) (l : list A) e :
  (∀ a, a ∈ l → f a = Err e ∨ is_Ok (f a)) →
  (∃ a, a ∈ l ∧ f a = Err e) →
  mapM f l = Err e.
Proof.
  induction l as [|a l IH]; intros Hall (b & Hb & Hfb).
  { by apply elem_of_nil in Hb. }
  cbn [mapM].
  destruct (Hall a) as [Ha|[v Ha]]; [left|by rewrite Ha|].
  rewrite Ha. cbn [mbind res_bind].
  rewrite IH; [reflexivity| |].
  - intros c Hc. apply Hall. by right.
  - apply elem_of_cons in Hb as [->|Hb]; [congruence|by exists b].
Qed.

Lemma pad_one_raises_IndexError embed_dim (tq : list (list (list Z)))
    (tqm : list (list bool)) max_num_tracks i :
  pad_one embed_dim tq tqm max_num_tracks i = Err IndexError ∨
  is_Ok (pad_one embed_dim tq tqm max_num_tracks i).
Proof.
  unfold pad_one, getitem, bool_index.
  destruct (tq !! i) as [t|]; [|by left]. cbn [mbind res_bind].
  destruct (tqm !! i) as [m|]; [|by left]. cbn [mbind res_bind].
  destruct (decide (length t = length m)); [|by left].
  right. by eexists.
Qed.

(** X6.  The batch size is that of [bev_features]: when the track
    queries have fewer batch elements than the BEV features, the loop
    over the batch indexes past their end and the step raises
    [IndexError]. *)
Theorem pad_tracks_short_batch
    (embed_dim batch_size T : nat) (tq : tensor3) (tqm : list (list bool)) :
  0 < length tq →
  length tq < batch_size →
  Forall (λ t : tensor2, length t = T) tq →
  Forall (Forall (λ r : row, length r = embed_dim)) tq →
  tqm ≠ [] →
  Forall (λ m : list bool, length m = T) tqm →
  pad_tracks embed_dim batch_size tq tqm = Err IndexError.
Proof.
  intros Hpos Hshort Hrect Hwidth Hne Hmrect. unfold pad_tracks.
  rewrite last_dim_is_true by done. cbn [assert mbind res_bind].
  rewrite (shape1_rect tq T), (shape1_rect tqm T), Nat.eqb_refl; try done.
  2:{ intros ->. cbn in Hpos. lia. }
  cbn [assert mbind res_bind].
  rewrite tensor_max_nonempty by (by destruct tqm).
  cbn [mbind res_bind].
  rewrite (mapM_Err_uniform _ _ IndexError); [reflexivity| |].
  - intros i _. apply pad_one_raises_IndexError.
  - exists (length tq). split; [apply elem_of_seq; lia|].
    unfold pad_one, getitem. rewrite (lookup_ge_None_2 tq (length tq)) by lia. reflexivity.
Qed.

Lemma pad_tracks_short_batch_witness :
  pad_tracks 1 2 [[[1%Z]; [2%Z]]] [[true; false]] = Err IndexError.
Proof.
  apply (pad_tracks_short_batch 1 2 2 [[[1%Z]; [2%Z]]] [[true; false]]).
  - cbn. lia.
  - cbn. lia.
  - repeat constructor.
  - repeat constructor.
  - discriminate.
  - repeat constructor.
Defined.

Lemma last_dim_is_false n0 n1 n2 (x : list (list (list Z))) n :
  0 < n0 → 0 < n1 → has_shape n0 n1 n2 x → n2 ≠ n → last_dim_is x n = false.
Proof.
  intros Hn0 Hn1 [Hlen Hx] Hne.
  destruct x as [|t x]; [cbn in Hlen; lia|].
  inversion Hx as [|?? [Ht Hrows] _]; subst.
  destruct t as [|r t]; [cbn in Hn1; lia|].
  inversion Hrows as [|?? Hr _]; subst.
  cbn. by rewrite (proj2 (Nat.eqb_neq _ _)).
Qed.

(** X7.  The assertions of [TrackFormer.forward] on the widths of its
    inputs.  With BEV features of at least one batch element and one
    position, and track queries of at least one batch element and one
    track, the call ends in the assertion error, with no decoder layer
    and no detection head called, in each of these cases: the channel
    width of the BEV features is not [embed_dim]; the width of the track
    queries is not [embed_dim], whatever the mask is, and also without a
    mask; a mask is given, has at least one batch element, and its number
    of tracks is not that of the track queries.  The positional embedding
    of the detection queries (line 208) is evaluated before the checks
    of lines 220 and 221; it is not among the calls that are recorded. *)
Theorem forward_rejects_mismatched_widths
    (embed_dim num_layers max_detections : nat) (bev_feature_shape : nat * nat)
    (training : bool)
    (pos_table : nat → list Z) (grid_point : nat * nat → nat → nat → Z * Z)
    (layers : nat → layer_modules)
    (detection_module : list (list (list Z)) → list (list (list Z)))
    (B nbev C B' T C' : nat) (bev tq : list (list (list Z)))
    (tqm : option (list (list bool))) (log : list forward_call) :
  0 < B → 0 < nbev → has_shape B nbev C bev →
  0 < B' → 0 < T → has_shape B' T C' tq →
  C ≠ embed_dim ∨ C' ≠ embed_dim ∨
    (∃ m, tqm = Some m ∧ m ≠ [] ∧ shape1 m ≠ T) →
  TrackFormer_forward embed_dim num_layers max_detections bev_feature_shape
    training pos_table grid_point layers detection_module bev
    (Some tq) tqm log
  = (Err AssertionError, log).
Proof.
  intros HB Hnbev Hbev HB' HT Htq Hbad.
  unfold TrackFormer_forward.
  erewrite bind_run_err; [reflexivity|].
  rewrite lift_run. f_equal. unfold build_query_set.
  destruct (decide (C = embed_dim)) as [->|HC].
  2:{ by rewrite (last_dim_is_false B nbev C bev embed_dim). }
  rewrite (has_shape_last _ _ _ _ Hbev). cbn [assert mbind res_bind].
  destruct (decide (C' = embed_dim)) as [->|HC'].
  2:{ by rewrite (last_dim_is_false B' T C' tq embed_dim). }
  destruct Hbad as [?|[?|(m & -> & Hm & Hne)]]; [done|done|].
  rewrite (has_shape_last _ _ _ _ Htq). cbn [assert mbind res_bind].
  unfold pad_tracks.
  rewrite (has_shape_last _ _ _ _ Htq). cbn [assert mbind res_bind].
  rewrite (has_shape_shape1 _ _ _ _ HB' Htq).
  destruct (Nat.eqb_spec T (shape1 m)) as [Heq|Hne']; [|reflexivity].
  congruence.
Qed.

Lemma forward_rejects_mismatched_widths_witness :
  TrackFormer_forward 1 2 1 (1, 1) true (λ i, [(Z.of_nat i + 10)%Z])
    (λ _ _ i, (Z.of_nat i, 0%Z))
    (λ _, LayerModules (λ q k v m, v) (λ x y, x) (λ q r b s m, q)
                       (λ x y, x) (λ x, x) (λ x y, y))
    (λ x, x) [[[5%Z]]] (Some [[[1%Z]; [2%Z]]]) (Some [[true; false; true]]) []
  = (Err AssertionError, []).
Proof.
  apply (forward_rejects_mismatched_widths 1 2 1 (1, 1) true _ _ _ _
           1 1 1 1 2 1 [[[5%Z]]] [[[1%Z]; [2%Z]]]
           (Some [[true; false; true]]) []).
  - lia.
  - lia.
  - repeat constructor.
  - lia.
  - lia.
  - repeat constructor.
  - right. right. exists [[true; false; true]].
    split; [reflexivity|]. split; [discriminate|]. cbn. lia.
Defined.

(** ** The decoder layer: what it refuses and what it computes *)

Lemma dim1_is_false {A} n0 (x : list (list A)) n1 n :
  0 < n0 → length x = n0 → Forall (λ t, length t = n1) x → n1 ≠ n →
  dim1_is x n = false.
Proof.
  intros Hn0 Hlen Hx Hne.
  destruct x as [|t x]; [cbn in Hlen; lia|].
  inversion Hx as [|?? Ht _]; subst.
  cbn. by rewrite (proj2 (Nat.eqb_neq _ _)).
Qed.

(** X8.  A decoder layer checks the BEV features against its
    configuration before it does anything: when their length is not
    [H_bev * W_bev], or their width or that of the queries is not
    [embed_dim], the layer raises the assertion error, having called no
    submodule and built no tensor. *)
Theorem decoder_layer_rejects_mismatch
    (embed_dim : nat) (bev_feature_shape : nat * nat) (layer : layer_modules)
    (n0 nq C nb nbev Cb : nat) (h0 : list (list (list (list Z))))
    (c0 : list call) (queries bev_features og_det_queries : nat)
    (qv bev og : list (list (list Z)))
    (ref_points : list (list (list (Z * Z)))) (padding_mask : list (list bool)) :
  h0 !! queries = Some qv →
  h0 !! bev_features = Some bev →
  h0 !! og_det_queries = Some og →
  0 < n0 → 0 < nq → has_shape n0 nq C qv →
  0 < nb → 0 < nbev → has_shape nb nbev Cb bev →
  nbev ≠ bev_feature_shape.1 * bev_feature_shape.2
    ∨ Cb ≠ embed_dim ∨ C ≠ embed_dim →
  TrackFormerDecoderLayer_forward embed_dim bev_feature_shape layer
    queries bev_features ref_points og_det_queries padding_mask
    (LayerState h0 c0)
  = (Err AssertionError, LayerState h0 c0).
Proof.
  intros Hq Hb Ho Hn0 Hnq Hsq Hnb Hnbev Hsb Hbad.
  destruct bev_feature_shape as [H_bev W_bev]. cbn [fst snd] in Hbad.
  unfold TrackFormerDecoderLayer_forward.
  rewrite (bind_run _ _ _ qv (LayerState h0 c0)) by (by apply load_run).
  rewrite (bind_run _ _ _ bev (LayerState h0 c0)) by (by apply load_run).
  rewrite (bind_run _ _ _ og (LayerState h0 c0)) by (by apply load_run).
  destruct (decide (nbev = H_bev * W_bev)) as [Heq|Hlen].
  2:{ rewrite (dim1_is_false nb bev nbev (H_bev * W_bev)); try done.
      - by destruct Hsb.
      - by eapply has_shape_dim1. }
  rewrite <- Heq.
  rewrite (dim1_is_true bev nbev) by (by eapply has_shape_dim1).
  erewrite bind_run by reflexivity.
  destruct (decide (Cb = embed_dim)) as [->|HCb].
  2:{ by rewrite (last_dim_is_false nb nbev Cb bev embed_dim). }
  destruct (decide (C = embed_dim)) as [->|HC].
  2:{ rewrite (last_dim_is_false n0 nq C qv embed_dim) by done.
      by rewrite andb_false_r. }
  exfalso. destruct Hbad as [?|[?|?]]; congruence.
Qed.

Lemma decoder_layer_rejects_mismatch_witness :
  let layer := LayerModules (λ q k v m, v) (λ x y, x) (λ q r b s m, q)
                            (λ x y, x) (λ x, x) (λ x y, x) in
  let s := LayerState [[[[1%Z]; [2%Z]]]; [[[5%Z]; [6%Z]]]; [[[10%Z]]]] [] in
  TrackFormerDecoderLayer_forward 1 (1, 1) layer 0 1 [] 2 [[true; true]] s
  = (Err AssertionError, s).
Proof.
  intros layer s.
  apply (decoder_layer_rejects_mismatch 1 (1, 1) layer 1 2 1 1 2 1
           [[[[1%Z]; [2%Z]]]; [[[5%Z]; [6%Z]]]; [[[10%Z]]]] [] 0 1 2
           [[[1%Z]; [2%Z]]] [[[5%Z]; [6%Z]]] [[[10%Z]]] [] [[true; true]]).
  - reflexivity.
  - reflexivity.
  - reflexivity.
  - lia.
  - lia.
  - repeat constructor.
  - lia.
  - lia.
  - repeat constructor.
  - left. cbn. lia.
Defined.

(** X9.  What a decoder layer computes, as a composition of its
    submodules.  Self-attention has the queries with the detection
    queries added as query and key, and the queries as they came as
    value; the first residual block is on the queries as they came.
    Deformable attention has the output of that block with the detection
    queries added again as query, and its residual block is on the
    output without them.  The feed-forward block and its residual come
    last. *)
Theorem decoder_layer_composition
    (embed_dim : nat) (bev_feature_shape : nat * nat) (layer : layer_modules)
    (n0 nb n n1 : nat) (qv bev og : list (list (list Z)))
    (ref_points : list (list (list (Z * Z)))) (padding_mask : list (list bool)) :
  0 < n0 →
  has_shape n0 (n + n1) embed_dim qv →
  has_shape n0 n1 embed_dim og →
  has_shape nb (bev_feature_shape.1 * bev_feature_shape.2) embed_dim bev →
  (∀ y, keeps_shape (λ x, addnorm1 layer x y)) →
  decoder_layer embed_dim bev_feature_shape layer qv bev ref_points og
    padding_mask
  = Ok (let qk := with_det_queries n qv og in
        let out1 := self_attention layer qk qk qv padding_mask in
        let out2 := addnorm1 layer qv out1 in
        let aug_out2 := with_det_queries n out2 og in
        let out3 :=
          deform_attention layer aug_out2 ref_points bev bev_feature_shape
            ((λ m : list bool, (λ b : bool, [b]) <$> m) <$> padding_mask) in
        let out4 := addnorm2 layer out2 out3 in
        let out5 := mlp layer out4 in
        addnorm3 layer out4 out5).
Proof.
  intros Hpos Hsq Hsog Hsbev Hkeep. unfold decoder_layer.
  destruct (layer_forward_run embed_dim bev_feature_shape layer n0 nb n n1
              [qv; bev; og] [] 0 1 2 qv bev og ref_points padding_mask)
    as (extra1 & extra2 & Hex1 & Hex2 & Hrun); try done.
  cbv zeta in Hrun. rewrite Hrun. cbn [heap]. unfold getitem. cbv zeta.
  set (qk := with_det_queries n qv og).
  set (o1 := self_attention layer qk qk qv padding_mask).
  set (o2 := addnorm1 layer qv o1).
  set (a2 := with_det_queries n o2 og).
  lazymatch goal with
  | |- context [?h !! ?i] =>
      replace i
        with (length [qv; bev; og]
              + (length (extra1 ++ [qk])
                 + (length [o1; o2] + (length (extra2 ++ [a2]) + 3))))
        by (rewrite !length_app; cbn; lia)
  end.
  rewrite !lookup_app_add. cbn. reflexivity.
Qed.

Lemma decoder_layer_composition_witness :
  let layer :=
    LayerModules (λ q k v m, q) (λ x y, x) (λ q r b s m, q) (λ x y, y)
                 (λ x, x) (λ x y, y) in
  decoder_layer 1 (1, 1) layer [[[1%Z]; [2%Z]]] [[[5%Z]]] [] [[[10%Z]]]
    [[true; true]]
  = Ok [[[1%Z]; [12%Z]]].
Proof.
  intros layer.
  apply (decoder_layer_composition 1 (1, 1) layer 1 1 1 1
           [[[1%Z]; [2%Z]]] [[[5%Z]]] [[[10%Z]]] [] [[true; true]]).
  - lia.
  - repeat constructor.
  - repeat constructor.
  - repeat constructor.
  - intros y n0 n1 n2 x Hx.
    exact Hx.
Defined.

Lemma tadd3_mismatch n0 nq nd n2 n2' (x y : list (list (list Z))) :
  0 < n0 → has_shape n0 nq n2 x → has_shape n0 nd n2' y →
  nq ≠ nd → nq ≠ 1 → nd ≠ 1 →
  tadd3 x y = Err RuntimeError.
Proof.
  intros Hn0 [Hlx Hx] [Hly Hy] Hne Hq Hd.
  destruct x as [|t x]; [cbn in Hlx; lia|].
  destruct y as [|u y]; [cbn in Hly; lia|].
  inversion Hx as [|?? [Ht _] _]; subst.
  inversion Hy as [|?? [Hu _] _]; subst.
  unfold tadd3, bcast at 1.
  rewrite decide_True by (cbn in *; lia).
  cbn [zip zip_with mapM fst snd].
  replace (tadd2 t u) with (@Err (list (list Z)) RuntimeError); [reflexivity|].
  unfold tadd2, bcast. rewrite decide_False by done.
  destruct t as [|a [|b t]]; destruct u as [|c [|d u]]; cbn in *; congruence.
Qed.

(** X10.  The number of track queries of a layer is the number of queries
    minus the number of detection queries.  When there are more detection
    queries than queries the layer takes the branch without track queries
    and adds the two tensors whole; their sizes do not match, and the
    layer raises before it calls a submodule. *)
Theorem decoder_layer_rejects_surplus_detection_queries
    (embed_dim : nat) (bev_feature_shape : nat * nat) (layer : layer_modules)
    (n0 nq nd nb : nat) (h0 : list (list (list (list Z))))
    (c0 : list call) (queries bev_features og_det_queries : nat)
    (qv bev og : list (list (list Z)))
    (ref_points : list (list (list (Z * Z)))) (padding_mask : list (list bool)) :
  h0 !! queries = Some qv →
  h0 !! bev_features = Some bev →
  h0 !! og_det_queries = Some og →
  0 < n0 →
  has_shape n0 nq embed_dim qv →
  has_shape n0 nd embed_dim og →
  has_shape nb (bev_feature_shape.1 * bev_feature_shape.2) embed_dim bev →
  nq < nd → nq ≠ 1 → nd ≠ 1 →
  TrackFormerDecoderLayer_forward embed_dim bev_feature_shape layer
    queries bev_features ref_points og_det_queries padding_mask
    (LayerState h0 c0)
  = (Err RuntimeError, LayerState h0 c0).
Proof.
  intros Hq Hb Ho Hn0 Hsq Hso Hsb Hlt Hq1 Hd1.
  destruct bev_feature_shape as [H_bev W_bev]. cbn [fst snd] in Hsb.
  unfold TrackFormerDecoderLayer_forward.
  rewrite (bind_run _ _ _ qv (LayerState h0 c0)) by (by apply load_run).
  rewrite (bind_run _ _ _ bev (LayerState h0 c0)) by (by apply load_run).
  rewrite (bind_run _ _ _ og (LayerState h0 c0)) by (by apply load_run).
  rewrite (dim1_is_true bev (H_bev * W_bev)) by (by eapply has_shape_dim1).
  rewrite (has_shape_last _ _ _ _ Hsb), (has_shape_last _ _ _ _ Hsq).
  rewrite (has_shape_shape1 n0 nq embed_dim qv) by done.
  rewrite (has_shape_shape1 n0 nd embed_dim og) by done.
  erewrite bind_run by reflexivity.
  erewrite bind_run by reflexivity.
  erewrite bind_run_err; [reflexivity|].
  unfold add_det_queries.
  rewrite (bind_run _ _ _ qv (LayerState h0 c0)) by (by apply load_run).
  rewrite (bind_run _ _ _ og (LayerState h0 c0)) by (by apply load_run).
  replace (0 <? Z.of_nat nq - Z.of_nat nd)%Z with false
    by (symmetry; apply Z.ltb_ge; lia).
  erewrite bind_run_err; [reflexivity|].
  rewrite lift_run. f_equal.
  apply (tadd3_mismatch n0 nq nd embed_dim embed_dim); try done. lia.
Qed.

Lemma decoder_layer_rejects_surplus_detection_queries_witness :
  let layer := LayerModules (λ q k v m, v) (λ x y, x) (λ q r b s m, q)
                            (λ x y, x) (λ x, x) (λ x y, x) in
  let s := LayerState [[[[1%Z]; [2%Z]]]; [[[5%Z]]];
                       [[[10%Z]; [11%Z]; [12%Z]]]] [] in
  TrackFormerDecoderLayer_forward 1 (1, 1) layer 0 1 [] 2 [[true; true]] s
  = (Err RuntimeError, s).
Proof.
  intros layer s.
  apply (decoder_layer_rejects_surplus_detection_queries 1 (1, 1) layer
           1 2 3 1
           [[[[1%Z]; [2%Z]]]; [[[5%Z]]]; [[[10%Z]; [11%Z]; [12%Z]]]] [] 0 1 2
           [[[1%Z]; [2%Z]]] [[[5%Z]]] [[[10%Z]; [11%Z]; [12%Z]]] []
           [[true; true]]).
  - reflexivity.
  - reflexivity.
  - reflexivity.
  - lia.
  - repeat constructor.
  - repeat constructor.
  - repeat constructor.
  - lia.
  - lia.
  - lia.
Defined.

(** ** Constructing a TrackFormer *)

Lemma getattr_run name self v :
  self !! name = Some v → getattr name self = (Ok v, self).
Proof. intros H. unfold getattr. by rewrite H. Qed.

Lemma mapM_const {A B} (r : res B) (b : B) (l : list A) :
  r = Ok b → mapM (λ _, r) l = Ok (replicate (length l) b).
Proof.
  intros ->. induction l as [|a l IH]; [reflexivity|].
  cbn [mapM mbind res_bind]. by rewrite IH.
Qed.

Section InitRun.
Variable construct : string → list (string * pyval) → res pyval.
Hypothesis construct_ok : ∀ class kwargs, is_Ok (construct class kwargs).

Lemma TrackFormerDecoderLayer_new_Ok kwargs :
  TrackFormerDecoderLayer_new construct kwargs
  = Ok (PyModule "TrackFormerDecoderLayer" kwargs).
Proof.
  unfold TrackFormerDecoderLayer_new.
  destruct (construct_ok "MultiHeadedAttention" kwargs) as [? ->].
  destruct (construct_ok "AddNorm" kwargs) as [? ->].
  destruct (construct_ok "DeformableAttention" kwargs) as [? ->].
  destruct (construct_ok "Sequential" kwargs) as [? ->].
  reflexivity.
Qed.

Lemma TrackFormer_init_run (a : TrackFormer_args) (n : Z) :
  arg_num_layers a = PyInt n →
  ∃ self,
    TrackFormer___init__ construct a ∅ = (Ok tt, self) ∧
    self !! "num_layers" = Some (PyInt n) ∧
    self !! "embed_dim" = Some (arg_embed_dim a) ∧
    self !! "det_3d" = Some (arg_det_3d a) ∧
    self !! "num_obj_classes" = None ∧
    self !! "decoder_modules"
      = Some (PyModuleList
                (replicate (Z.to_nat n)
                   (PyModule "TrackFormerDecoderLayer"
                      [("num_heads", arg_num_heads a);
                       ("embed_dim", arg_embed_dim a);
                       ("num_ref_points", arg_num_ref_points a);
                       ("dim_feedforward", arg_dim_feedforward a);
                       ("dropout", arg_dropout a);
                       ("offset_scale", arg_offset_scale a);
                       ("bev_feature_shape", arg_bev_feature_shape a)]))).
Proof.
  intros Hn. unfold TrackFormer___init__. rewrite Hn.
  do 14 (erewrite bind_run by apply setattr_run).
  erewrite bind_run by (apply getattr_run; by simplify_map_eq).
  erewrite bind_run by (apply getattr_run; by simplify_map_eq).
  destruct (construct_ok "PosEmbedding1D"
              [("", arg_max_detections a); ("embed_dim", arg_embed_dim a);
               ("learnable", arg_learnable_pe a)]) as [pe Hpe].
  erewrite bind_run by (rewrite Hpe; reflexivity).
  erewrite bind_run by apply setattr_run.
  erewrite bind_run.
  2:{ unfold _create_decoder_layers.
      do 8 (erewrite bind_run by (apply getattr_run; by simplify_map_eq)).
      erewrite bind_run by reflexivity.
      erewrite bind_run.
      2:{ erewrite mapM_const by apply TrackFormerDecoderLayer_new_Ok.
          reflexivity. }
      reflexivity. }
  erewrite bind_run by apply setattr_run.
  do 3 (erewrite bind_run by (apply getattr_run; by simplify_map_eq)).
  destruct (construct_ok "DetectionHead"
              [("embed_dim", arg_embed_dim a);
               ("num_classes", arg_num_classes a);
               ("det_3d", arg_det_3d a); ("num_seg_coefs", PyNone)])
    as [head Hhead].
  rewrite Hhead.
  erewrite bind_run by reflexivity.
  eexists. split; [apply setattr_run|].
  rewrite length_seq.
  repeat split; by simplify_map_eq.
Qed.
End InitRun.

(** X11.  When the constructors of the submodules return and
    [num_layers] is an integer, [TrackFormer.__init__] returns, and
    [decoder_modules] holds [num_layers] decoder layers (none when
    [num_layers] is negative), each built with the seven settings the
    [TrackFormer] was given. *)
Theorem TrackFormer_init_builds_layers
    (construct : string → list (string * pyval) → res pyval)
    (a : TrackFormer_args) (n : Z) :
  (∀ class kwargs, is_Ok (construct class kwargs)) →
  arg_num_layers a = PyInt n →
  ∃ self layer,
    TrackFormer___init__ construct a ∅ = (Ok tt, self) ∧
    layer = PyModule "TrackFormerDecoderLayer"
              [("num_heads", arg_num_heads a);
               ("embed_dim", arg_embed_dim a);
               ("num_ref_points", arg_num_ref_points a);
               ("dim_feedforward", arg_dim_feedforward a);
               ("dropout", arg_dropout a);
               ("offset_scale", arg_offset_scale a);
               ("bev_feature_shape", arg_bev_feature_shape a)] ∧
    self !! "decoder_modules"
      = Some (PyModuleList (replicate (Z.to_nat n) layer)).
Proof.
  intros Hok Hn.
  destruct (TrackFormer_init_run construct Hok a n Hn)
    as (self & Hrun & _ & _ & _ & _ & Hlayers).
  by eexists self, _.
Qed.

Lemma TrackFormer_init_builds_layers_witness :
  ∃ self layer,
    TrackFormer___init__ (λ class kwargs, Ok (PyModule class kwargs))
      {| arg_num_heads := PyInt 8; arg_embed_dim := PyInt 256;
         arg_num_layers := PyInt 6; arg_num_classes := PyInt 10;
         arg_num_ref_points := PyInt 4; arg_dim_feedforward := PyInt 512;
         arg_dropout := PyFloat 1 (-3); arg_offset_scale := PyFloat 1 0;
         arg_max_detections := PyInt 900; arg_learnable_pe := PyBool true;
         arg_bev_feature_shape := PyTuple [PyInt 200; PyInt 200];
         arg_track_threshold := PyFloat 1 (-1); arg_det_3d := PyBool true |}
      ∅ = (Ok tt, self) ∧
    layer = PyModule "TrackFormerDecoderLayer"
              [("num_heads", PyInt 8); ("embed_dim", PyInt 256);
               ("num_ref_points", PyInt 4); ("dim_feedforward", PyInt 512);
               ("dropout", PyFloat 1 (-3)); ("offset_scale", PyFloat 1 0);
               ("bev_feature_shape", PyTuple [PyInt 200; PyInt 200])] ∧
    self !! "decoder_modules" = Some (PyModuleList (replicate 6 layer)).
Proof.
  refine (TrackFormer_init_builds_layers
            (λ class kwargs, Ok (PyModule class kwargs))
            {| arg_num_heads := PyInt 8; arg_embed_dim := PyInt 256;
               arg_num_layers := PyInt 6; arg_num_classes := PyInt 10;
               arg_num_ref_points := PyInt 4; arg_dim_feedforward := PyInt 512;
               arg_dropout := PyFloat 1 (-3); arg_offset_scale := PyFloat 1 0;
               arg_max_detections := PyInt 900; arg_learnable_pe := PyBool true;
               arg_bev_feature_shape := PyTuple [PyInt 200; PyInt 200];
               arg_track_threshold := PyFloat 1 (-1);
               arg_det_3d := PyBool true |} 6 _ _).
  - intros class kwargs. by eexists.
  - reflexivity.
Defined.

(** ** Constructing a MapFormer, once more *)

Lemma getattr_run_err name self :
  self !! name = None → getattr name self = (Err (AttributeError name), self).
Proof. intros H. unfold getattr. by rewrite H. Qed.

(** X12.  Which exception [MapFormer(...)] raises when the constructors
    of the submodules return: the check of [num_seg_coeffs] comes after
    the parent's [__init__] and before the read of the attribute that
    was never assigned, so a [num_seg_coeffs] that is not positive ends
    in the assertion error and a positive one in the attribute error. *)
Theorem MapFormer_new_exception
    (construct : string → list (string * pyval) → res pyval)
    (a : TrackFormer_args) (n k : Z) (seg_c_h : pyval) :
  (∀ class kwargs, is_Ok (construct class kwargs)) →
  arg_num_layers a = PyInt n →
  MapFormer_new construct a (PyInt k) seg_c_h
  = Err (if (0 <? k)%Z then AttributeError "num_obj_classes"
         else AssertionError).
Proof.
  intros Hok Hn.
  destruct (TrackFormer_init_run construct Hok a n Hn)
    as (self & Hrun & _ & Hembed & _ & Habsent & _).
  unfold MapFormer_new, MapFormer___init__.
  erewrite bind_run by exact Hrun.
  erewrite bind_run by reflexivity.
  destruct (0 <? k)%Z.
  - erewrite bind_run by reflexivity.
    do 2 (erewrite bind_run by apply setattr_run).
    erewrite bind_run
      by (apply getattr_run; rewrite !lookup_insert_ne by discriminate;
          exact Hembed).
    erewrite bind_run.
    2:{ unfold ProtoSegModule_new.
        destruct (Hok "ConvBNorm"
                    [("", arg_embed_dim a); ("", seg_c_h);
                     ("kernel_size", PyInt 3)]) as [? ->].
        destruct (Hok "ConvBNorm"
                    [("", seg_c_h); ("", seg_c_h); ("kernel_size", PyInt 3)])
          as [? ->].
        destruct (Hok "ConvBNorm"
                    [("", seg_c_h); ("", PyInt k); ("kernel_size", PyInt 1)])
          as [? ->].
        reflexivity. }
    erewrite bind_run by apply setattr_run.
    erewrite bind_run
      by (apply getattr_run; rewrite !lookup_insert_ne by discriminate;
          exact Hembed).
    erewrite bind_run_err; [reflexivity|].
    apply getattr_run_err. by rewrite !lookup_insert_ne by discriminate.
  - erewrite bind_run_err; reflexivity.
Qed.

Lemma MapFormer_new_exception_witness :
  MapFormer_new (λ class kwargs, Ok (PyModule class kwargs))
    {| arg_num_heads := PyInt 8; arg_embed_dim := PyInt 256;
       arg_num_layers := PyInt 6; arg_num_classes := PyInt 10;
       arg_num_ref_points := PyInt 4; arg_dim_feedforward := PyInt 512;
       arg_dropout := PyFloat 1 (-3); arg_offset_scale := PyFloat 1 0;
       arg_max_detections := PyInt 900; arg_learnable_pe := PyBool true;
       arg_bev_feature_shape := PyTuple [PyInt 200; PyInt 200];
       arg_track_threshold := PyFloat 1 (-1); arg_det_3d := PyBool true |}
    (PyInt 0) (PyInt 256)
  = Err AssertionError.
Proof.
  apply (MapFormer_new_exception
           (λ class kwargs, Ok (PyModule class kwargs)) _ 6 0 (PyInt 256)).
  - intros class kwargs. by eexists.
  - reflexivity.
Defined.

(** ** MapFormer.forward, once more *)

(** X13.  Where [MapFormer.forward] raises.  On inputs on which the
    parent's [forward] returns, the whole of it runs first, every decoder
    layer and the detection head; the unpacking of what it returned then
    raises [ValueError]: always in training mode, where the parent
    returned a pair, and in inference mode whenever the detections do not
    have exactly four batch elements. *)
Theorem MapFormer_forward_raises_at_unpacking
    (embed_dim num_layers max_detections : nat) (bev_feature_shape : nat * nat)
    (pos_table : nat → list Z) (grid_point : nat * nat → nat → nat → Z * Z)
    (layers : nat → layer_modules)
    (detection_module : list (list (list Z)) → list (list (list Z)))
    (num_seg_coeffs : nat)
    (proto_seg_module :
       list (list (list (list Z))) → list (list (list (list Z))))
    (bev : list (list (list Z))) (track_queries : option (list (list (list Z))))
    (track_queries_mask : option (list (list bool)))
    (qs : query_set) (outs : nat → list (list (list Z))) :
  0 < num_layers →
  build_query_set embed_dim max_detections bev_feature_shape pos_table
    grid_point bev track_queries track_queries_mask = Ok qs →
  (∀ i, i < num_layers →
     decoder_layer embed_dim bev_feature_shape (layers i) (queries qs) bev
       (ref_points qs) (detection_queries qs) (padding_mask qs)
     = Ok (outs i)) →
  (∀ i, i < num_layers →
     length (detection_module (outs i)) = length (detection_module (outs 0))) →
  let forward (training : bool) :=
    MapFormer_forward embed_dim num_layers max_detections bev_feature_shape
      training pos_table grid_point layers detection_module num_seg_coeffs
      proto_seg_module bev track_queries track_queries_mask [] in
  forward true
  = (Err ValueError,
     flat_map (λ i, [DecoderLayer i; DetectionModule i]) (seq 0 num_layers)) ∧
  (length (detection_module (outs (num_layers - 1))) ≠ 4 →
   forward false
   = (Err ValueError,
      (DecoderLayer <$> seq 0 num_layers)
      ++ [DetectionModule (num_layers - 1)])).
Proof.
  intros Hpos Hqs Hlayers Hsize forward.
  assert (Hlen : length (decoder_modules num_layers layers) = num_layers).
  { unfold decoder_modules. by rewrite length_fmap, length_seq. }
  pose (m := num_layers - 1).
  assert (HL : num_layers = S m) by (unfold m; lia).
  split.
  - unfold forward.
    eapply MapFormer_forward_unpacks_pair.
    unfold TrackFormer_forward.
    erewrite bind_run by (rewrite Hqs; reflexivity). rewrite Hlen.
    rewrite (decoder_loop_training embed_dim num_layers bev_feature_shape
               layers detection_module qs bev outs Hlayers).
    2:{ apply Forall_forall. intros i [_ Hi]%elem_of_seq. lia. }
    cbn [app decoder_loop].
    rewrite last_seq by done. cbn [from_option].
    erewrite bind_run; [reflexivity|].
    rewrite lift_run. f_equal.
    apply (stack_rect _ (length (detection_module (outs 0)))).
    + rewrite HL; done.
    + apply Forall_fmap, Forall_forall. intros i [_ Hi]%elem_of_seq.
      cbn. apply Hsize. lia.
  - intros Hbatch. unfold forward, MapFormer_forward, TrackFormer_forward.
    erewrite bind_run.
    2:{ erewrite bind_run by (rewrite Hqs; reflexivity). rewrite Hlen.
        replace (seq 0 num_layers) with (seq 0 (S m)) by (by rewrite HL).
        by rewrite (decoder_loop_inference embed_dim num_layers
                      bev_feature_shape layers detection_module qs bev outs
                      Hlayers m 0) by lia. }
    erewrite bind_run_err.
    2:{ rewrite lift_run. cbn [of_ret unpack of_tensor3 shape].
        rewrite decide_False by done. reflexivity. }
    rewrite HL. reflexivity.
Qed.

Lemma MapFormer_forward_raises_at_unpacking_witness :
  let layers (i : nat) :=
    LayerModules (λ q k v m, v) (λ x y, x) (λ q r b s m, q) (λ x y, x)
                 (λ x, x) (λ x y, y) in
  MapFormer_forward 1 2 1 (1, 1) true (λ i, [(Z.of_nat i + 10)%Z])
    (λ _ _ i, (Z.of_nat i, 0%Z)) layers (λ x, x) 1 (λ x, x)
    [[[5%Z]]] None None []
  = (Err ValueError,
     [DecoderLayer 0; DetectionModule 0; DecoderLayer 1; DetectionModule 1]).
Proof.
  intros layers.
  refine (proj1 (MapFormer_forward_raises_at_unpacking 1 2 1 (1, 1)
                   (λ i, [(Z.of_nat i + 10)%Z]) (λ _ _ i, (Z.of_nat i, 0%Z))
                   layers (λ x, x) 1 (λ x, x) [[[5%Z]]] None None
                   (QuerySet [[[10%Z]]] [[true]] [[[(0%Z, 0%Z)]]] [[[10%Z]]])
                   (λ _, [[[10%Z]]]) _ _ _ _)).
  - lia.
  - reflexivity.
  - intros [|[|i]] Hi; [reflexivity|reflexivity|lia].
  - intros i Hi. reflexivity.
Defined.

(** ** OccFormerDecoderLayer.forward: the calls it makes *)

Section OccLayerTrace.
Variables (embed_dim op_attn_scale N A hq wq : nat).
Hypothesis E_pos : 0 < embed_dim.
Hypothesis a_pos : 0 < op_attn_scale.
Hypothesis a_pow2 : ∃ k, op_attn_scale = 2 ^ k.
Hypothesis hq_pos : 0 < hq.
Hypothesis wq_pos : 0 < wq.
Hypothesis h_small : (Z.of_nat (hq * op_attn_scale) < 2 ^ 53)%Z.
Hypothesis w_small : (Z.of_nat (wq * op_attn_scale) < 2 ^ 53)%Z.

Let dense := [N; embed_dim; hq * op_attn_scale; wq * op_attn_scale].

(** Up to the product of the dense features with the mask features. *)
Lemma OccFormerDecoderLayer_forward_prefix {B}
    (k : list nat → list nat → M (list string) B) log :
  (ds ← called "downsampler" (Upsample (Over op_attn_scale) dense);
   ds ← lift (permute [0; 2; 3; 1] ds);
   ds ← lift (reshape_shape [Some N; Some (hq * wq); Some embed_dim] ds);
   out1 ← called "self_attention" (Ok ds);
   out2 ← called "addnorm1" (Ok ds);
   mask ← lift (permute [0; 2; 1] [N; A; embed_dim] ≫= matmul out2);
   k out2 mask) log
  = k [N; hq * wq; embed_dim] [N; hq * wq; A]
      (log ++ ["downsampler"; "self_attention"; "addnorm1"]).
Proof.
  unfold dense.
  erewrite bind_run
    by (rewrite Upsample_down by done; apply called_run).
  erewrite bind_run by reflexivity.
  erewrite bind_run.
  2:{ change [Some N; Some (hq * wq); Some embed_dim]
        with (Some <$> [N; hq * wq; embed_dim]).
      rewrite reshape_shape_known by (cbn; lia). reflexivity. }
  erewrite bind_run by apply called_run.
  erewrite bind_run by apply called_run.
  erewrite bind_run.
  2:{ change (permute [0; 2; 1] [N; A; embed_dim])
        with (Ok [N; embed_dim; A]).
      change (Ok [N; embed_dim; A] ≫= matmul [N; hq * wq; embed_dim])
        with (matmul [N; hq * wq; embed_dim] [N; embed_dim; A]).
      rewrite matmul_same. reflexivity. }
  by rewrite <- !app_assoc.
Qed.

Lemma OccFormerDecoderLayer_forward_unfold return_attn_mask pad_mask :
  OccFormerDecoderLayer_forward embed_dim
    (hq * op_attn_scale, wq * op_attn_scale) op_attn_scale
    dense [N; A; embed_dim] [N; A; embed_dim] return_attn_mask pad_mask
  = (ds ← called "downsampler" (Upsample (Over op_attn_scale) dense);
     ds ← lift (permute [0; 2; 3; 1] ds);
     ds ← lift (reshape_shape [Some N; Some (hq * wq); Some embed_dim] ds);
     out1 ← called "self_attention" (Ok ds);
     out2 ← called "addnorm1" (Ok ds);
     mask ← lift (permute [0; 2; 1] [N; A; embed_dim] ≫= matmul out2);
     mask ←
       match pad_mask with
       | Some (pad_shape, is_bool) =>
           _ ← lift (assert ((length pad_shape =? 2) && is_bool));
           pad ← lift (match pad_shape with
                       | [n; a] => Ok [n; 1; a]
                       | _ => Err IndexError
                       end);
           lift (bshape mask pad)
       | None => mret mask
       end;
     out3 ← called "cross_attention" (Ok out2);
     out4 ← called "addnorm2" (Ok out2);
     out4 ← lift (permute [0; 2; 1] out4);
     out4 ← lift (reshape_shape
                    [Some N; Some embed_dim; Some hq; Some wq] out4);
     up ← called "upsampler" (Upsample (Times op_attn_scale) out4);
     out5 ← lift (bshape up dense);
     if return_attn_mask then
       mask ← lift (permute [0; 2; 1] mask);
       mask ← lift (reshape_shape [Some N; None; Some hq; Some wq] mask);
       mret (out5, Some mask)
     else mret (out5, None)).
Proof.
  unfold OccFormerDecoderLayer_forward, dense. cbn [fst snd getitem lookup].
  rewrite !Nat.div_mul by lia. reflexivity.
Qed.

Lemma OccFormerDecoderLayer_forward_trace return_attn_mask pad_mask log :
  pad_mask = None ∨ pad_mask = Some ([N; A], true) →
  (return_attn_mask = true → 0 < N) →
  OccFormerDecoderLayer_forward embed_dim
    (hq * op_attn_scale, wq * op_attn_scale) op_attn_scale
    dense [N; A; embed_dim] [N; A; embed_dim] return_attn_mask pad_mask log
  = (Ok (dense, if return_attn_mask then Some [N; A; hq; wq] else None),
     log ++ ["downsampler"; "self_attention"; "addnorm1";
             "cross_attention"; "addnorm2"; "upsampler"]).
Proof.
  intros pad_ok N_pos.
  rewrite OccFormerDecoderLayer_forward_unfold.
  rewrite OccFormerDecoderLayer_forward_prefix.
  erewrite (bind_run _ _ _ [N; hq * wq; A]).
  2:{ destruct pad_ok as [->| ->]; [reflexivity|].
      erewrite bind_run by reflexivity.
      erewrite bind_run by reflexivity.
      rewrite bshape_pad. reflexivity. }
  erewrite bind_run by apply called_run.
  erewrite bind_run by apply called_run.
  erewrite bind_run by reflexivity.
  erewrite bind_run.
  2:{ change [Some N; Some embed_dim; Some hq; Some wq]
        with (Some <$> [N; embed_dim; hq; wq]).
      rewrite reshape_shape_known by (cbn; lia). reflexivity. }
  erewrite bind_run
    by (rewrite Upsample_up by done; apply called_run).
  erewrite bind_run by (unfold dense; rewrite bshape_same; reflexivity).
  rewrite <- !app_assoc. cbn [app].
  destruct return_attn_mask; [|reflexivity].
  erewrite bind_run by reflexivity.
  erewrite bind_run.
  2:{ rewrite (reshape_shape_infer _ _ A); [reflexivity|reflexivity| |].
      - cbn. specialize (N_pos eq_refl). nia.
      - cbn. lia. }
  reflexivity.
Qed.
End OccLayerTrace.

(** X14.  What a layer of the OccFormer returns and which submodules it
    calls.  Let [op_attn_scale] be a power of two and the sides of the
    grid of the dense features multiples of it, below [2^53]: the sizes
    that the downsampler computes in double precision are then the exact
    quotients.  The layer calls the downsampler, self-attention and its
    residual block, cross-attention and its residual block and the
    upsampler, in this order and once each; the dense features it returns
    have the shape of those it was given, and the attention mask, when
    asked for, has one map of the downsampled grid per agent. *)
Theorem OccFormerDecoderLayer_forward_shapes
    (embed_dim op_attn_scale N A hq wq : nat) (return_attn_mask : bool)
    (pad_mask : option (list nat * bool)) (log : list string) :
  0 < embed_dim → (∃ k, op_attn_scale = 2 ^ k) → 0 < hq → 0 < wq →
  (Z.of_nat (hq * op_attn_scale) < 2 ^ 53)%Z →
  (Z.of_nat (wq * op_attn_scale) < 2 ^ 53)%Z →
  pad_mask = None ∨ pad_mask = Some ([N; A], true) →
  (return_attn_mask = true → 0 < N) →
  OccFormerDecoderLayer_forward embed_dim
    (hq * op_attn_scale, wq * op_attn_scale) op_attn_scale
    [N; embed_dim; hq * op_attn_scale; wq * op_attn_scale]
    [N; A; embed_dim] [N; A; embed_dim] return_attn_mask pad_mask log
  = (Ok ([N; embed_dim; hq * op_attn_scale; wq * op_attn_scale],
         if return_attn_mask then Some [N; A; hq; wq] else None),
     log ++ ["downsampler"; "self_attention"; "addnorm1";
             "cross_attention"; "addnorm2"; "upsampler"]).
Proof.
  intros HE Hpow Hhq Hwq Hh Hw Hpad HN.
  pose proof (pow2_pos _ Hpow) as Ha.
  by apply OccFormerDecoderLayer_forward_trace.
Qed.

Lemma OccFormerDecoderLayer_forward_shapes_witness :
  OccFormerDecoderLayer_forward 128 (50, 50) 2 [3; 128; 50; 50]
    [3; 7; 128] [3; 7; 128] true (Some ([3; 7], true)) []
  = (Ok ([3; 128; 50; 50], Some [3; 7; 25; 25]),
     ["downsampler"; "self_attention"; "addnorm1";
      "cross_attention"; "addnorm2"; "upsampler"]).
Proof.
  apply (OccFormerDecoderLayer_forward_shapes 128 2 3 7 25 25 true
           (Some ([3; 7], true)) []);
    [lia|by exists 1|lia|lia|lia|lia|by right|intros _; lia].
Defined.

(** X15.  The padding mask is checked where it is used, after
    self-attention.  On a grid that the downsampler accepts
    ([op_attn_scale] a power of two, the sides of the grid multiples of
    it and below [2^53]), a mask that does not have two axes, or whose
    entries are not booleans, ends in the assertion error when the
    downsampler, self-attention and its residual block have already been
    called, and before cross-attention is. *)
Theorem OccFormerDecoderLayer_forward_rejects_pad_mask
    (embed_dim op_attn_scale N A hq wq : nat) (return_attn_mask : bool)
    (pad_shape : list nat) (is_bool : bool) (log : list string) :
  0 < embed_dim → (∃ k, op_attn_scale = 2 ^ k) → 0 < hq → 0 < wq →
  (Z.of_nat (hq * op_attn_scale) < 2 ^ 53)%Z →
  (Z.of_nat (wq * op_attn_scale) < 2 ^ 53)%Z →
  length pad_shape ≠ 2 ∨ is_bool = false →
  OccFormerDecoderLayer_forward embed_dim
    (hq * op_attn_scale, wq * op_attn_scale) op_attn_scale
    [N; embed_dim; hq * op_attn_scale; wq * op_attn_scale]
    [N; A; embed_dim] [N; A; embed_dim] return_attn_mask
    (Some (pad_shape, is_bool)) log
  = (Err AssertionError, log ++ ["downsampler"; "self_attention"; "addnorm1"]).
Proof.
  intros HE Hpow Hhq Hwq Hh Hw Hbad.
  pose proof (pow2_pos _ Hpow) as Ha.
  rewrite OccFormerDecoderLayer_forward_unfold by done.
  rewrite OccFormerDecoderLayer_forward_prefix by done.
  erewrite bind_run_err; [reflexivity|].
  erewrite bind_run_err; [reflexivity|].
  rewrite lift_run. f_equal.
  destruct Hbad as [Hrank| ->]; [|by rewrite andb_false_r].
  by rewrite (proj2 (Nat.eqb_neq _ _) Hrank).
Qed.

Lemma OccFormerDecoderLayer_forward_rejects_pad_mask_witness :
  OccFormerDecoderLayer_forward 128 (50, 50) 2 [3; 128; 50; 50]
    [3; 7; 128] [3; 7; 128] false (Some ([3; 7; 1], true)) []
  = (Err AssertionError, ["downsampler"; "self_attention"; "addnorm1"]).
Proof.
  apply (OccFormerDecoderLayer_forward_rejects_pad_mask 128 2 3 7 25 25 false
           [3; 7; 1] true []); try lia.
  - by exists 1.
  - left. cbn. lia.
Defined.

Lemma bdim_mismatch a b :
  a ≠ b → a ≠ 1 → b ≠ 1 → bdim a b = Err RuntimeError.
Proof.
  intros Hab Ha Hb. unfold bdim.
  by rewrite !(proj2 (Nat.eqb_neq _ _)).
Qed.

(** X16.  A padding mask for another number of agents is not cut or
    repeated to fit.  On a grid that the downsampler accepts
    ([op_attn_scale] a power of two, the sides of the grid multiples of
    it and below [2^53]), with [A] agents in the features and [A'] in
    the mask, neither of them 1, filling the attention mask raises, after
    self-attention and before cross-attention. *)
Theorem OccFormerDecoderLayer_forward_rejects_agent_mismatch
    (embed_dim op_attn_scale N A A' hq wq : nat) (return_attn_mask : bool)
    (log : list string) :
  0 < embed_dim → (∃ k, op_attn_scale = 2 ^ k) → 0 < hq → 0 < wq →
  (Z.of_nat (hq * op_attn_scale) < 2 ^ 53)%Z →
  (Z.of_nat (wq * op_attn_scale) < 2 ^ 53)%Z →
  A' ≠ A → A ≠ 1 → A' ≠ 1 →
  OccFormerDecoderLayer_forward embed_dim
    (hq * op_attn_scale, wq * op_attn_scale) op_attn_scale
    [N; embed_dim; hq * op_attn_scale; wq * op_attn_scale]
    [N; A; embed_dim] [N; A; embed_dim] return_attn_mask
    (Some ([N; A'], true)) log
  = (Err RuntimeError, log ++ ["downsampler"; "self_attention"; "addnorm1"]).
Proof.
  intros HE Hpow Hhq Hwq Hh Hw Hne HA HA'.
  pose proof (pow2_pos _ Hpow) as Ha.
  rewrite OccFormerDecoderLayer_forward_unfold by done.
  rewrite OccFormerDecoderLayer_forward_prefix by done.
  erewrite bind_run_err; [reflexivity|].
  erewrite bind_run by reflexivity.
  erewrite bind_run by reflexivity.
  rewrite lift_run. f_equal.
  unfold bshape. cbn [reverse rev_append bshape_rev].
  rewrite (bdim_mismatch A A') by congruence. reflexivity.
Qed.

Lemma OccFormerDecoderLayer_forward_rejects_agent_mismatch_witness :
  OccFormerDecoderLayer_forward 128 (50, 50) 2 [3; 128; 50; 50]
    [3; 7; 128] [3; 7; 128] false (Some ([3; 6], true)) []
  = (Err RuntimeError, ["downsampler"; "self_attention"; "addnorm1"]).
Proof.
  apply (OccFormerDecoderLayer_forward_rejects_agent_mismatch 128 2 3 7 6 25 25
           false []); try lia.
  by exists 1.
Defined.

Lemma called_run_err {A} name e (log : list string) :
  called name (@Err A e) log = (Err e, log ++ [name]).
Proof. reflexivity. Qed.

Lemma Upsample_cases scale n c h w :
  Upsample scale [n; c; h; w]
  = if (0 <? upsampled_size scale h) && (0 <? upsampled_size scale w)
    then Ok [n; c; upsampled_size scale h; upsampled_size scale w]
    else Err RuntimeError.
Proof. unfold Upsample. cbv zeta. by destruct (_ && _). Qed.

Lemma reshape_shape_cases (target s : list nat) :
  reshape_shape (Some <$> target) s
  = if numel target =? numel s then Ok target else Err RuntimeError.
Proof.
  unfold reshape_shape.
  assert (Hid : omap id (Some <$> target) = target).
  { clear. induction target as [|d t IH]; [done|]. cbn. by rewrite IH. }
  rewrite Hid, length_fmap, Nat.sub_diag. by destruct (_ =? _).
Qed.

(** X17.  The residual connection around the layer needs a grid whose
    sides are multiples of [op_attn_scale]: the features are downsampled
    to the integer quotient and upsampled from it, and when a side is not
    a multiple the upsampled features are smaller than the features they
    are added to.  The layer raises. *)
Theorem OccFormerDecoderLayer_forward_rejects_indivisible_grid
    (embed_dim op_attn_scale N A h w : nat) (return_attn_mask : bool)
    (pad_mask : option (list nat * bool)) (log : list string) :
  0 < embed_dim → 0 < op_attn_scale →
  pad_mask = None ∨ pad_mask = Some ([N; A], true) →
  h mod op_attn_scale ≠ 0 ∨ w mod op_attn_scale ≠ 0 →
  ∃ log',
    OccFormerDecoderLayer_forward embed_dim (h, w) op_attn_scale
      [N; embed_dim; h; w] [N; A; embed_dim] [N; A; embed_dim]
      return_attn_mask pad_mask log
    = (Err RuntimeError, log').
Proof.
  intros HE Ha Hpad Hbad. set (a := op_attn_scale) in *.
  unfold OccFormerDecoderLayer_forward. cbn [fst snd].
  erewrite bind_run by reflexivity.
  rewrite Upsample_cases.
  set (dh := upsampled_size (Over a) h).
  set (dw := upsampled_size (Over a) w).
  destruct ((0 <? dh) && (0 <? dw)) eqn:Hpos.
  2:{ erewrite bind_run_err; [by eexists|]. apply called_run_err. }
  erewrite bind_run by apply called_run.
  erewrite bind_run by reflexivity.
  change [Some N; Some (h / a * (w / a)); Some embed_dim]
    with (Some <$> [N; h / a * (w / a); embed_dim]).
  rewrite reshape_shape_cases.
  destruct (numel [N; h / a * (w / a); embed_dim]
            =? numel [N; dh; dw; embed_dim]).
  2:{ erewrite bind_run_err; [by eexists|]. reflexivity. }
  erewrite bind_run by reflexivity.
  erewrite bind_run by apply called_run.
  erewrite bind_run by apply called_run.
  erewrite bind_run.
  2:{ change (permute [0; 2; 1] [N; A; embed_dim])
        with (Ok [N; embed_dim; A]).
      change (Ok [N; embed_dim; A] ≫= matmul [N; h / a * (w / a); embed_dim])
        with (matmul [N; h / a * (w / a); embed_dim] [N; embed_dim; A]).
      rewrite matmul_same. reflexivity. }
  erewrite (bind_run _ _ _ [N; h / a * (w / a); A]).
  2:{ destruct Hpad as [->| ->]; [reflexivity|].
      erewrite bind_run by reflexivity.
      erewrite bind_run by reflexivity.
      rewrite bshape_pad. reflexivity. }
  erewrite bind_run by apply called_run.
  erewrite bind_run by apply called_run.
  erewrite bind_run by reflexivity.
  erewrite bind_run.
  2:{ change [Some N; Some embed_dim; Some (h / a); Some (w / a)]
        with (Some <$> [N; embed_dim; h / a; w / a]).
      rewrite reshape_shape_known by (cbn; lia). reflexivity. }
  rewrite Upsample_cases. cbn [upsampled_size].
  destruct ((0 <? h / a * a) && (0 <? w / a * a)) eqn:Hup.
  2:{ erewrite bind_run_err; [by eexists|]. apply called_run_err. }
  apply andb_true_iff in Hup as [Hh%Nat.ltb_lt Hw%Nat.ltb_lt].
  assert (Hqh : 0 < h / a) by (destruct (h / a); lia).
  assert (Hqw : 0 < w / a) by (destruct (w / a); lia).
  erewrite bind_run by apply called_run.
  erewrite bind_run_err; [by eexists|].
  rewrite lift_run. f_equal.
  unfold bshape. cbn [reverse rev_append bshape_rev].
  pose proof (Nat.div_mod_eq h a) as Hdh.
  pose proof (Nat.div_mod_eq w a) as Hdw.
  pose proof (Nat.mod_upper_bound h a) as Hmh.
  pose proof (Nat.mod_upper_bound w a) as Hmw.
  destruct (decide (w mod a = 0)) as [Hw0|Hw0].
  - replace (w / a * a) with w by lia.
    rewrite (bdim_same w), (bdim_mismatch (h / a * a) h) by nia.
    reflexivity.
  - rewrite (bdim_mismatch (w / a * a) w) by nia. reflexivity.
Qed.

Lemma OccFormerDecoderLayer_forward_rejects_indivisible_grid_witness :
  ∃ log',
    OccFormerDecoderLayer_forward 128 (25, 25) 2 [3; 128; 25; 25]
      [3; 7; 128] [3; 7; 128] false None []
    = (Err RuntimeError, log').
Proof.
  apply (OccFormerDecoderLayer_forward_rejects_indivisible_grid 128 2 3 7 25 25
           false None []).
  - lia.
  - lia.
  - by left.
  - left. cbn. lia.
Defined.

(** ** OccFormer.forward: the calls it makes *)

Lemma side_small x s :
  0 < s → (Z.of_nat (x * s) < 2 ^ 53)%Z → (Z.of_nat x < 2 ^ 53)%Z.
Proof. intros Hs Hx. assert (x ≤ x * s) by nia. lia. Qed.

Section OccFormerTrace.
Variables (max_num_agents embed_dim num_modes : nat).
Variables (s a : nat) (inference_mode : bool).
Variables (N A hq wq : nat).
Hypothesis N_pos : 0 < N.
Hypothesis A_pos : 0 < A.
Hypothesis A_max : A ≤ max_num_agents.
Hypothesis E_pos : 0 < embed_dim.
Hypothesis K_pos : 0 < num_modes.
Hypothesis s_pos : 0 < s.
Hypothesis a_pos : 0 < a.
Hypothesis s_pow2 : ∃ j, s = 2 ^ j.
Hypothesis a_pow2 : ∃ k, a = 2 ^ k.
Hypothesis hq_pos : 0 < hq.
Hypothesis wq_pos : 0 < wq.
Hypothesis H_small : (Z.of_nat (hq * a * s) < 2 ^ 53)%Z.
Hypothesis W_small : (Z.of_nat (wq * a * s) < 2 ^ 53)%Z.
Variable pad_mask : option (list nat * bool).
Hypothesis pad_ok : pad_mask = None ∨ pad_mask = Some ([N; A], true).

Let H := hq * a * s.
Let W := wq * a * s.
Let dense := [N; embed_dim; hq * a; wq * a].
Let attn := if negb inference_mode then [[N; A; hq; wq]] else [].
Let step_calls :=
  ["temporal_mlp"; "mask_features_mlp"; "downsampler"; "self_attention";
   "addnorm1"; "cross_attention"; "addnorm2"; "upsampler";
   "occ_features_mlp"; "conv_transpose"].

Lemma occ_step_trace log :
  occ_step embed_dim (H, W) s a inference_mode N A
    [N; A; embed_dim * 3] pad_mask dense log
  = (Ok (dense, [N; A; H; W],
         if negb inference_mode then Some [N; A; hq; wq] else None),
     log ++ step_calls).
Proof.
  unfold occ_step. cbn [fst snd]. unfold H, W.
  rewrite !Nat.div_mul by lia.
  erewrite bind_run by (rewrite Linear_shape_3; apply called_run).
  erewrite bind_run by (rewrite Linear_shape_3; apply called_run).
  erewrite bind_run.
  2:{ apply (OccFormerDecoderLayer_forward_trace embed_dim a N A hq wq);
        try done;
        [exact (side_small _ s s_pos H_small)
        |exact (side_small _ s s_pos W_small)]. }
  cbv beta iota.
  erewrite bind_run by (rewrite Linear_shape_3; apply called_run).
  erewrite bind_run.
  2:{ unfold conv_transpose. rewrite Conv_shape_4. cbn [mbind res_bind].
      rewrite Conv_shape_4. cbn [mbind res_bind]. rewrite Conv_shape_4.
      rewrite !Nat.mul_1_r. apply called_run. }
  erewrite bind_run by reflexivity.
  erewrite bind_run.
  2:{ rewrite (reshape_shape_infer _ _ (hq * a * s * (wq * a * s)));
        [reflexivity|reflexivity| |].
      - cbn. nia.
      - cbn. lia. }
  erewrite bind_run.
  2:{ cbn [fmap list_fmap from_option id].
      change (permute [0; 2; 1] [N; hq * a * s * (wq * a * s); embed_dim])
        with (Ok [N; embed_dim; hq * a * s * (wq * a * s)]).
      change (Ok [N; embed_dim; hq * a * s * (wq * a * s)]
              ≫= matmul [N; A; embed_dim])
        with (matmul [N; A; embed_dim]
                [N; embed_dim; hq * a * s * (wq * a * s)]).
      rewrite matmul_same. reflexivity. }
  erewrite bind_run by reflexivity.
  erewrite bind_run.
  2:{ change [Some N; Some A; Some (hq * a * s); Some (wq * a * s)]
        with (Some <$> [N; A; hq * a * s; wq * a * s]).
      rewrite reshape_shape_known by (cbn; lia). reflexivity. }
  unfold step_calls. rewrite <- !app_assoc. reflexivity.
Qed.

Lemma occ_loop_trace tidxs occupancies masks log :
  occ_loop embed_dim (H, W) s a inference_mode N A
    [N; A; embed_dim * 3] pad_mask tidxs dense occupancies masks log
  = (Ok (occupancies ++ replicate (length tidxs) [N; A; H; W],
         masks ++ mjoin (replicate (length tidxs) attn)),
     log ++ mjoin (replicate (length tidxs) step_calls)).
Proof.
  revert occupancies masks log.
  induction tidxs as [|t tidxs IH]; intros occupancies masks log.
  { cbn. by rewrite !app_nil_r. }
  cbn [occ_loop].
  erewrite bind_run by apply occ_step_trace. cbv beta iota.
  rewrite IH. cbn [length replicate mjoin].
  rewrite <- !app_assoc. unfold attn.
  by destruct inference_mode.
Qed.

Lemma OccFormer_forward_trace pred_horizon log :
  OccFormer_forward max_num_agents embed_dim num_modes pred_horizon
    (H, W) s a inference_mode
    [N; H * W; embed_dim] [N; A; embed_dim] [N; A; num_modes; embed_dim]
    pad_mask log
  = match pred_horizon with
    | 0 => (Err RuntimeError,
            log ++ ["mode_pool_module"; "agent_pos_emb"; "downsampler"])
    | S _ =>
        (Ok ([N; A; pred_horizon; H; W],
             if inference_mode then None
             else Some [N; A; pred_horizon; hq; wq]),
         log ++ ["mode_pool_module"; "agent_pos_emb"; "downsampler"]
             ++ mjoin (replicate pred_horizon step_calls))
    end.
Proof.
  unfold OccFormer_forward. cbn [fst snd].
  do 11 (erewrite bind_run by (rewrite ?Nat.eqb_refl; reflexivity)).
  erewrite bind_run.
  2:{ unfold MaxPool2d_shape.
      replace (0 <? A) with true by (symmetry; apply Nat.ltb_lt; lia).
      replace (0 <? num_modes) with true by (symmetry; apply Nat.ltb_lt; lia).
      rewrite Nat.leb_refl.
      replace (1 <=? embed_dim) with true by (symmetry; apply Nat.leb_le; lia).
      apply called_run. }
  rewrite Nat.sub_diag.
  erewrite bind_run by reflexivity.
  erewrite bind_run.
  2:{ unfold agent_pos_emb.
      replace (A <=? max_num_agents) with true
        by (symmetry; apply Nat.leb_le; lia).
      apply called_run. }
  erewrite bind_run by (cbn -[concat_last]; rewrite concat_last_3; reflexivity).
  replace (embed_dim + embed_dim + (embed_dim - 1 + 1)) with (embed_dim * 3)
    by lia.
  erewrite bind_run by reflexivity.
  erewrite bind_run.
  2:{ change [Some N; Some embed_dim; Some H; Some W]
        with (Some <$> [N; embed_dim; H; W]).
      rewrite reshape_shape_known by (cbn; lia). reflexivity. }
  erewrite bind_run
    by (unfold H, W; rewrite Upsample_down by (done || lia);
        apply called_run).
  erewrite bind_run by apply occ_loop_trace. cbv beta iota.
  rewrite length_seq. unfold num_layers_of_OccFormer. cbn [app].
  destruct pred_horizon as [|T].
  { erewrite bind_run_err; [|reflexivity]. by rewrite <- !app_assoc. }
  erewrite bind_run
    by (rewrite stack_dim2_replicate by (cbn; lia); reflexivity).
  cbn [take drop app]. unfold attn.
  destruct inference_mode; cbn [negb].
  - rewrite mjoin_replicate_nil. cbn [length Nat.ltb Nat.leb].
    by rewrite <- !app_assoc.
  - rewrite mjoin_replicate_singleton, length_replicate.
    change (0 <? S T) with true. cbv iota.
    erewrite bind_run
      by (rewrite stack_dim2_replicate by (cbn; lia); reflexivity).
    cbn [take drop app]. by rewrite <- !app_assoc.
Qed.
End OccFormerTrace.

(** X18.  What [OccFormer.forward] returns beside the occupancies, and
    which submodules it calls.  Let the two scale factors be powers of
    two and the sides of the BEV grid multiples of their product, below
    [2^53], so that the sizes the downsamplers compute in double
    precision are the exact quotients.  In inference mode no attention
    mask is returned; otherwise the masks of the [pred_horizon] timesteps
    are stacked on a new axis at dimension 2, one map of the doubly
    downsampled grid per agent and timestep.  The motion modes are
    pooled, the agent positions embedded and the BEV features
    downsampled once; then every timestep calls the two MLPs, its decoder
    layer, the occupancy MLP and the transposed convolution, in this
    order. *)
Theorem OccFormer_forward_attention_masks
    (max_num_agents embed_dim num_modes pred_horizon : nat)
    (bev_downsmaple_scale op_attn_scale : nat) (inference_mode : bool)
    (N A hq wq : nat) (pad_mask : option (list nat * bool))
    (log : list string) :
  0 < N → 0 < A → A ≤ max_num_agents →
  0 < embed_dim → 0 < num_modes → 0 < pred_horizon →
  (∃ j, bev_downsmaple_scale = 2 ^ j) → (∃ k, op_attn_scale = 2 ^ k) →
  0 < hq → 0 < wq →
  (Z.of_nat (hq * op_attn_scale * bev_downsmaple_scale) < 2 ^ 53)%Z →
  (Z.of_nat (wq * op_attn_scale * bev_downsmaple_scale) < 2 ^ 53)%Z →
  pad_mask = None ∨ pad_mask = Some ([N; A], true) →
  let H := hq * op_attn_scale * bev_downsmaple_scale in
  let W := wq * op_attn_scale * bev_downsmaple_scale in
  OccFormer_forward max_num_agents embed_dim num_modes pred_horizon
    (H, W) bev_downsmaple_scale op_attn_scale inference_mode
    [N; H * W; embed_dim] [N; A; embed_dim] [N; A; num_modes; embed_dim]
    pad_mask log
  = (Ok ([N; A; pred_horizon; H; W],
         if inference_mode then None else Some [N; A; pred_horizon; hq; wq]),
     log ++ ["mode_pool_module"; "agent_pos_emb"; "downsampler"]
         ++ mjoin (replicate pred_horizon
                     ["temporal_mlp"; "mask_features_mlp"; "downsampler";
                      "self_attention"; "addnorm1"; "cross_attention";
                      "addnorm2"; "upsampler"; "occ_features_mlp";
                      "conv_transpose"])).
Proof.
  intros HN HA HAm HE HK HT Hsp Hap Hhq Hwq HH HW Hpad H W.
  pose proof (pow2_pos _ Hsp) as Hs. pose proof (pow2_pos _ Hap) as Ha.
  unfold H, W. rewrite OccFormer_forward_trace by done.
  destruct pred_horizon; [lia|reflexivity].
Qed.

Lemma OccFormer_forward_attention_masks_witness :
  OccFormer_forward 10 8 6 2 (16, 8) 4 2 false
    [2; 16 * 8; 8] [2; 3; 8] [2; 3; 6; 8] (Some ([2; 3], true)) []
  = (Ok ([2; 3; 2; 16; 8], Some [2; 3; 2; 2; 1]),
     ["mode_pool_module"; "agent_pos_emb"; "downsampler";
      "temporal_mlp"; "mask_features_mlp"; "downsampler"; "self_attention";
      "addnorm1"; "cross_attention"; "addnorm2"; "upsampler";
      "occ_features_mlp"; "conv_transpose";
      "temporal_mlp"; "mask_features_mlp"; "downsampler"; "self_attention";
      "addnorm1"; "cross_attention"; "addnorm2"; "upsampler";
      "occ_features_mlp"; "conv_transpose"]).
Proof.
  apply (OccFormer_forward_attention_masks 10 8 6 2 4 2 false 2 3 2 1
           (Some ([2; 3], true)) []);
    [lia|lia|lia|lia|lia|lia|by exists 2|by exists 1
    |lia|lia|lia|lia|by right].
Defined.

(** X19.  An [OccFormer] with [pred_horizon = 0] has no timestep to run:
    on inputs that are otherwise valid, [forward] pools the modes, embeds
    the positions and downsamples the BEV features, and then raises at
    [torch.stack] on an empty list. *)
Theorem OccFormer_forward_without_timesteps
    (max_num_agents embed_dim num_modes : nat)
    (bev_downsmaple_scale op_attn_scale : nat) (inference_mode : bool)
    (N A hq wq : nat) (pad_mask : option (list nat * bool))
    (log : list string) :
  0 < N → 0 < A → A ≤ max_num_agents →
  0 < embed_dim → 0 < num_modes →
  0 < bev_downsmaple_scale → 0 < op_attn_scale → 0 < hq → 0 < wq →
  pad_mask = None ∨ pad_mask = Some ([N; A], true) →
  let H := hq * op_attn_scale * bev_downsmaple_scale in
  let W := wq * op_attn_scale * bev_downsmaple_scale in
  OccFormer_forward max_num_agents embed_dim num_modes 0
    (H, W) bev_downsmaple_scale op_attn_scale inference_mode
    [N; H * W; embed_dim] [N; A; embed_dim] [N; A; num_modes; embed_dim]
    pad_mask log
  = (Err RuntimeError,
     log ++ ["mode_pool_module"; "agent_pos_emb"; "downsampler"]).
Proof.
  intros HN HA HAm HE HK Hs Ha Hhq Hwq Hpad H W. unfold H, W. clear H W.
  set (s := bev_downsmaple_scale) in *. set (a := op_attn_scale) in *.
  unfold OccFormer_forward. cbn [fst snd].
  do 11 (erewrite bind_run by (rewrite ?Nat.eqb_refl; reflexivity)).
  erewrite bind_run.
  2:{ unfold MaxPool2d_shape.
      replace (0 <? A) with true by (symmetry; apply Nat.ltb_lt; lia).
      replace (0 <? num_modes) with true by (symmetry; apply Nat.ltb_lt; lia).
      rewrite Nat.leb_refl.
      replace (1 <=? embed_dim) with true by (symmetry; apply Nat.leb_le; lia).
      apply called_run. }
  rewrite Nat.sub_diag.
  erewrite bind_run by reflexivity.
  erewrite bind_run.
  2:{ unfold agent_pos_emb.
      replace (A <=? max_num_agents) with true
        by (symmetry; apply Nat.leb_le; lia).
      apply called_run. }
  erewrite bind_run by (cbn -[concat_last]; rewrite concat_last_3; reflexivity).
  erewrite bind_run by reflexivity.
  erewrite bind_run.
  2:{ change [Some N; Some embed_dim; Some (hq * a * s); Some (wq * a * s)]
        with (Some <$> [N; embed_dim; hq * a * s; wq * a * s]).
      rewrite reshape_shape_known by (cbn; lia). reflexivity. }
  rewrite Upsample_cases.
  destruct (_ && _).
  - erewrite bind_run by apply called_run.
    erewrite bind_run by reflexivity. cbv beta iota.
    erewrite bind_run_err; [|reflexivity]. by rewrite <- !app_assoc.
  - erewrite bind_run_err; [|apply called_run_err].
    by rewrite <- !app_assoc.
Qed.

Lemma OccFormer_forward_without_timesteps_witness :
  OccFormer_forward 10 8 6 0 (16, 8) 4 2 false
    [2; 16 * 8; 8] [2; 3; 8] [2; 3; 6; 8] None []
  = (Err RuntimeError, ["mode_pool_module"; "agent_pos_emb"; "downsampler"]).
Proof.
  apply (OccFormer_forward_without_timesteps 10 8 6 4 2 false 2 3 2 1 None []);
    [lia|lia|lia|lia|lia|lia|lia|lia|lia|by left].
Defined.

(** X20.  A scene without agents cannot be processed: with track queries
    and motion queries for no agent the checks pass, and pooling the
    modes, the first thing [forward] does, raises. *)
Theorem OccFormer_forward_without_agents
    (max_num_agents embed_dim num_modes pred_horizon : nat)
    (bev_feature_hw : nat * nat) (bev_downsmaple_scale op_attn_scale : nat)
    (inference_mode : bool) (nb hw N N' : nat)
    (pad_mask : option (list nat * bool)) (log : list string) :
  OccFormer_forward max_num_agents embed_dim num_modes pred_horizon
    bev_feature_hw bev_downsmaple_scale op_attn_scale inference_mode
    [nb; hw; embed_dim] [N; 0; embed_dim] [N'; 0; num_modes; embed_dim]
    pad_mask log
  = (Err RuntimeError, log ++ ["mode_pool_module"]).
Proof.
  unfold OccFormer_forward.
  do 11 (erewrite bind_run by (rewrite ?Nat.eqb_refl; reflexivity)).
  erewrite bind_run_err; [reflexivity|].
  apply called_run_err.
Qed.

(** ** OccFormer.forward: an empty batch *)

Lemma reshape_shape_empty_batch (e : nat) (s : list nat) :
  reshape_shape [Some 0; None; Some e] s = Err RuntimeError.
Proof. reflexivity. Qed.

Lemma occ_step_empty_batch embed_dim bev_feature_hw
    bev_downsmaple_scale op_attn_scale inference_mode num_agents
    sparse_features pad_mask dense_features log r log' :
  occ_step embed_dim bev_feature_hw bev_downsmaple_scale op_attn_scale
    inference_mode 0 num_agents sparse_features pad_mask dense_features log
  = (Ok r, log') → False.
Proof.
  unfold occ_step. intros Hrun.
  apply bind_inv in Hrun as (agent_features & log1 & _ & Hrun).
  apply bind_inv in Hrun as (mask_features & log2 & _ & Hrun).
  apply bind_inv in Hrun as ([dense' attn] & log3 & _ & Hrun).
  apply bind_inv in Hrun as (occ_features & log4 & _ & Hrun).
  apply bind_inv in Hrun as (proba_map & log5 & _ & Hrun).
  apply bind_inv in Hrun as (proba_map' & log6 & _ & Hrun).
  apply bind_inv in Hrun as (proba_map'' & log7 & [Hreshape _]%lift_inv & _).
  by rewrite reshape_shape_empty_batch in Hreshape.
Qed.

(** X21.  An empty batch cannot be processed.  The batch size is read off
    the track queries; when it is 0, whatever the other inputs and the
    configuration, [forward] does not return: with no timestep it stops
    at [torch.stack], and otherwise the first timestep reshapes a tensor
    without entries to a shape that leaves one size open. *)
Theorem OccFormer_forward_empty_batch
    (max_num_agents embed_dim num_modes pred_horizon : nat)
    (bev_feature_hw : nat * nat) (bev_downsmaple_scale op_attn_scale : nat)
    (inference_mode : bool) (bev_features rest motion_queries : list nat)
    (pad_mask : option (list nat * bool)) (log : list string) :
  ∃ e log',
    OccFormer_forward max_num_agents embed_dim num_modes pred_horizon
      bev_feature_hw bev_downsmaple_scale op_attn_scale inference_mode
      bev_features (0 :: rest) motion_queries pad_mask log
    = (Err e, log').
Proof.
  destruct (OccFormer_forward _ _ _ _ _ _ _ _ _ _ _ _ _)
    as [[r|e] log'] eqn:Hrun; [exfalso|by eauto].
  unfold OccFormer_forward in Hrun.
  do 10 (apply bind_inv in Hrun as (? & ? & _ & Hrun)).
  apply bind_inv in Hrun as (batch_size & log1 & [Hbatch _]%lift_inv & Hrun).
  cbn in Hbatch. injection Hbatch as <-.
  do 7 (apply bind_inv in Hrun as (? & ? & _ & Hrun)).
  apply bind_inv in Hrun as ([occupancies masks] & log2 & Hloop & Hrun).
  unfold num_layers_of_OccFormer in Hloop.
  destruct pred_horizon as [|T].
  - cbn in Hloop. injection Hloop as <- <- <-.
    by apply bind_inv in Hrun as (? & ? & [Hstack _]%lift_inv & _).
  - cbn [seq occ_loop] in Hloop.
    apply bind_inv in Hloop as (step & log3 & Hstep & _).
    by apply occ_step_empty_batch in Hstep.
Qed.

(** ** Pooling the motion modes, once more *)

Lemma maximum_Permutation (l l' : list Z) : l ≡ₚ l' → maximum l = maximum l'.
Proof.
  intros Hp. destruct l as [|z l].
  { apply Permutation_nil_l in Hp. by subst. }
  assert (Hne : z :: l ≠ []) by done.
  assert (Hne' : l' ≠ []).
  { intros ->. by apply Permutation_nil_r in Hp. }
  apply Z.le_antisymm; apply maximum_ge.
  - rewrite <- Hp. by apply maximum_elem_of.
  - rewrite Hp. by apply maximum_elem_of.
Qed.

Lemma window_rows num_modes (plane : list (list Z)) c :
  length plane = num_modes →
  window num_modes 1 plane 0 c
  = mjoin ((λ r : list Z, take 1 (drop c r)) <$> plane).
Proof.
  intros Hlen. unfold window.
  change (drop 0 plane) with plane. by rewrite (take_ge plane num_modes) by lia.
Qed.

Lemma fmap_Forall2_ext {A B} (R : A → A → Prop) (f : A → B) (l l' : list A) :
  Forall2 R l l' → (∀ x y, R x y → f x = f y) → f <$> l = f <$> l'.
Proof.
  intros Hl Hf. induction Hl as [|x y l l' Hxy _ IH]; [reflexivity|].
  cbn. by rewrite (Hf x y Hxy), IH.
Qed.

Lemma planes_Permutation_valid (num_modes E : nat)
    (ag ag' : list (list (list Z))) :
  Forall2 (λ plane plane' : list (list Z), plane ≡ₚ plane') ag ag' →
  Forall (λ plane : list (list Z),
            length plane = num_modes ∧
            Forall (λ r : list Z, length r = E) plane) ag →
  Forall (λ plane : list (list Z),
            length plane = num_modes ∧
            Forall (λ r : list Z, length r = E) plane) ag'.
Proof.
  induction 1 as [|p p' ag ag' Hp _ IH]; intros Hplanes; [constructor|].
  inversion Hplanes as [|?? [Hlen Hrows] Hplanes']; subst.
  constructor; [|by apply IH].
  split; by rewrite <- Hp.
Qed.

Lemma planes_Permutation_pooled (num_modes E : nat)
    (ag ag' : list (list (list Z))) :
  Forall2 (λ plane plane' : list (list Z), plane ≡ₚ plane') ag ag' →
  Forall (λ plane : list (list Z), length plane = num_modes) ag →
  (λ plane : list (list Z),
     (λ c, maximum (window num_modes 1 plane 0 c)) <$> seq 0 E) <$> ag'
  = (λ plane : list (list Z),
       (λ c, maximum (window num_modes 1 plane 0 c)) <$> seq 0 E) <$> ag.
Proof.
  induction 1 as [|p p' ag ag' Hp _ IH]; intros Hplanes; [reflexivity|].
  inversion Hplanes as [|?? Hlen Hplanes']; subst.
  cbn [fmap list_fmap]. f_equal; [|by apply IH].
  apply list_fmap_ext. intros _ c _.
  rewrite !window_rows by (by rewrite <- ?Hp).
  apply maximum_Permutation. by rewrite Hp.
Qed.

(** X22.  Pooling does not depend on the order of the modes: motion
    queries that list the modes of every agent in another order are
    pooled to the same vectors. *)
Theorem pool_modes_permutation_invariant
    (num_modes E : nat) (mq mq' : list (list (list (list Z)))) :
  0 < num_modes → 0 < E →
  Forall (λ agents : list (list (list Z)),
            agents ≠ [] ∧
            Forall (λ plane : list (list Z),
                      length plane = num_modes ∧
                      Forall (λ r : list Z, length r = E) plane) agents) mq →
  Forall2 (Forall2 (λ plane plane' : list (list Z), plane ≡ₚ plane')) mq mq' →
  pool_modes num_modes mq' = pool_modes num_modes mq.
Proof.
  intros HK HE Hmq Hperm.
  assert (Hmq' :
    Forall (λ agents : list (list (list Z)),
              agents ≠ [] ∧
              Forall (λ plane : list (list Z),
                        length plane = num_modes ∧
                        Forall (λ r : list Z, length r = E) plane) agents) mq').
  { clear HK HE. induction Hperm as [|ag ag' mq mq' Hag _ IH]; [constructor|].
    inversion Hmq as [|?? [Hne Hplanes] Hrest]; subst.
    constructor; [|by apply IH]. split.
    - intros ->. inversion Hag; by subst.
    - by apply (planes_Permutation_valid num_modes E ag). }
  rewrite (pool_modes_value num_modes E HK HE mq Hmq).
  rewrite (pool_modes_value num_modes E HK HE mq' Hmq').
  f_equal.
  clear Hmq' HK HE. induction Hperm as [|ag ag' mq mq' Hag _ IH]; [reflexivity|].
  inversion Hmq as [|?? [_ Hplanes] Hrest]; subst.
  cbn [fmap list_fmap]. f_equal; [|by apply IH].
  apply planes_Permutation_pooled; [exact Hag|].
  eapply Forall_impl; [exact Hplanes|]. by intros plane [? _].
Qed.

Lemma pool_modes_permutation_invariant_witness :
  pool_modes 3 [[[[5%Z; 2%Z]; [3%Z; 4%Z]; [1%Z; 9%Z]]]]
  = pool_modes 3 [[[[1%Z; 9%Z]; [5%Z; 2%Z]; [3%Z; 4%Z]]]].
Proof.
  apply (pool_modes_permutation_invariant 3 2
           [[[[1%Z; 9%Z]; [5%Z; 2%Z]; [3%Z; 4%Z]]]]
           [[[[5%Z; 2%Z]; [3%Z; 4%Z]; [1%Z; 9%Z]]]]).
  - lia.
  - lia.
  - repeat constructor; done.
  - repeat constructor.
    apply (Permutation_cons_append [[5%Z; 2%Z]; [3%Z; 4%Z]] [1%Z; 9%Z]).
Defined.

Lemma maximum_replicate n (z : Z) : 0 < n → maximum (replicate n z) = z.
Proof.
  intros Hn. destruct n as [|n]; [lia|]. cbn [replicate maximum].
  induction n as [|n IH]; [reflexivity|].
  cbn [replicate foldl]. rewrite Z.max_id. apply IH. lia.
Qed.

Lemma window_replicate num_modes (v : list Z) c z :
  v !! c = Some z →
  window num_modes 1 (replicate num_modes v) 0 c = replicate num_modes z.
Proof.
  intros Hc. rewrite window_rows by apply length_replicate.
  rewrite fmap_replicate.
  replace (take 1 (drop c v)) with [z].
  - apply mjoin_replicate_singleton.
  - by erewrite drop_S by exact Hc.
Qed.

Lemma pooled_replicate num_modes (v : list Z) :
  0 < num_modes →
  (λ c, maximum (window num_modes 1 (replicate num_modes v) 0 c))
    <$> seq 0 (length v) = v.
Proof.
  intros HK. apply list_eq. intros c.
  rewrite list_lookup_fmap.
  destruct (v !! c) as [z|] eqn:Hc.
  - rewrite lookup_seq_lt by (by eapply lookup_lt_Some). cbn.
    by rewrite (window_replicate num_modes v c z), maximum_replicate.
  - rewrite lookup_seq_ge; [reflexivity|]. by apply lookup_ge_None.
Qed.

(** X23.  Pooling keeps what the modes agree on: when the [num_modes]
    modes of every agent are one and the same vector, the pooled vector
    of the agent is that vector.  With a single mode, pooling returns the
    motion queries as they are, without the mode axis. *)
Theorem pool_modes_equal_modes
    (num_modes E : nat) (vs : list (list (list Z))) :
  0 < num_modes → 0 < E →
  Forall (λ agents : list (list Z),
            agents ≠ [] ∧ Forall (λ v : list Z, length v = E) agents) vs →
  pool_modes num_modes
    ((λ agents : list (list Z),
        (λ v : list Z, replicate num_modes v) <$> agents) <$> vs)
  = Ok vs.
Proof.
  intros HK HE Hvs.
  rewrite (pool_modes_value num_modes E HK HE).
  2:{ apply Forall_fmap. eapply Forall_impl; [exact Hvs|].
      intros agents [Hne Hagents]. cbn. split.
      - by destruct agents.
      - apply Forall_fmap. eapply Forall_impl; [exact Hagents|].
        intros v Hv. cbn. split; [apply length_replicate|].
        by apply Forall_replicate_2. }
  f_equal. rewrite <- list_fmap_compose.
  induction Hvs as [|agents vs [_ Hagents] _ IH]; [reflexivity|].
  cbn [fmap list_fmap compose]. f_equal; [|exact IH].
  rewrite <- list_fmap_compose.
  clear IH. induction Hagents as [|v agents Hv _ IH]; [reflexivity|].
  cbn [fmap list_fmap compose]. f_equal; [|exact IH].
  rewrite <- Hv. by apply pooled_replicate.
Qed.

Lemma pool_modes_equal_modes_witness :
  pool_modes 3 [[[[1%Z; 9%Z]; [1%Z; 9%Z]; [1%Z; 9%Z]];
                 [[5%Z; 2%Z]; [5%Z; 2%Z]; [5%Z; 2%Z]]]]
  = Ok [[[1%Z; 9%Z]; [5%Z; 2%Z]]].
Proof.
  apply (pool_modes_equal_modes 3 2 [[[1%Z; 9%Z]; [5%Z; 2%Z]]]).
  - lia.
  - lia.
  - repeat constructor; done.
Defined.

(** ** Gathering and padding: more track queries than BEV features *)

(** X24.  Nothing ties the batch size of the track queries to that of
    the BEV features.  When the track queries and their mask have more
    batch elements than the BEV features, the elements past the batch
    size are dropped without a word; but the length the kept elements are
    padded to is the largest number of valid tracks over all the
    elements of the mask, the dropped ones included. *)
Theorem pad_tracks_surplus_batch
    (embed_dim batch_size T : nat) (tq : tensor3) (tqm : list (list bool)) :
  0 < batch_size →
  batch_size ≤ length tq →
  length tqm = length tq →
  Forall (λ t : tensor2, length t = T) tq →
  Forall (Forall (λ r : row, length r = embed_dim)) tq →
  Forall (λ m : list bool, length m = T) tqm →
  let max_num_tracks := max_list (mask_sum <$> tqm) in
  pad_tracks embed_dim batch_size tq tqm
  = Ok (take batch_size
          (zip_with (λ (t : list (list Z)) (m : list bool),
                       masked t m
                       ++ replicate (max_num_tracks - mask_sum m)
                                    (replicate embed_dim 0%Z))
                    tq tqm),
        take batch_size
          ((λ m : list bool,
              replicate (mask_sum m) true
              ++ replicate (max_num_tracks - mask_sum m) false) <$> tqm)).
Proof.
  intros HB Hle Htqm Hrect Hwidth Hmrect maxv.
  set (pad_rows := λ (t : list (list Z)) (m : list bool),
         masked t m ++ replicate (maxv - mask_sum m) (replicate embed_dim 0%Z)).
  set (pad_mask := λ m : list bool,
         replicate (mask_sum m) true ++ replicate (maxv - mask_sum m) false).
  assert (Hpos : 0 < length tq) by lia.
  assert (Htq_ne : tq ≠ []) by (intros ->; cbn in Hpos; lia).
  assert (Htqm_ne : tqm ≠ []) by (intros ->; cbn in Htqm; lia).
  unfold pad_tracks.
  rewrite last_dim_is_true by done. cbn [assert mbind res_bind].
  rewrite (shape1_rect tq T), (shape1_rect tqm T), Nat.eqb_refl by done.
  cbn [assert mbind res_bind].
  rewrite tensor_max_nonempty by (by intros ?%fmap_nil_inv).
  cbn [mbind res_bind]. fold maxv.
  set (g := λ i, match tq !! i, tqm !! i with
                 | Some t, Some m => (pad_rows t m, pad_mask m)
                 | _, _ => ([], [])
                 end).
  rewrite (mapM_ext_Ok _ g).
  2:{ intros i [_ Hi]%elem_of_seq. cbn in Hi.
      destruct (lookup_lt_is_Some_2 tq i) as [t Ht]; [lia|].
      destruct (lookup_lt_is_Some_2 tqm i) as [m Hm]; [lia|].
      unfold g. rewrite Ht, Hm.
      exact (pad_one_Ok embed_dim (length tq) T tq tqm Hpos eq_refl Htqm
               Hrect Hmrect i t m Ht Hm). }
  cbn [mbind res_bind].
  assert (Hfst : fst <$> (g <$> seq 0 batch_size)
                 = take batch_size (zip_with pad_rows tq tqm)).
  { apply list_eq. intros i. rewrite !list_lookup_fmap.
    destruct (decide (i < batch_size)) as [Hi|Hi].
    - rewrite lookup_take_lt, lookup_zip_with, lookup_seq_lt by done.
      cbn. unfold g.
      destruct (lookup_lt_is_Some_2 tq i) as [t Ht]; [lia|].
      destruct (lookup_lt_is_Some_2 tqm i) as [m Hm]; [lia|].
      by rewrite Ht, Hm.
    - by rewrite lookup_take_ge, lookup_seq_ge by lia. }
  assert (Hsnd : snd <$> (g <$> seq 0 batch_size)
                 = take batch_size (pad_mask <$> tqm)).
  { apply list_eq. intros i. rewrite !list_lookup_fmap.
    destruct (decide (i < batch_size)) as [Hi|Hi].
    - rewrite lookup_take_lt, list_lookup_fmap, lookup_seq_lt by done.
      cbn. unfold g.
      destruct (lookup_lt_is_Some_2 tq i) as [t Ht]; [lia|].
      destruct (lookup_lt_is_Some_2 tqm i) as [m Hm]; [lia|].
      by rewrite Ht, Hm.
    - by rewrite lookup_take_ge, lookup_seq_ge by lia. }
  rewrite Hfst, Hsnd.
  rewrite (stack_rect (take batch_size (zip_with pad_rows tq tqm)) maxv).
  2:{ intros [?|Hnil]%take_nil_inv; [lia|].
      destruct tq, tqm; done. }
  2:{ apply Forall_take.
      exact (padded_tracks_rect embed_dim (length tq) Hpos T tq tqm
               eq_refl Htqm Hrect Hmrect). }
  cbn [mbind res_bind].
  rewrite (stack_rect (take batch_size (pad_mask <$> tqm)) maxv).
  2:{ intros [?|Hnil]%take_nil_inv; [lia|]. by apply fmap_nil_inv in Hnil. }
  2:{ apply Forall_take.
      exact (padded_mask_rect (length tq) Hpos tq tqm eq_refl Htqm). }
  reflexivity.
Qed.

Lemma pad_tracks_surplus_batch_witness :
  pad_tracks 1 1 [[[1%Z]; [2%Z]]; [[3%Z]; [4%Z]]] [[false; true]; [true; true]]
  = Ok ([[[2%Z]; [0%Z]]], [[true; false]]).
Proof.
  apply (pad_tracks_surplus_batch 1 1 2 [[[1%Z]; [2%Z]]; [[3%Z]; [4%Z]]]
           [[false; true]; [true; true]]).
  - lia.
  - cbn. lia.
  - reflexivity.
  - repeat constructor.
  - repeat constructor.
  - repeat constructor.
Defined.

(** ** From BEV features to a grid *)

Lemma chunks_join {A} n k (ls : list (list A)) :
  length ls = n → Forall (λ l, length l = k) ls → chunks n k (mjoin ls) = ls.
Proof.
  intros <- Hls. unfold chunks.
  induction Hls as [|l ls Hl _ IH]; [reflexivity|].
  change (take k (l ++ mjoin ls)
          :: reshape (replicate (length ls) k) (drop k (l ++ mjoin ls))
          = l :: ls).
  rewrite take_app_length' by done. rewrite drop_app_length' by done.
  by rewrite IH.
Qed.

Lemma chunks_lookup {A} n k (l : list A) i :
  0 < k → length l = n * k → i < n →
  chunks n k l !! i = Some (take k (drop (i * k) l)).
Proof.
  intros Hk Hlen Hi. unfold chunks.
  rewrite (sublist_lookup_reshape l i k n) by done.
  apply sublist_lookup_Some. nia.
Qed.

Lemma length_transpose ncols (m : list (list Z)) :
  length (transpose ncols m) = ncols.
Proof. unfold transpose. by rewrite length_fmap, length_seq. Qed.

Lemma transpose_lookup ncols (m : list (list Z)) c :
  c < ncols →
  transpose ncols m !! c = Some ((λ r : list Z, nth c r 0%Z) <$> m).
Proof.
  intros Hc. unfold transpose.
  by rewrite list_lookup_fmap, lookup_seq_lt.
Qed.

(** X25.  Turning BEV features into a grid puts every feature where it
    belongs: channel [c] of the BEV position [i * W_bev + j] becomes the
    entry of channel [c] at row [i] and column [j] of the grid. *)
Theorem bev_to_grid_entries
    (embed_dim H_bev W_bev N : nat) (bev_features : list (list (list Z))) :
  0 < H_bev → 0 < W_bev →
  has_shape N (H_bev * W_bev) embed_dim bev_features →
  ∃ grid,
    bev_to_grid embed_dim (H_bev, W_bev) bev_features = Ok grid ∧
    length grid = N ∧
    ∀ n (b : list (list Z)), bev_features !! n = Some b →
      ∃ g : list (list (list Z)),
        grid !! n = Some g ∧ length g = embed_dim ∧
        ∀ c i j (feature : list Z) (x : Z),
          i < H_bev → j < W_bev →
          b !! (i * W_bev + j) = Some feature → feature !! c = Some x →
          ∃ (channel : list (list Z)) (r : list Z),
            g !! c = Some channel ∧ length channel = H_bev ∧
            channel !! i = Some r ∧ length r = W_bev ∧
            r !! j = Some x.
Proof.
  intros HH HW [Hlen Hshape].
  set (to_grid := λ b : list (list Z),
         (λ ch : list Z, chunks H_bev W_bev ch) <$> transpose embed_dim b).
  exists (to_grid <$> bev_features). split; [|split].
  - unfold bev_to_grid. apply mapM_ext_Ok. intros b Hb.
    destruct (proj1 (Forall_forall _ _) Hshape b Hb) as [Hrows Hwidth].
    assert (Hne : b ≠ []) by (intros ->; cbn in Hrows; nia).
    rewrite (shape1_rect b embed_dim) by done.
    assert (Hcols : Forall (λ l : list Z, length l = H_bev * W_bev)
                      (transpose embed_dim b)).
    { unfold transpose. apply Forall_fmap, Forall_forall. intros c _. cbn.
      by rewrite length_fmap. }
    rewrite length_join, (sum_list_fmap_same (H_bev * W_bev)) by done.
    rewrite length_transpose, Nat.eqb_refl. cbn [assert_that mbind res_bind].
    by rewrite chunks_join by (done || apply length_transpose).
  - by rewrite length_fmap.
  - intros n b Hb. exists (to_grid b). split; [|split].
    + by rewrite list_lookup_fmap, Hb.
    + unfold to_grid. by rewrite length_fmap, length_transpose.
    + intros c i j feature x Hi Hj Hfeature Hx.
      assert (Hc : c < embed_dim).
      { destruct (proj1 (Forall_lookup _ _) Hshape n b Hb) as [_ Hwidth].
        rewrite <- (proj1 (Forall_lookup _ _) Hwidth _ _ Hfeature).
        by eapply lookup_lt_Some. }
      destruct (proj1 (Forall_lookup _ _) Hshape n b Hb) as [Hrows _].
      set (ch := (λ r : list Z, nth c r 0%Z) <$> b).
      assert (Hch : length ch = H_bev * W_bev)
        by (unfold ch; by rewrite length_fmap).
      exists (chunks H_bev W_bev ch), (take W_bev (drop (i * W_bev) ch)).
      split; [|split; [|split; [|split]]].
      * unfold to_grid.
        by rewrite list_lookup_fmap, transpose_lookup.
      * unfold chunks. by rewrite length_reshape, length_replicate.
      * by apply chunks_lookup.
      * rewrite length_take, length_drop. nia.
      * rewrite lookup_take_lt, lookup_drop by done.
        unfold ch. rewrite list_lookup_fmap, Hfeature. cbn.
        f_equal. by apply nth_lookup_Some.
Qed.

Lemma bev_to_grid_entries_witness :
  bev_to_grid 2 (2, 3)
    [[[1%Z; 10%Z]; [2%Z; 20%Z]; [3%Z; 30%Z];
      [4%Z; 40%Z]; [5%Z; 50%Z]; [6%Z; 60%Z]]]
  = Ok [[[[1%Z; 2%Z; 3%Z]; [4%Z; 5%Z; 6%Z]];
         [[10%Z; 20%Z; 30%Z]; [40%Z; 50%Z; 60%Z]]]].
Proof.
  destruct (bev_to_grid_entries 2 2 3 1
              [[[1%Z; 10%Z]; [2%Z; 20%Z]; [3%Z; 30%Z];
                [4%Z; 40%Z]; [5%Z; 50%Z]; [6%Z; 60%Z]]])
    as (grid & Hgrid & _).
  - lia.
  - lia.
  - repeat constructor.
  - rewrite Hgrid. vm_compute in Hgrid. by injection Hgrid as <-.
Defined.

(** ** Splitting the detections *)

Lemma numel_snoc (init : list nat) k : numel (init ++ [k]) = numel init * k.
Proof.
  unfold numel. induction init as [|n init IH]; cbn; [lia|].
  rewrite IH. lia.
Qed.

Lemma zip_with_take_drop {A} b (rows : list (list A)) :
  zip_with app (take b <$> rows) (drop b <$> rows) = rows.
Proof.
  induction rows as [|r rows IH]; [reflexivity|].
  cbn. by rewrite take_drop, IH.
Qed.

(** X26.  The split of the detections into the detection parameters and
    the mask coefficients loses nothing: the two slices cut every
    detection at the same channel, and put side by side again they are
    the detections.  When [num_seg_coeffs] is at most the width of the
    detections the coefficients are the last [num_seg_coeffs] channels;
    when it is larger the bound of the slices is negative and is counted
    from the end, so that there are fewer coefficients than
    [num_seg_coeffs]. *)
Theorem detections_split
    (init : list nat) (k num_seg_coeffs : nat) (d : list Z) :
  0 < k →
  length d = numel (init ++ [k]) →
  let detections := PTensor (Tensor (init ++ [k]) d) in
  let coef_dim_trunc := (Z.of_nat k - Z.of_nat num_seg_coeffs)%Z in
  ∃ (b : nat) (coefs params : list Z),
    slice_last true coef_dim_trunc detections
      = Ok (PTensor (Tensor (init ++ [k - b]) coefs)) ∧
    slice_last false coef_dim_trunc detections
      = Ok (PTensor (Tensor (init ++ [b]) params)) ∧
    b ≤ k ∧
    (num_seg_coeffs ≤ k → k - b = num_seg_coeffs) ∧
    (k < num_seg_coeffs → b = 2 * k - num_seg_coeffs) ∧
    mjoin (zip_with app (chunks (numel init) b params)
                        (chunks (numel init) (k - b) coefs)) = d.
Proof.
  intros Hk Hlen detections trunc.
  set (b := slice_bound trunc k).
  set (n := numel init).
  assert (Hd : length d = n * k) by (by rewrite Hlen, numel_snoc).
  set (rows := chunks n k d).
  assert (Hrows : Forall (λ r : list Z, length r = k) rows).
  { apply Forall_lookup. intros i r Hr.
    assert (Hi : i < n).
    { apply lookup_lt_Some in Hr. unfold rows, chunks in Hr.
      by rewrite length_reshape, length_replicate in Hr. }
    unfold rows in Hr. rewrite chunks_lookup in Hr by done.
    injection Hr as <-. rewrite length_take, length_drop. nia. }
  assert (Hnrows : length rows = n).
  { unfold rows, chunks. by rewrite length_reshape, length_replicate. }
  assert (Hb : b ≤ k).
  { unfold b, slice_bound, trunc.
    destruct (Z.ltb_spec (Z.of_nat k - Z.of_nat num_seg_coeffs) 0); lia. }
  exists b, (mjoin (drop b <$> rows)), (mjoin (take b <$> rows)).
  assert (Hdiv : length d / k = n) by (rewrite Hd; apply Nat.div_mul; lia).
  split; [|split; [|split; [|split; [|split]]]].
  - unfold detections, slice_last. cbn [shape data].
    rewrite last_snoc, removelast_last, Hdiv. reflexivity.
  - unfold detections, slice_last. cbn [shape data].
    rewrite last_snoc, removelast_last, Hdiv. reflexivity.
  - exact Hb.
  - intros Hle. unfold b, slice_bound, trunc.
    replace (Z.of_nat k - Z.of_nat num_seg_coeffs <? 0)%Z with false
      by (symmetry; apply Z.ltb_ge; lia).
    lia.
  - intros Hlt. unfold b, slice_bound, trunc.
    replace (Z.of_nat k - Z.of_nat num_seg_coeffs <? 0)%Z with true
      by (symmetry; apply Z.ltb_lt; lia).
    lia.
  - rewrite !chunks_join.
    + rewrite zip_with_take_drop. unfold rows, chunks.
      apply join_reshape. rewrite sum_list_replicate. lia.
    + by rewrite length_fmap.
    + apply Forall_fmap. eapply Forall_impl; [exact Hrows|].
      intros r Hr. cbn in Hr |- *. rewrite length_drop. lia.
    + by rewrite length_fmap.
    + apply Forall_fmap. eapply Forall_impl; [exact Hrows|].
      intros r Hr. cbn in Hr |- *. rewrite length_take. lia.
Qed.

Lemma detections_split_witness :
  let detections := PTensor (Tensor [1; 2; 3] [1; 2; 3; 4; 5; 6]%Z) in
  ∃ (b : nat) (coefs params : list Z),
    slice_last true 1 detections = Ok (PTensor (Tensor [1; 2; 3 - b] coefs)) ∧
    slice_last false 1 detections = Ok (PTensor (Tensor [1; 2; b] params)) ∧
    b ≤ 3 ∧
    (2 ≤ 3 → 3 - b = 2) ∧
    (3 < 2 → b = 2 * 3 - 2) ∧
    mjoin (zip_with app (chunks 2 b params) (chunks 2 (3 - b) coefs))
    = [1; 2; 3; 4; 5; 6]%Z.
Proof.
  apply (detections_split [1; 2] 3 2 [1; 2; 3; 4; 5; 6]%Z); [lia|reflexivity].
Defined.
